(** * pdfcrop web front end: viewer, selection overlay and controller

    A shallow embedding of the TypeScript sources of the pdfcrop web
    application:

    - [PDFViewer] (pdf-viewer.ts): render scale, page/canvas coordinate
      conversion, zoom operations;
    - [BBoxOverlay] (bbox-overlay.ts): the rectangle selection gesture;
    - the application controller (main.ts): the per-page selection map,
      file upload, auto-detect, crop and the page-range parser.

    Modelling conventions.
    - A JavaScript [number] that carries a coordinate or a scale is a
      rational ([Q]): finite values with exact arithmetic.  NaN and the
      infinities have no counterpart; page dimensions are taken positive
      wherever a quotient by them matters.  An integer-valued number (page
      numbers, page indices) is a [Z]; [parseInt] returns [option Z] with
      [None] for NaN.  This is exact up to [Number.MAX_SAFE_INTEGER]
      (2^53 - 1); above it the numbers of the code round and a counting
      loop may not end, so the statements about the values read from a
      page-range text assume that they stay below it ([safeText]).
    - [null] is [None].
    - An [async] function is run to completion: every [await] is replaced
      by the outcome of the awaited external call, supplied as an argument
      (the bytes of a file or a rejection, the parsed document or a
      rejection, ...).  A thrown exception is the [Throw] outcome, which
      keeps the state reached before the throw.
    - The DOM is reduced to what the controller state depends on: the
      [hidden] class of the loading overlay, the clip checkbox, the CSS size
      of the overlay canvas, the client size of the canvas container and the
      list of alerts shown.  The elements of the static page are taken to
      exist. *)

From Stdlib Require Import ZArith QArith Qround Qminmax List String Ascii Lia Lqa.
From Stdlib Require Import Sorting.Mergesort Sorting.Sorted Sorting.Permutation Orders.
From stdpp Require Import base option gmap.
Import ListNotations.

Local Open Scope Z_scope.

(* ------------------------------------------------------------------ *)
(** ** JavaScript strings: the fragment used by the page-range parser  *)
(* ------------------------------------------------------------------ *)

Module JSString.

(** White space removed by [String.prototype.trim] and skipped by
    [parseInt], restricted to the one-byte characters (TAB, LF, VT, FF,
    CR, SP). *)
Definition isWhiteSpace (c : ascii) : bool :=
  let n := nat_of_ascii c in
  (Nat.eqb n 9 || Nat.eqb n 10 || Nat.eqb n 11 || Nat.eqb n 12
   || Nat.eqb n 13 || Nat.eqb n 32)%bool.

Fixpoint trimStart (s : string) : string :=
  match s with
  | EmptyString => EmptyString
  | String c s' => if isWhiteSpace c then trimStart s' else s
  end.

(** [trimEnd] drops a character when it is white space and everything
    after it has already been dropped. *)
Fixpoint trimEnd (s : string) : string :=
  match s with
  | EmptyString => EmptyString
  | String c s' =>
      match trimEnd s' with
      | EmptyString => if isWhiteSpace c then EmptyString else String c EmptyString
      | t => String c t
      end
  end.

(** [s.trim()] *)
Definition trim (s : string) : string := trimEnd (trimStart s).

(** [s.split(sep)] for a one-character separator: never the empty list,
    [split sep ""] is [[""]]. *)
Fixpoint split (sep : ascii) (s : string) : list string :=
  match s with
  | EmptyString => [EmptyString]
  | String c s' =>
      if Ascii.eqb c sep then EmptyString :: split sep s'
      else match split sep s' with
           | [] => [String c EmptyString]
           | h :: t => String c h :: t
           end
  end.

(** [s.includes(c)] for a one-character needle. *)
Fixpoint includes (c : ascii) (s : string) : bool :=
  match s with
  | EmptyString => false
  | String a s' => (Ascii.eqb a c || includes c s')%bool
  end.

(** Value of a digit in the given radix (10 or 16), if it is one. *)
Definition digitValue (radix : Z) (c : ascii) : option Z :=
  let n := Z.of_nat (nat_of_ascii c) in
  let v :=
    if (48 <=? n) && (n <=? 57) then Some (n - 48)
    else if (97 <=? n) && (n <=? 102) then Some (n - 87)
    else if (65 <=? n) && (n <=? 70) then Some (n - 55)
    else None in
  match v with
  | Some d => if d <? radix then Some d else None
  | None => None
  end.

(** The longest prefix of digits, read left to right; [acc] is [None]
    until a first digit is seen. *)
Fixpoint parseDigits (radix : Z) (acc : option Z) (s : string) : option Z :=
  match s with
  | EmptyString => acc
  | String c s' =>
      match digitValue radix c with
      | Some d =>
          parseDigits radix
            (Some (match acc with Some a => a * radix + d | None => d end)) s'
      | None => acc
      end
  end.

(** A leading [0x] or [0X] selects radix 16. *)
Definition stripHexPrefix (s : string) : Z * string :=
  match s with
  | String c0 (String c1 rest) =>
      if (Ascii.eqb c0 "0" && (Ascii.eqb c1 "x" || Ascii.eqb c1 "X"))%bool
      then (16, rest) else (10, s)
  | _ => (10, s)
  end.

(** [parseInt(s)] with no radix argument; [None] is NaN.  The value is
    the one the digits spell, which is the number the code gets as long as
    it is at most [Number.MAX_SAFE_INTEGER]. *)
Definition parseInt (s : string) : option Z :=
  let s1 := trimStart s in
  let '(sign, s2) :=
    match s1 with
    | String c r =>
        if Ascii.eqb c "-" then (-1, r)
        else if Ascii.eqb c "+" then (1, r)
        else (1, s1)
    | EmptyString => (1, s1)
    end in
  let '(radix, s3) := stripHexPrefix s2 in
  match parseDigits radix None s3 with
  | Some m => Some (sign * m)
  | None => None
  end.

End JSString.

(* ------------------------------------------------------------------ *)
(** ** The page-range parser (main.ts)                                 *)
(* ------------------------------------------------------------------ *)

(** [Array.prototype.sort((a, b) => a - b)] on integers: a stable merge
    sort by the usual order. *)
Module ZOrder := OTF_to_TTLB BinInt.Z.
Module ZSort := Sort ZOrder.

Module PageRange.
Import JSString.

(** [pages.add(x)] on a [Set] kept in insertion order. *)
Definition setAdd (x : Z) (pages : list Z) : list Z :=
  if existsb (Z.eqb x) pages then pages else pages ++ [x].

(** The values [i] taken by [for (let i = start; i <= end; i++)], for
    bounds up to [Number.MAX_SAFE_INTEGER], where [i++] is exact. *)
Definition loopValues (start end_ : Z) : list Z :=
  map (fun k => start + Z.of_nat k) (seq 0 (Z.to_nat (end_ - start + 1))).

(** The body of the [for (const part of parts)] loop. *)
Definition addPart (pages : list Z) (part : string) : list Z :=
  if includes "-" part then
    match map (fun s => parseInt (trim s)) (split "-" part) with
    | Some start :: Some end_ :: _ =>
        fold_left (fun acc i => setAdd (i - 1) acc) (loopValues start end_) pages
    | _ => pages   (* a NaN bound: the loop condition is false at once *)
    end
  else
    match parseInt part with
    | Some page => setAdd (page - 1) pages
    | None => pages
    end.

(** [parsePageRange(text)]: the sorted contents of the set. *)
Definition parsePageRange (text : string) : list Z :=
  let parts := map trim (split "," text) in
  ZSort.sort (fold_left addPart parts []).

(** The value of the page-range dropdown. *)
Inductive RangeSelect :=
| SelectMissing            (* the select element is not in the page *)
| SelectAll
| SelectCurrent
| SelectCustom (text : string)   (* with the content of the text field *)
| SelectOther.

(** [getPageRange()]; [None] is the null sentinel "all pages". *)
Definition getPageRange (currentPage : Z) (sel : RangeSelect) : option (list Z) :=
  match sel with
  | SelectMissing => None
  | SelectAll => None
  | SelectCurrent => Some [currentPage - 1]
  | SelectCustom text =>
      let pages := parsePageRange text in
      if (0 <? Z.of_nat (length pages)) then Some pages else None
  | SelectOther => None
  end.

End PageRange.

(* ------------------------------------------------------------------ *)
(** ** Outcomes of calls that may throw                                *)
(* ------------------------------------------------------------------ *)

(** The result of a call: a value, or an exception with its message.  For
    an awaited promise, [Throw] is a rejection. *)
Inductive Outcome (A : Type) : Type :=
| Ok (a : A)
| Throw (msg : string).
Arguments Ok {A} a.
Arguments Throw {A} msg.

(** State, exception and event-log monad: a computation transforms a
    state [S], emits events [E] (the callbacks it invokes) and returns or
    throws.  A throw keeps the state reached so far. *)
Definition Eff (S E A : Type) : Type := S -> S * list E * Outcome A.

Definition ret {S E A} (a : A) : Eff S E A := fun s => (s, [], Ok a).

Definition throw {S E A} (msg : string) : Eff S E A := fun s => (s, [], Throw msg).

Definition bind {S E A B} (m : Eff S E A) (k : A -> Eff S E B) : Eff S E B :=
  fun s =>
    match m s with
    | (s1, ev1, Ok a) => let '(s2, ev2, r) := k a s1 in (s2, ev1 ++ ev2, r)
    | (s1, ev1, Throw msg) => (s1, ev1, Throw msg)
    end.

Definition get {S E} : Eff S E S := fun s => (s, [], Ok s).

Definition modify {S E} (f : S -> S) : Eff S E unit := fun s => (f s, [], Ok tt).

Definition emit {S E} (e : E) : Eff S E unit := fun s => (s, [e], Ok tt).

(** [try { m } catch (error) { h error.message }] *)
Definition tryCatch {S E A} (m : Eff S E A) (h : string -> Eff S E A) : Eff S E A :=
  fun s =>
    match m s with
    | (s1, ev1, Ok a) => (s1, ev1, Ok a)
    | (s1, ev1, Throw msg) => let '(s2, ev2, r) := h msg s1 in (s2, ev1 ++ ev2, r)
    end.

(** An awaited external call whose outcome is known. *)
Definition await {S E A} (o : Outcome A) : Eff S E A := fun s => (s, [], o).

Declare Scope eff_scope.
Delimit Scope eff_scope with eff.
Notation "x <- m ;; k" := (bind m (fun x => k))
  (at level 100, m at next level, right associativity) : eff_scope.
Notation "m ;;; k" := (bind m (fun _ => k))
  (at level 100, right associativity) : eff_scope.

(* ------------------------------------------------------------------ *)
(** ** Geometry records                                                *)
(* ------------------------------------------------------------------ *)

(** [PDFBBox]: page coordinates, origin bottom-left. *)
Module BBox.
Record t : Type := mk { left : Q; bottom : Q; right : Q; top : Q }.
Definition zero : t := mk 0 0 0 0.
(** Equality of the four numbers. *)
Definition equiv (a b : t) : Prop :=
  (left a == left b /\ bottom a == bottom b /\ right a == right b /\ top a == top b)%Q.
End BBox.

(** [CanvasRect]: device (CSS pixel) coordinates, origin top-left. *)
Module Rect.
Record t : Type := mk { x : Q; y : Q; width : Q; height : Q }.
Definition zero : t := mk 0 0 0 0.
Definition equiv (a b : t) : Prop :=
  (x a == x b /\ y a == y b /\ width a == width b /\ height a == height b)%Q.
End Rect.

(** [{ x, y }] *)
Module Point.
Record t : Type := mk { x : Q; y : Q }.
Definition equiv (a b : t) : Prop := (x a == x b /\ y a == y b)%Q.
End Point.

(* ------------------------------------------------------------------ *)
(** ** The rendering library, as far as the viewer uses it             *)
(* ------------------------------------------------------------------ *)

(** The contract of the rendering library: a document has pages numbered
    from 1; a page has a size in points, which is the size of its viewport
    at scale 1.0, and the viewport at another scale is that size times the
    scale; rendering a page completes or rejects.  The library reports
    positive page sizes. *)
Module PDFJS.
Local Open Scope Q_scope.

Record PageViewport : Type :=
  mkViewport { vpWidth : Q; vpHeight : Q; vpScale : Q }.

(** A page handle: its size at scale 1.0 and whether [render] completes. *)
Record PDFPageProxy : Type :=
  mkPage { viewWidth : Q; viewHeight : Q; renderCompletes : bool }.

(** [page.getViewport({ scale })] *)
Definition getViewport (p : PDFPageProxy) (scale : Q) : PageViewport :=
  mkViewport (viewWidth p * scale) (viewHeight p * scale) scale.

(** A document handle: its pages, numbered from 1. *)
Record PDFDocumentProxy : Type := mkDocument { pages : list PDFPageProxy }.

Definition numPages (d : PDFDocumentProxy) : Z := Z.of_nat (length (pages d)).

(** [await doc.getPage(n)] *)
Definition getPage (d : PDFDocumentProxy) (n : Z) : Outcome PDFPageProxy :=
  if (n <? 1)%Z then Throw "Invalid page request."
  else match nth_error (pages d) (Z.to_nat (n - 1)) with
       | Some p => Ok p
       | None => Throw "Invalid page request."
       end.
End PDFJS.

(* ------------------------------------------------------------------ *)
(** ** PDFViewer (pdf-viewer.ts)                                       *)
(* ------------------------------------------------------------------ *)

Module Viewer.
Import PDFJS.
Local Open Scope Q_scope.
Local Open Scope eff_scope.

(** [Math.max(a, b)], [Math.min(a, b)], [Math.floor(a)] *)
Definition Math_max (a b : Q) : Q := Qmax a b.
Definition Math_min (a b : Q) : Q := Qmin a b.
Definition Math_floor (a : Q) : Q := inject_Z (Qfloor a).

(** The [canvas-container] element: [None] when it is not in the page,
    otherwise its [clientWidth] and [clientHeight]. *)
Definition Container : Type := option (Z * Z).

(** [(containerEl?.clientWidth || 800) - 60] *)
Definition containerWidth (c : Container) : Q :=
  match c with
  | Some (w, _) => if (w =? 0)%Z then 800 - 60 else inject_Z w - 60
  | None => 800 - 60
  end.

(** [(containerEl?.clientHeight || 600) - 60] *)
Definition containerHeight (c : Container) : Q :=
  match c with
  | Some (_, h) => if (h =? 0)%Z then 600 - 60 else inject_Z h - 60
  | None => 600 - 60
  end.

(** The state of a [PDFViewer].  [overlayCssWidth] and [overlayCssHeight]
    are the CSS size of the overlay canvas, the element the selection
    overlay shares with the viewer; [onPageChange] tells whether the
    callback is set. *)
Record PDFViewer : Type := mkViewer {
  pdfDocument : option PDFDocumentProxy;
  currentPage : Z;
  totalPages : Z;
  scale : Q;
  manualScale : bool;
  currentPageObject : option PDFPageProxy;
  currentViewport : option PageViewport;
  overlayCssWidth : Q;
  overlayCssHeight : Q;
  onPageChange : bool
}.

(** A freshly constructed viewer over canvases of the given CSS size. *)
Definition create (cssWidth cssHeight : Q) : PDFViewer :=
  mkViewer None 1 0 1 false None None cssWidth cssHeight false.

Definition set_pdfDocument (d : PDFDocumentProxy) (v : PDFViewer) : PDFViewer :=
  mkViewer (Some d) (currentPage v) (totalPages v) (scale v) (manualScale v)
    (currentPageObject v) (currentViewport v) (overlayCssWidth v)
    (overlayCssHeight v) (onPageChange v).

Definition set_totalPages (n : Z) (v : PDFViewer) : PDFViewer :=
  mkViewer (pdfDocument v) (currentPage v) n (scale v) (manualScale v)
    (currentPageObject v) (currentViewport v) (overlayCssWidth v)
    (overlayCssHeight v) (onPageChange v).

Definition set_page (p : PDFPageProxy) (n : Z) (v : PDFViewer) : PDFViewer :=
  mkViewer (pdfDocument v) n (totalPages v) (scale v) (manualScale v)
    (Some p) (currentViewport v) (overlayCssWidth v)
    (overlayCssHeight v) (onPageChange v).

Definition set_scale (s : Q) (v : PDFViewer) : PDFViewer :=
  mkViewer (pdfDocument v) (currentPage v) (totalPages v) s (manualScale v)
    (currentPageObject v) (currentViewport v) (overlayCssWidth v)
    (overlayCssHeight v) (onPageChange v).

Definition set_manualScale (b : bool) (v : PDFViewer) : PDFViewer :=
  mkViewer (pdfDocument v) (currentPage v) (totalPages v) (scale v) b
    (currentPageObject v) (currentViewport v) (overlayCssWidth v)
    (overlayCssHeight v) (onPageChange v).

(** Store the viewport and give the canvases its floored CSS size. *)
Definition set_viewport (vp : PageViewport) (v : PDFViewer) : PDFViewer :=
  mkViewer (pdfDocument v) (currentPage v) (totalPages v) (scale v) (manualScale v)
    (currentPageObject v) (Some vp) (Math_floor (vpWidth vp))
    (Math_floor (vpHeight vp)) (onPageChange v).

Definition set_onPageChange (b : bool) (v : PDFViewer) : PDFViewer :=
  mkViewer (pdfDocument v) (currentPage v) (totalPages v) (scale v) (manualScale v)
    (currentPageObject v) (currentViewport v) (overlayCssWidth v)
    (overlayCssHeight v) b.

(** The callbacks a viewer invokes. *)
Inductive Event : Type :=
| PageChange (pageNum total : Z).

Definition VM (A : Type) : Type := Eff PDFViewer Event A.

(** The scale that fits the page into the container, between 0.5 and 3. *)
Definition fitScale (c : Container) (p : PDFPageProxy) : Q :=
  let defaultViewport := getViewport p 1 in
  let scaleX := containerWidth c / vpWidth defaultViewport in
  let scaleY := containerHeight c / vpHeight defaultViewport in
  Math_max (1 # 2) (Math_min (Math_min scaleX scaleY) 3).

(** The body of the [try] block of [renderPage]. *)
Definition renderPageBody (c : Container) (pageNum : Z)
    (doc : PDFDocumentProxy) : VM PageViewport :=
  page <- (fun v => await (getPage doc pageNum) v) ;;
  modify (set_page page pageNum) ;;;
  v <- get ;;
  (if manualScale v then ret tt else modify (set_scale (fitScale c page))) ;;;
  v <- get ;;
  let vp := getViewport page (scale v) in
  modify (set_viewport vp) ;;;
  (if renderCompletes page then ret tt else throw "Rendering failed") ;;;
  v <- get ;;
  (if onPageChange v then emit (PageChange pageNum (totalPages v)) else ret tt) ;;;
  ret vp.

(** [renderPage(pageNum)] *)
Definition renderPage (c : Container) (pageNum : Z) : VM PageViewport :=
  v <- get ;;
  match pdfDocument v with
  | None => throw "No PDF document loaded"
  | Some doc =>
      if ((pageNum <? 1) || (totalPages v <? pageNum))%Z
      then throw "Invalid page number"
      else tryCatch (renderPageBody c pageNum doc)
             (fun msg => throw ("Failed to render page: " ++ msg))
  end.

(** [loadPDF(pdfData)]; [loaded] is the outcome of the library's loading
    task on [pdfData]. *)
Definition loadPDF (c : Container) (loaded : Outcome PDFDocumentProxy) : VM Z :=
  tryCatch
    (doc <- await loaded ;;
     modify (set_pdfDocument doc) ;;;
     modify (set_totalPages (numPages doc)) ;;;
     _ <- renderPage c 1 ;;
     v <- get ;;
     ret (totalPages v))
    (fun msg => throw ("Failed to load PDF: " ++ msg)).

Definition nextPage (c : Container) : VM unit :=
  v <- get ;;
  if (currentPage v <? totalPages v)%Z
  then (_ <- renderPage c (currentPage v + 1) ;; ret tt)
  else ret tt.

Definition previousPage (c : Container) : VM unit :=
  v <- get ;;
  if (1 <? currentPage v)%Z
  then (_ <- renderPage c (currentPage v - 1) ;; ret tt)
  else ret tt.

Definition goToPage (c : Container) (pageNum : Z) : VM PageViewport :=
  renderPage c pageNum.

(** [getPageDimensions()]: width and height at scale 1.0. *)
Definition getPageDimensions (v : PDFViewer) : option (Q * Q) :=
  match currentPageObject v with
  | None => None
  | Some p => let vp := getViewport p 1 in Some (vpWidth vp, vpHeight vp)
  end.

(** [canvasToPDF(canvasX, canvasY)] *)
Definition canvasToPDF (v : PDFViewer) (canvasX canvasY : Q) : option Point.t :=
  match currentViewport v with
  | None => None
  | Some _ =>
      match getPageDimensions v with
      | None => Some (Point.mk 0 0)
      | Some (_, pageHeight) =>
          let pdfX := canvasX / scale v in
          let pdfY := pageHeight - canvasY / scale v in
          Some (Point.mk pdfX pdfY)
      end
  end.

(** [pdfToCanvas(pdfX, pdfY)] *)
Definition pdfToCanvas (v : PDFViewer) (pdfX pdfY : Q) : option Point.t :=
  match currentViewport v with
  | None => None
  | Some _ =>
      match getPageDimensions v with
      | None => None
      | Some (_, pageHeight) =>
          let canvasX := pdfX * scale v in
          let canvasY := (pageHeight - pdfY) * scale v in
          Some (Point.mk canvasX canvasY)
      end
  end.

(** [canvasRectToPDFBbox(rect)] *)
Definition canvasRectToPDFBbox (v : PDFViewer) (rect : Rect.t) : BBox.t :=
  let topLeft := canvasToPDF v (Rect.x rect) (Rect.y rect) in
  let bottomRight :=
    canvasToPDF v (Rect.x rect + Rect.width rect) (Rect.y rect + Rect.height rect) in
  match topLeft, bottomRight with
  | Some tl, Some br => BBox.mk (Point.x tl) (Point.y br) (Point.x br) (Point.y tl)
  | _, _ => BBox.mk 0 0 0 0
  end.

(** [pdfBboxToCanvasRect(bbox)] *)
Definition pdfBboxToCanvasRect (v : PDFViewer) (bbox : BBox.t) : Rect.t :=
  let topLeft := pdfToCanvas v (BBox.left bbox) (BBox.top bbox) in
  let bottomRight := pdfToCanvas v (BBox.right bbox) (BBox.bottom bbox) in
  match topLeft, bottomRight with
  | Some tl, Some br =>
      Rect.mk (Point.x tl) (Point.y tl)
        (Point.x br - Point.x tl) (Point.y br - Point.y tl)
  | _, _ => Rect.mk 0 0 0 0
  end.

Definition getScale (v : PDFViewer) : Q := scale v.

Definition isManuallyScaled (v : PDFViewer) : bool := manualScale v.

(** [setScale(newScale)] *)
Definition setScale (c : Container) (newScale : Q) : VM unit :=
  modify (set_scale (Math_max (1 # 2) (Math_min 3 newScale))) ;;;
  modify (set_manualScale true) ;;;
  v <- get ;;
  _ <- renderPage c (currentPage v) ;;
  ret tt.

Definition zoomIn (c : Container) : VM unit :=
  v <- get ;; setScale c (scale v * (125 # 100)).

Definition zoomOut (c : Container) : VM unit :=
  v <- get ;; setScale c (scale v / (125 # 100)).

Definition fitToWidth (c : Container) : VM unit :=
  v <- get ;;
  match currentPageObject v with
  | None => ret tt
  | Some p =>
      let defaultViewport := getViewport p 1 in
      let newScale := containerWidth c / vpWidth defaultViewport in
      setScale c newScale
  end.

Definition fitToPage (c : Container) : VM unit :=
  modify (set_manualScale false) ;;;
  v <- get ;;
  _ <- renderPage c (currentPage v) ;;
  ret tt.

(** What a client does to a viewer: the public methods that change its
    state, with their arguments, and the assignment of the [onPageChange]
    field. *)
Inductive Op : Type :=
| OpSetOnPageChange (isSet : bool)
| OpLoadPDF (loaded : Outcome PDFDocumentProxy)
| OpRenderPage (pageNum : Z)
| OpNextPage
| OpPreviousPage
| OpSetScale (newScale : Q)
| OpZoomIn
| OpZoomOut
| OpFitToWidth
| OpFitToPage.

(** Run one operation with the container as it is at that moment; the
    state is kept whether the operation returns or throws. *)
Definition runOp (v : PDFViewer) (step : Container * Op) : PDFViewer :=
  let '(c, op) := step in
  match op with
  | OpSetOnPageChange b => set_onPageChange b v
  | OpLoadPDF loaded => fst (fst (loadPDF c loaded v))
  | OpRenderPage n => fst (fst (renderPage c n v))
  | OpNextPage => fst (fst (nextPage c v))
  | OpPreviousPage => fst (fst (previousPage c v))
  | OpSetScale s => fst (fst (setScale c s v))
  | OpZoomIn => fst (fst (zoomIn c v))
  | OpZoomOut => fst (fst (zoomOut c v))
  | OpFitToWidth => fst (fst (fitToWidth c v))
  | OpFitToPage => fst (fst (fitToPage c v))
  end.

Definition runOps (v : PDFViewer) (steps : list (Container * Op)) : PDFViewer :=
  fold_left runOp steps v.

(** The range the scale is clamped to, and the invariant that the scale
    of a viewer is in it. *)
Definition inRange (s : Q) : Prop := 1 # 2 <= s /\ s <= 3.

Definition scaleOk (v : PDFViewer) : Prop := inRange (scale v).

End Viewer.

(* ------------------------------------------------------------------ *)
(** ** BBoxOverlay (bbox-overlay.ts)                                   *)
(* ------------------------------------------------------------------ *)

Module Overlay.
Import Viewer.
Local Open Scope Q_scope.
Local Open Scope eff_scope.

(** The selection state of a [BBoxOverlay]; the two flags tell whether
    the callbacks were given to the constructor. *)
Record BBoxOverlay : Type := mkOverlay {
  isDrawing : bool;
  startX : Q;
  startY : Q;
  currentX : Q;
  currentY : Q;
  currentBbox : option BBox.t;
  onBboxChange : bool;
  onBboxComplete : bool
}.

Definition create (onChange onComplete : bool) : BBoxOverlay :=
  mkOverlay false 0 0 0 0 None onChange onComplete.

(** The callbacks an overlay invokes, with their argument. *)
Inductive Event : Type :=
| BboxChange (pdfBbox : option BBox.t)
| BboxComplete (pdfBbox : option BBox.t).

Definition OM (A : Type) : Type := Eff BBoxOverlay Event A.

Definition set_drawing (b : bool) (o : BBoxOverlay) : BBoxOverlay :=
  mkOverlay b (startX o) (startY o) (currentX o) (currentY o) (currentBbox o)
    (onBboxChange o) (onBboxComplete o).

Definition set_start (x y : Q) (o : BBoxOverlay) : BBoxOverlay :=
  mkOverlay (isDrawing o) x y (currentX o) (currentY o) (currentBbox o)
    (onBboxChange o) (onBboxComplete o).

Definition set_current (x y : Q) (o : BBoxOverlay) : BBoxOverlay :=
  mkOverlay (isDrawing o) (startX o) (startY o) x y (currentBbox o)
    (onBboxChange o) (onBboxComplete o).

Definition set_currentBbox (b : option BBox.t) (o : BBoxOverlay) : BBoxOverlay :=
  mkOverlay (isDrawing o) (startX o) (startY o) (currentX o) (currentY o) b
    (onBboxChange o) (onBboxComplete o).

(** [getCanvasBbox()]; [canvasWidth] and [canvasHeight] are the size of
    the bounding client rectangle of the overlay canvas. *)
Definition getCanvasBbox (canvasWidth canvasHeight : Q) (o : BBoxOverlay) : Rect.t :=
  let x1 := Math_min (startX o) (currentX o) in
  let y1 := Math_min (startY o) (currentY o) in
  let x2 := Math_max (startX o) (currentX o) in
  let y2 := Math_max (startY o) (currentY o) in
  let x1 := Math_max 0 (Math_min x1 canvasWidth) in
  let y1 := Math_max 0 (Math_min y1 canvasHeight) in
  let x2 := Math_max 0 (Math_min x2 canvasWidth) in
  let y2 := Math_max 0 (Math_min y2 canvasHeight) in
  Rect.mk x1 y1 (x2 - x1) (y2 - y1).

(** [canvasBboxToPdf(canvasBbox)] *)
Definition canvasBboxToPdf (pdfViewer : option PDFViewer) (canvasBbox : Rect.t)
    : option BBox.t :=
  match pdfViewer with
  | None => None
  | Some v => Some (canvasRectToPDFBbox v canvasBbox)
  end.

(** The bounding client rectangle of the overlay canvas is its CSS box,
    the one [renderPage] sizes. *)
Definition canvasSize (v : PDFViewer) : Q * Q :=
  (overlayCssWidth v, overlayCssHeight v).

(** The page box of the current drawing coordinates. *)
Definition currentPdfBbox (v : PDFViewer) (o : BBoxOverlay) : option BBox.t :=
  let '(w, h) := canvasSize v in
  canvasBboxToPdf (Some v) (getCanvasBbox w h o).

Definition startDrawing (x y : Q) : OM unit :=
  modify (set_drawing true) ;;;
  modify (set_start x y) ;;;
  modify (set_current x y).

Definition updateDrawing (v : PDFViewer) (x y : Q) : OM unit :=
  modify (set_current x y) ;;;
  o <- get ;;
  if onBboxChange o then emit (BboxChange (currentPdfBbox v o)) else ret tt.

Definition finishDrawing (v : PDFViewer) (x y : Q) : OM unit :=
  modify (set_current x y) ;;;
  modify (set_drawing false) ;;;
  o <- get ;;
  let pdfBbox := currentPdfBbox v o in
  modify (set_currentBbox pdfBbox) ;;;
  if onBboxComplete o then emit (BboxComplete pdfBbox) else ret tt.

(** Pointer handlers; [(x, y)] is the pointer position relative to the
    overlay canvas, not clamped. *)
Definition onMouseDown (x y : Q) : OM unit := startDrawing x y.

Definition onMouseMove (v : PDFViewer) (x y : Q) : OM unit :=
  o <- get ;; if isDrawing o then updateDrawing v x y else ret tt.

Definition onMouseUp (v : PDFViewer) (x y : Q) : OM unit :=
  o <- get ;; if isDrawing o then finishDrawing v x y else ret tt.

(** [setBbox(pdfBbox)] *)
Definition setBbox (v : PDFViewer) (pdfBbox : option BBox.t) : OM unit :=
  match pdfBbox with
  | None => modify (set_currentBbox None)
  | Some b =>
      modify (set_currentBbox (Some b)) ;;;
      let canvasRect := pdfBboxToCanvasRect v b in
      modify (set_start (Rect.x canvasRect) (Rect.y canvasRect)) ;;;
      modify (set_current (Rect.x canvasRect + Rect.width canvasRect)
                          (Rect.y canvasRect + Rect.height canvasRect))
  end.

Definition getBbox (o : BBoxOverlay) : option BBox.t := currentBbox o.

(** A whole selection gesture on an idle overlay: pointer down at
    [(x0, y0)], moves, pointer up at [(x1, y1)]. *)
Definition gesture (v : PDFViewer) (x0 y0 : Q) (moves : list (Q * Q)) (x1 y1 : Q)
    : OM unit :=
  onMouseDown x0 y0 ;;;
  fold_right (fun '(x, y) k => onMouseMove v x y ;;; k) (ret tt) moves ;;;
  onMouseUp v x1 y1.

End Overlay.

(* ------------------------------------------------------------------ *)
(** ** The application controller (main.ts)                            *)
(* ------------------------------------------------------------------ *)

Module App.
Import PDFJS.
Local Open Scope eff_scope.

Definition Bytes : Type := list Byte.byte.

(** What [cropPdf] receives. *)
Record CropRequest : Type := mkCropRequest {
  reqData : Bytes;
  reqMargins : Q * Q * Q * Q;          (* left, top, right, bottom *)
  reqShrinkToContent : bool;
  reqClipContent : bool;
  reqBboxes : option (gmap Z BBox.t);
  reqPageRange : option (list Z)
}.

(** The world outside the controller: the container element, the
    rendering library's loader and the entry points of the processing
    module. *)
Record Env : Type := mkEnv {
  container : Viewer.Container;
  getDocument : Bytes -> Outcome PDFDocumentProxy;
  detectBbox : Bytes -> Z -> Outcome BBox.t;
  cropPdf : CropRequest -> Outcome Bytes
}.

(** An uploaded [File]: its name and the outcome of [arrayBuffer()]. *)
Record File : Type := mkFile { fileName : string; arrayBuffer : Outcome Bytes }.

(** The crop form: the four margin fields as the numbers [handleCrop]
    reads from them ([parseFloat(value || '0') || 0], in the order left,
    top, right, bottom), the shrink checkbox and the page-range dropdown. *)
Record CropForm : Type := mkCropForm {
  margins : Q * Q * Q * Q;
  shrinkToContent : bool;
  pageRangeSelect : PageRange.RangeSelect
}.

(** The module-level variables of main.ts, and the part of the page they
    drive: [loadingHidden] is the [hidden] class of the loading overlay,
    [clipContent] the clip checkbox, [alerts] the alerts shown and
    [downloads] the files offered for download, latest first. *)
Record App : Type := mkApp {
  pdfViewer : option Viewer.PDFViewer;
  bboxOverlay : option Overlay.BBoxOverlay;
  currentPDFData : option Bytes;
  currentPDFFilename : string;
  currentPage : Z;
  totalPages : Z;
  pageBboxes : gmap Z BBox.t;
  loadingHidden : bool;
  clipContent : bool;
  alerts : list string;
  downloads : list (Bytes * string)
}.

(** The state [initialize] leaves when it succeeds, over canvases of the
    given CSS size. *)
Definition initial (cssWidth cssHeight : Q) : App :=
  mkApp (Some (Viewer.create cssWidth cssHeight)) (Some (Overlay.create true true))
    None "document.pdf" 1 0 ∅ true false [] [].

Definition set_pdfViewer (v : Viewer.PDFViewer) (s : App) : App :=
  mkApp (Some v) (bboxOverlay s) (currentPDFData s) (currentPDFFilename s)
    (currentPage s) (totalPages s) (pageBboxes s) (loadingHidden s)
    (clipContent s) (alerts s) (downloads s).

Definition set_bboxOverlay (o : Overlay.BBoxOverlay) (s : App) : App :=
  mkApp (pdfViewer s) (Some o) (currentPDFData s) (currentPDFFilename s)
    (currentPage s) (totalPages s) (pageBboxes s) (loadingHidden s)
    (clipContent s) (alerts s) (downloads s).

Definition set_document (data : Bytes) (name : string) (s : App) : App :=
  mkApp (pdfViewer s) (bboxOverlay s) (Some data) name
    (currentPage s) (totalPages s) (pageBboxes s) (loadingHidden s)
    (clipContent s) (alerts s) (downloads s).

Definition set_currentPage (n : Z) (s : App) : App :=
  mkApp (pdfViewer s) (bboxOverlay s) (currentPDFData s) (currentPDFFilename s)
    n (totalPages s) (pageBboxes s) (loadingHidden s)
    (clipContent s) (alerts s) (downloads s).

Definition set_totalPages (n : Z) (s : App) : App :=
  mkApp (pdfViewer s) (bboxOverlay s) (currentPDFData s) (currentPDFFilename s)
    (currentPage s) n (pageBboxes s) (loadingHidden s)
    (clipContent s) (alerts s) (downloads s).

Definition set_pageBboxes (m : gmap Z BBox.t) (s : App) : App :=
  mkApp (pdfViewer s) (bboxOverlay s) (currentPDFData s) (currentPDFFilename s)
    (currentPage s) (totalPages s) m (loadingHidden s)
    (clipContent s) (alerts s) (downloads s).

Definition set_loadingHidden (b : bool) (s : App) : App :=
  mkApp (pdfViewer s) (bboxOverlay s) (currentPDFData s) (currentPDFFilename s)
    (currentPage s) (totalPages s) (pageBboxes s) b
    (clipContent s) (alerts s) (downloads s).

Definition set_clipContent (b : bool) (s : App) : App :=
  mkApp (pdfViewer s) (bboxOverlay s) (currentPDFData s) (currentPDFFilename s)
    (currentPage s) (totalPages s) (pageBboxes s) (loadingHidden s)
    b (alerts s) (downloads s).

Definition add_alert (msg : string) (s : App) : App :=
  mkApp (pdfViewer s) (bboxOverlay s) (currentPDFData s) (currentPDFFilename s)
    (currentPage s) (totalPages s) (pageBboxes s) (loadingHidden s)
    (clipContent s) (msg :: alerts s) (downloads s).

Definition add_download (data : Bytes) (name : string) (s : App) : App :=
  mkApp (pdfViewer s) (bboxOverlay s) (currentPDFData s) (currentPDFFilename s)
    (currentPage s) (totalPages s) (pageBboxes s) (loadingHidden s)
    (clipContent s) (alerts s) ((data, name) :: downloads s).

(** The controller invokes no callbacks of its own. *)
Definition AM (A : Type) : Type := Eff App Empty_set A.

Definition showLoading : AM unit := modify (set_loadingHidden false).
Definition hideLoading : AM unit := modify (set_loadingHidden true).
Definition alert (msg : string) : AM unit := modify (add_alert msg).

(** [autoEnableClipMode()]: tick the clip checkbox. *)
Definition autoEnableClipMode : AM unit := modify (set_clipContent true).

(** Run an overlay method on the controller's overlay.  The overlay holds
    a reference to the controller's viewer, so the method sees the viewer
    as it is now.  The events come back to the caller, which dispatches
    them to the callbacks given in [initialize]. *)
Definition runOverlay (m : Viewer.PDFViewer -> Overlay.OM unit) (s : App)
    : App * list Overlay.Event :=
  match pdfViewer s, bboxOverlay s with
  | Some v, Some o =>
      let '(o', evs, _) := m v o in (set_bboxOverlay o' s, evs)
  | _, _ => (s, [])
  end.

(** [renderBboxOverlay()]: show the stored box of the current page. *)
Definition renderBboxOverlay : AM unit :=
  s <- get ;;
  match pageBboxes s !! (currentPage s - 1) with
  | Some bbox =>
      modify (fun s => fst (runOverlay (fun v => Overlay.setBbox v (Some bbox)) s))
  | None => ret tt    (* [bboxOverlay.clear()] only wipes the canvas *)
  end.

(** The [onBboxComplete] callback given to the overlay. *)
Definition onBboxComplete (pdfBbox : option BBox.t) : AM unit :=
  match pdfBbox with
  | Some b =>
      s <- get ;;
      modify (set_pageBboxes (<[currentPage s - 1 := b]> (pageBboxes s))) ;;;
      autoEnableClipMode
  | None => ret tt
  end.

(** The [onBboxChange] callback only refreshes the displayed numbers. *)
Definition onBboxChange (pdfBbox : option BBox.t) : AM unit := ret tt.

Definition dispatchOverlayEvent (e : Overlay.Event) : AM unit :=
  match e with
  | Overlay.BboxChange b => onBboxChange b
  | Overlay.BboxComplete b => onBboxComplete b
  end.

Fixpoint dispatchAll {E} (h : E -> AM unit) (evs : list E) : AM unit :=
  match evs with
  | [] => ret tt
  | e :: rest => h e ;;; dispatchAll h rest
  end.

(** A pointer event reaching the overlay, followed by the callbacks it
    triggers. *)
Definition overlayEvent (m : Viewer.PDFViewer -> Overlay.OM unit) : AM unit :=
  s <- get ;;
  let '(s', evs) := runOverlay m s in
  modify (fun _ => s') ;;;
  dispatchAll dispatchOverlayEvent evs.

Definition mouseDown (x y : Q) : AM unit :=
  overlayEvent (fun _ => Overlay.onMouseDown x y).
Definition mouseMove (x y : Q) : AM unit :=
  overlayEvent (fun v => Overlay.onMouseMove v x y).
Definition mouseUp (x y : Q) : AM unit :=
  overlayEvent (fun v => Overlay.onMouseUp v x y).

(** The [onPageChange] callback installed by [handleFileUpload]. *)
Definition onPageChange (e : Viewer.Event) : AM unit :=
  match e with
  | Viewer.PageChange pageNum _ =>
      modify (set_currentPage pageNum) ;;;
      renderBboxOverlay
  end.

(** Call a viewer method on [pdfViewer]; a null viewer is a [TypeError].
    The [onPageChange] calls are the last thing every viewer method does,
    so running them after it leaves the same state. *)
Definition callViewer {A} (m : Viewer.VM A) : AM A :=
  s <- get ;;
  match pdfViewer s with
  | None => throw "Cannot read properties of null"
  | Some v =>
      let '(v', evs, r) := m v in
      modify (set_pdfViewer v') ;;;
      dispatchAll onPageChange evs ;;;
      await r
  end.

(** [handleFileUpload(file)].  The thumbnails are drawn on canvases of
    their own and their errors are caught; the deferred [fitToPage] is
    [afterUploadTimer]. *)
Definition handleFileUpload (env : Env) (file : File) : AM unit :=
  showLoading ;;;
  tryCatch
    (data <- await (arrayBuffer file) ;;
     modify (set_document data (fileName file)) ;;;
     modify (set_pageBboxes ∅) ;;;
     n <- callViewer (Viewer.loadPDF (container env) (getDocument env data)) ;;
     modify (set_totalPages n) ;;;
     modify (set_currentPage 1) ;;;
     callViewer (modify (Viewer.set_onPageChange true)) ;;;
     hideLoading)
    (fun msg =>
       alert ("Failed to load PDF: " ++ msg) ;;;
       hideLoading).

(** The [setTimeout] callback scheduled by [handleFileUpload]. *)
Definition afterUploadTimer (env : Env) : AM unit :=
  s <- get ;;
  match pdfViewer s with
  | Some _ => callViewer (Viewer.fitToPage (container env))
  | None => ret tt
  end.

(** [handleAutoDetect()] *)
Definition handleAutoDetect (env : Env) : AM unit :=
  s <- get ;;
  match currentPDFData s, bboxOverlay s with
  | Some data, Some _ =>
      showLoading ;;;
      tryCatch
        (bbox <- await (detectBbox env data (currentPage s - 1)) ;;
         modify (set_pageBboxes (<[currentPage s - 1 := bbox]> (pageBboxes s))) ;;;
         modify (fun s => fst (runOverlay (fun v => Overlay.setBbox v (Some bbox)) s)) ;;;
         hideLoading)
        (fun msg =>
           alert ("Failed to detect crop region: " ++ msg) ;;;
           hideLoading)
  | _, _ => ret tt
  end.

(** [currentPDFFilename.replace(/\.pdf$/i, '')] *)
Fixpoint stripPdfSuffix (name : string) : string :=
  match name with
  | EmptyString => EmptyString
  | String c rest =>
      match name with
      | String "." (String p (String d (String f EmptyString))) =>
          if ((Ascii.eqb p "p" || Ascii.eqb p "P")
              && (Ascii.eqb d "d" || Ascii.eqb d "D")
              && (Ascii.eqb f "f" || Ascii.eqb f "F"))%bool
          then EmptyString else String c (stripPdfSuffix rest)
      | _ => String c (stripPdfSuffix rest)
      end
  end.

(** [handleCrop()] *)
Definition handleCrop (env : Env) (form : CropForm) : AM unit :=
  s <- get ;;
  match currentPDFData s with
  | None => ret tt
  | Some data =>
      showLoading ;;;
      tryCatch
        (let bboxesObject :=
           if (0 <? Z.of_nat (size (pageBboxes s)))%Z
           then Some (pageBboxes s) else None in
         let pageRange :=
           PageRange.getPageRange (currentPage s) (pageRangeSelect form) in
         let request :=
           mkCropRequest data (margins form) (shrinkToContent form)
             (clipContent s) bboxesObject pageRange in
         croppedPDF <- await (cropPdf env request) ;;
         let outputFilename := (stripPdfSuffix (currentPDFFilename s) ++ "-crop.pdf")%string in
         modify (add_download croppedPDF outputFilename) ;;;
         hideLoading)
        (fun msg =>
           alert ("Failed to crop PDF: " ++ msg) ;;;
           hideLoading)
  end.

(** The reset button. *)
Definition resetCrop : AM unit := modify (set_pageBboxes ∅).

(** The state a handler leaves. *)
Definition exec {A} (m : AM A) (s : App) : App := fst (fst (m s)).

(** Whether a handler ended in its [catch] branch is visible in the
    alerts: every [catch] shows one. *)
Definition failed {A} (m : AM A) (s : App) : Prop :=
  length (alerts (exec m s)) = S (length (alerts s)).

(** The stored document and its selections are those of [s0]. *)
Definition sameDocument (s0 s : App) : Prop :=
  currentPDFData s = currentPDFData s0
  /\ currentPDFFilename s = currentPDFFilename s0
  /\ pageBboxes s = pageBboxes s0.

(** [s'] is [s] up to the loading overlay and the alerts shown. *)
Definition unchanged (s s' : App) : Prop :=
  pdfViewer s' = pdfViewer s
  /\ bboxOverlay s' = bboxOverlay s
  /\ currentPDFData s' = currentPDFData s
  /\ currentPDFFilename s' = currentPDFFilename s
  /\ currentPage s' = currentPage s
  /\ totalPages s' = totalPages s
  /\ pageBboxes s' = pageBboxes s
  /\ clipContent s' = clipContent s
  /\ downloads s' = downloads s.

(** The three operations that show the loading overlay. *)
Inductive Operation : Type :=
| Load (file : File)
| Crop (form : CropForm)
| Detect.

Definition handler (env : Env) (op : Operation) : AM unit :=
  match op with
  | Load file => handleFileUpload env file
  | Crop form => handleCrop env form
  | Detect => handleAutoDetect env
  end.

End App.

(* ------------------------------------------------------------------ *)
(** ** Assertions on effectful code                                    *)
(* ------------------------------------------------------------------ *)

Section Assertions.
Context {S E : Type} (P : S -> Prop).

(** [m] keeps [P]: from a state in [P] it ends in a state in [P], whether
    it returns or throws. *)
Definition preserves {A} (m : Eff S E A) : Prop :=
  forall s, P s -> P (fst (fst (m s))).

(** [m] started in [P] ends in [Q] when it returns and in [R] when it
    throws. *)
Definition hoare {A} (m : Eff S E A) (Q : A -> S -> Prop) (R : S -> Prop) : Prop :=
  forall s, P s ->
    match m s with
    | (s', _, Ok a) => Q a s'
    | (s', _, Throw _) => R s'
    end.

End Assertions.

(* ------------------------------------------------------------------ *)
(** ** Decimal numerals                                                *)
(* ------------------------------------------------------------------ *)

Module Numeral.

(** The character of a decimal digit. *)
Definition digitChar (d : Z) : ascii := ascii_of_nat (Z.to_nat (48 + d)).

Definition isDigit (c : ascii) : bool :=
  match JSString.digitValue 10 c with Some _ => true | None => false end.

Fixpoint allDigits (s : string) : bool :=
  match s with
  | EmptyString => true
  | String c r => isDigit c && allDigits r
  end.

(** The digits of [n] put in front of [suffix], produced from the last
    digit to the first. *)
Fixpoint numeralAux (fuel : nat) (n : Z) (suffix : string) : string :=
  match fuel with
  | O => suffix
  | S f =>
      let s := String (digitChar (n mod 10)) suffix in
      if n <? 10 then s else numeralAux f (n / 10) s
  end.

(** The decimal numeral of a page number [n >= 0]: the token a user types
    for page [n]. *)
Definition numeral (n : Z) : string := numeralAux (S (Z.to_nat n)) n EmptyString.

End Numeral.

(* ------------------------------------------------------------------ *)
(** ** Running examples                                                *)
(* ------------------------------------------------------------------ *)

Module Examples.
Import PDFJS Viewer App.
Local Open Scope Q_scope.

(** A one-page Letter document, and a viewer right after loading it into
    a 1000 x 800 container. *)
Definition letter : PDFDocumentProxy := mkDocument [mkPage 612 792 true].

Definition exampleViewer : PDFViewer :=
  runOps (create 300 150) [(Some (1000, 800)%Z, OpLoadPDF (Ok letter))].

(** A document of two pages, the second of which fails to render, and a
    viewer right after loading it. *)
Definition twoPages : PDFDocumentProxy :=
  mkDocument [mkPage 612 792 true; mkPage 595 842 false].

Definition twoPageViewer : PDFViewer :=
  runOps (create 300 150) [(Some (1000, 800)%Z, OpLoadPDF (Ok twoPages))].

(** A viewer whose scale and canvas disagree.  The Letter document is
    shown at scale 3, on a canvas of 1836 x 2376.  Then a document whose
    first page cannot be fetched is loaded and the scale is set to 0.5:
    both renderings throw before they touch the viewport or the canvas,
    but [setScale] has stored the new scale. *)
Definition staleViewer : PDFViewer :=
  runOps (Viewer.create 300 150)
    [(Some (1000, 800)%Z, OpLoadPDF (Ok letter));
     (Some (1000, 800)%Z, OpSetScale 3);
     (Some (1000, 800)%Z, OpLoadPDF (Ok (mkDocument [])));
     (Some (1000, 800)%Z, OpSetScale (1 # 2))].

(** The first page rendered once more, and an overlay in the middle of a
    gesture anchored left of the canvas. *)
Definition exampleRender : PDFViewer * list Viewer.Event * Outcome PageViewport :=
  renderPage (Some (1000, 800)%Z) 1
    (runOps (Viewer.create 300 150)
       [(Some (1000, 800)%Z, OpLoadPDF (Ok letter))]).

Definition exampleDrawing : Overlay.BBoxOverlay :=
  Overlay.set_drawing true (Overlay.set_start (-50) 30 (Overlay.create true true)).

(** A world where documents load but the processing module rejects, a
    world where nothing loads, a file, and a state that holds an earlier
    document with a selection on its first page. *)
Definition exampleEnv : Env :=
  mkEnv (Some (1000, 800)%Z) (fun _ => Ok letter)
    (fun _ _ => Throw "detection failed") (fun _ => Throw "crop failed").

Definition brokenEnv : Env :=
  mkEnv (Some (1000, 800)%Z) (fun _ => Throw "Invalid PDF structure.")
    (fun _ _ => Throw "detection failed") (fun _ => Throw "crop failed").

(** A world where every external call succeeds: detection answers a fixed
    box and cropping gives the bytes back. *)
Definition workingEnv : Env :=
  mkEnv (Some (1000, 800)%Z) (fun _ => Ok twoPages)
    (fun _ _ => Ok (BBox.mk 50 60 500 700)) (fun req => Ok (reqData req)).

Definition exampleForm : CropForm :=
  mkCropForm (0, 0, 0, 0) false (PageRange.SelectCustom "1-2").

Definition exampleFile : File :=
  mkFile "scan.pdf" (Ok [Byte.x25; Byte.x50; Byte.x44; Byte.x46]).

Definition withSelection : App :=
  set_pageBboxes {[ 0%Z := BBox.mk 10 20 300 400 ]}
    (set_document [Byte.x00] "old.pdf" (initial 300 150)).

(** The example state after a document was loaded, and a click on the
    canvas with no drag: pointer down and up at the same place. *)
Definition loadedState : App :=
  exec (handleFileUpload exampleEnv exampleFile) (initial 300 150).

Definition afterClick : App :=
  exec (mouseUp 10 10) (exec (mouseDown 10 10) loadedState).

(** The viewer and the overlay as they are between the pointer going
    down and coming up in the example. *)
Definition clickViewer : Viewer.PDFViewer :=
  default (Viewer.create 300 150) (pdfViewer (exec (mouseDown 10 10) loadedState)).

Definition clickOverlay : Overlay.BBoxOverlay :=
  default (Overlay.create true true) (bboxOverlay (exec (mouseDown 10 10) loadedState)).

End Examples.

(* ------------------------------------------------------------------ *)
(** ** Thumbnails (pdf-viewer.ts)                                      *)
(* ------------------------------------------------------------------ *)

Module Thumbnail.
Import PDFJS Viewer.
Local Open Scope Q_scope.

(** [a > 0] on numbers. *)
Definition isPositive (a : Q) : bool := negb (Qle_bool a 0).





End Thumbnail.

(* ------------------------------------------------------------------ *)
(** ** The page controls of the controller (main.ts)                   *)
(* ------------------------------------------------------------------ *)

Module Controls.
Import App.
Local Open Scope eff_scope.

(** [Math.round(a)] *)
Definition Math_round (a : Q) : Z := Qfloor (a + (1 # 2)).

(** The number shown by [updateZoomLevel()], in percent; [None] when there
    is no viewer and nothing is written. *)
Definition zoomLevel (s : App) : option Z :=
  match pdfViewer s with
  | None => None
  | Some v => Some (Math_round (Viewer.getScale v * 100))
  end.

(** Enter in the page-number field holding [value].  When the number is
    refused the field is reset and nothing else happens. *)
Definition pageInputEnter (env : Env) (value : string) : AM unit :=
  s <- get ;;
  match JSString.parseInt value, pdfViewer s with
  | Some pageNum, Some _ =>
      if ((1 <=? pageNum) && (pageNum <=? totalPages s))%Z
      then (_ <- callViewer (Viewer.goToPage (container env) pageNum) ;; ret tt)
      else ret tt
  | _, _ => ret tt
  end.

(** The zoom buttons. *)
Definition zoomInClick (env : Env) : AM unit :=
  s <- get ;;
  match pdfViewer s with
  | Some _ => callViewer (Viewer.zoomIn (container env))
  | None => ret tt
  end.

Definition zoomOutClick (env : Env) : AM unit :=
  s <- get ;;
  match pdfViewer s with
  | Some _ => callViewer (Viewer.zoomOut (container env))
  | None => ret tt
  end.

(** A wheel event with Ctrl or Cmd held, of vertical delta [deltaY]. *)
Definition wheelZoom (env : Env) (deltaY : Q) : AM unit :=
  s <- get ;;
  match pdfViewer s with
  | None => ret tt
  | Some v =>
      let currentScale := Viewer.getScale v in
      let zoomFactor := if Thumbnail.isPositive deltaY then 9 # 10 else 11 # 10 in
      callViewer (Viewer.setScale (container env) (currentScale * zoomFactor)%Q)
  end.

(** The debounced resize callback. *)
Definition resizeTimer (env : Env) : AM unit :=
  s <- get ;;
  match pdfViewer s, currentPDFData s with
  | Some v, Some _ =>
      if Viewer.isManuallyScaled v then ret tt
      else callViewer (Viewer.fitToPage (container env))
  | _, _ => ret tt
  end.

(** The controller's own [renderPage(pageNum)]: errors are logged and
    dropped. *)
Definition renderPage (env : Env) (pageNum : Z) : AM unit :=
  s <- get ;;
  match pdfViewer s with
  | None => ret tt
  | Some _ =>
      tryCatch
        (_ <- callViewer (Viewer.renderPage (container env) pageNum) ;;
         renderBboxOverlay)
        (fun _ => ret tt)
  end.

(** A click on the thumbnail of page [i]. *)
Definition thumbnailClick (env : Env) (i : Z) : AM unit :=
  modify (set_currentPage i) ;;;
  renderPage env i.

End Controls.

(* ------------------------------------------------------------------ *)
(** ** Vocabulary of the further properties                            *)
(* ------------------------------------------------------------------ *)

Module Vocabulary.
Import JSString PageRange.

(** [Number.MAX_SAFE_INTEGER]: up to it every integer is a number of the
    code, so [parseInt], [i - 1] and [i++] are exact. *)
Definition MAX_SAFE_INTEGER : Z := 2 ^ 53 - 1.




(** The one-based page numbers a token of a page range stands for: the
    number itself for a token without dash, and every number from the
    first to the second bound for a token with a dash. *)
Definition denotes (part : string) (page : Z) : Prop :=
  if includes "-" part then
    exists start end_ rest,
      List.map (fun s => parseInt (trim s)) (split "-" part)
        = Some start :: Some end_ :: rest
      /\ start <= page <= end_
  else parseInt part = Some page.

(** The tokens of a page-range text. *)
Definition tokens (text : string) : list string := List.map trim (split "," text).

(** The page counters of a viewer agree with its document, the current
    page is at least 1, and a stored viewport comes with its page. *)
Definition consistent (v : Viewer.PDFViewer) : Prop :=
  Viewer.totalPages v
    = match Viewer.pdfDocument v with
      | Some d => PDFJS.numPages d
      | None => 0
      end
  /\ 1 <= Viewer.currentPage v
  /\ (Viewer.currentViewport v <> None -> Viewer.currentPageObject v <> None).

(** A stored viewport is the viewport of the stored page object, at the
    scale the viewport records, and the overlay canvas has its floored
    size. *)
Definition viewportOfPage (v : Viewer.PDFViewer) : Prop :=
  forall vp, Viewer.currentViewport v = Some vp ->
    exists p, Viewer.currentPageObject v = Some p
      /\ vp = PDFJS.getViewport p (PDFJS.vpScale vp)
      /\ Viewer.overlayCssWidth v = Viewer.Math_floor (PDFJS.vpWidth vp)
      /\ Viewer.overlayCssHeight v = Viewer.Math_floor (PDFJS.vpHeight vp).

(** The state [renderPage] builds for page [pageNum] once it has the page
    handle [p]: the page, the scale (fitted unless set by hand), the
    viewport and the canvas size. *)
Definition rendered (c : Viewer.Container) (pageNum : Z) (p : PDFJS.PDFPageProxy)
    (v : Viewer.PDFViewer) : Viewer.PDFViewer :=
  let v1 := Viewer.set_page p pageNum v in
  let v2 := if Viewer.manualScale v1 then v1
            else Viewer.set_scale (Viewer.fitScale c p) v1 in
  Viewer.set_viewport (PDFJS.getViewport p (Viewer.scale v2)) v2.

(** [s'] is [s] up to the overlay and the controller's current page. *)
Definition sameButPage (s s' : App.App) : Prop :=
  App.pdfViewer s' = App.pdfViewer s
  /\ App.currentPDFData s' = App.currentPDFData s
  /\ App.currentPDFFilename s' = App.currentPDFFilename s
  /\ App.totalPages s' = App.totalPages s
  /\ App.pageBboxes s' = App.pageBboxes s
  /\ App.loadingHidden s' = App.loadingHidden s
  /\ App.clipContent s' = App.clipContent s
  /\ App.alerts s' = App.alerts s
  /\ App.downloads s' = App.downloads s.

(** The overlay of [s'] shows what the map of [s'] stores for its current
    page: the stored box if there is one, and otherwise whatever the
    overlay of [s] held. *)
Definition overlayRestored (s s' : App.App) : Prop :=
  match App.pageBboxes s' !! (App.currentPage s' - 1) with
  | Some b =>
      match App.pdfViewer s', App.bboxOverlay s with
      | Some _, Some _ =>
          exists o', App.bboxOverlay s' = Some o' /\ Overlay.getBbox o' = Some b
      | _, _ => App.bboxOverlay s' = App.bboxOverlay s
      end
  | None => App.bboxOverlay s' = App.bboxOverlay s
  end.


(** The page box of the rectangle spanned by an anchor [(x0, y0)] and a
    pointer position [(x, y)], clamped to the overlay canvas of [v]. *)
Definition spanBox (v : Viewer.PDFViewer) (x0 y0 x y : Q) : option BBox.t :=
  Overlay.currentPdfBbox v (Overlay.mkOverlay true x0 y0 x y None false false).

(** The overlay with anchor and pointer exchanged. *)
Definition reversed (o : Overlay.BBoxOverlay) : Overlay.BBoxOverlay :=
  Overlay.set_current (Overlay.startX o) (Overlay.startY o)
    (Overlay.set_start (Overlay.currentX o) (Overlay.currentY o) o).

(** Operations that only move between pages. *)
Definition isNavigation (op : Viewer.Op) : bool :=
  match op with
  | Viewer.OpRenderPage _ | Viewer.OpNextPage | Viewer.OpPreviousPage => true
  | _ => false
  end.

(** [".pdf"] in any mix of upper and lower case. *)
Definition isPdfExtension (ext : string) : bool :=
  match ext with
  | String dot (String p (String d (String f EmptyString))) =>
      (Ascii.eqb dot "." && (Ascii.eqb p "p" || Ascii.eqb p "P")
       && (Ascii.eqb d "d" || Ascii.eqb d "D")
       && (Ascii.eqb f "f" || Ascii.eqb f "F"))%bool
  | _ => false
  end.

End Vocabulary.

(* ================================================================== *)
(** * Properties                                                       *)
(* ================================================================== *)

(* ------------------------------------------------------------------ *)
(** ** Page ranges                                                     *)
(* ------------------------------------------------------------------ *)

Module PageRangeFacts.
Import JSString PageRange Numeral.
Local Open Scope string_scope.

Lemma setAdd_In (x y : Z) (l : list Z) : In y (setAdd x l) <-> y = x \/ In y l.
Proof.
  unfold setAdd. destruct (existsb (Z.eqb x) l) eqn:E.
  - split; [tauto|]. intros [->|H]; [|exact H].
    apply existsb_exists in E as (z & Hz & Hxz). apply Z.eqb_eq in Hxz. now subst.
  - rewrite in_app_iff. simpl. intuition.
Qed.





Lemma sort_In (l : list Z) (y : Z) : In y (ZSort.sort l) <-> In y l.
Proof.
  pose proof (ZSort.Permuted_sort l) as P. split; intros H.
  - eapply Permutation_in; [symmetry; exact P | exact H].
  - eapply Permutation_in; [exact P | exact H].
Qed.

(** C2 (as stated, refuted): the pipeline does not send the reversed range
    ["5-3"] to an empty list of pages; its result is the null sentinel, the
    one [""] gets, which stands for all pages. *)
Lemma reversed_range_not_empty_result :
  getPageRange 1 (SelectCustom "5-3") <> Some []
  /\ getPageRange 1 (SelectCustom "5-3") = getPageRange 1 (SelectCustom "").
Proof. split; [discriminate | reflexivity]. Qed.

(** C2 (amended): the pipeline sends ["1-3,5"] to [[0;1;2;4]] and [""] to
    the null sentinel; for the reversed range ["5-3"] the list built by
    [parsePageRange] is empty, which the empty-to-null step of
    [getPageRange] turns into the null sentinel as well. *)
Theorem page_range_examples (currentPage : Z) :
  getPageRange currentPage (SelectCustom "1-3,5") = Some [0; 1; 2; 4]
  /\ getPageRange currentPage (SelectCustom "") = None
  /\ parsePageRange "5-3" = []
  /\ getPageRange currentPage (SelectCustom "5-3") = None.
Proof. repeat split; reflexivity. Qed.



(** *** Decimal numerals as tokens *)

Lemma digit_not_special (c : ascii) :
  isDigit c = true ->
  isWhiteSpace c = false /\ Ascii.eqb c "-" = false /\ Ascii.eqb c "+" = false
  /\ Ascii.eqb c "," = false /\ Ascii.eqb c "x" = false /\ Ascii.eqb c "X" = false.
Proof.
  destruct c as [[] [] [] [] [] [] [] []]; vm_compute; intros H;
    try discriminate H; repeat split.
Qed.

Lemma digitValue_digitChar (d : Z) :
  0 <= d < 10 -> digitValue 10 (digitChar d) = Some d.
Proof.
  intros H.
  assert (C : d = 0 \/ d = 1 \/ d = 2 \/ d = 3 \/ d = 4 \/ d = 5 \/ d = 6
              \/ d = 7 \/ d = 8 \/ d = 9) by lia.
  repeat (destruct C as [-> | C]; [reflexivity|]). now subst.
Qed.

Lemma isDigit_digitChar (d : Z) : 0 <= d < 10 -> isDigit (digitChar d) = true.
Proof. intros H. unfold isDigit. now rewrite digitValue_digitChar. Qed.

Lemma numeralAux_allDigits (f : nat) (n : Z) (suffix : string) :
  allDigits suffix = true -> allDigits (numeralAux f n suffix) = true.
Proof.
  revert n suffix. induction f as [|f IH]; intros n suffix Hs; cbn; [exact Hs|].
  assert (Hd : allDigits (String (digitChar (n mod 10)) suffix) = true).
  { cbn. rewrite isDigit_digitChar, Hs; [reflexivity|]. apply Z.mod_pos_bound; lia. }
  destruct (n <? 10)%Z; [exact Hd | now apply IH].
Qed.

Lemma numeralAux_cons (f : nat) (n : Z) (suffix : string) :
  exists c r, numeralAux (S f) n suffix = String c r.
Proof.
  revert n suffix. induction f as [|f IH]; intros n suffix.
  - cbn. destruct (n <? 10)%Z; eauto.
  - change (numeralAux (S (S f)) n suffix)
      with (if (n <? 10)%Z then String (digitChar (n mod 10)) suffix
            else numeralAux (S f) (n / 10) (String (digitChar (n mod 10)) suffix)).
    destruct (n <? 10)%Z; eauto.
Qed.

Lemma parseDigits_numeralAux (f : nat) (n : Z) (suffix : string) :
  0 <= n -> (Z.to_nat n < f)%nat ->
  exists k,
    (forall a, parseDigits 10 (Some a) (numeralAux f n suffix)
               = parseDigits 10 (Some (a * k + n)) suffix)
    /\ parseDigits 10 None (numeralAux f n suffix) = parseDigits 10 (Some n) suffix.
Proof.
  revert n suffix. induction f as [|f IH]; intros n suffix Hn Hf; [lia|].
  assert (Hm : 0 <= n mod 10 < 10) by (apply Z.mod_pos_bound; lia).
  cbn [numeralAux]. destruct (n <? 10)%Z eqn:Hlt.
  - apply Z.ltb_lt in Hlt. rewrite Z.mod_small by lia.
    exists 10. split; [intros a|]; cbn [parseDigits];
      rewrite digitValue_digitChar by lia; reflexivity.
  - apply Z.ltb_ge in Hlt.
    assert (Hq : 0 <= n / 10 < n).
    { split; [apply Z.div_pos; lia | apply Z.div_lt; lia]. }
    destruct (IH (n / 10) (String (digitChar (n mod 10)) suffix)) as (k & Ha & Hnone);
      [lia | lia |].
    pose proof (Z.div_mod n 10 ltac:(lia)) as Hdm.
    exists (k * 10). split; [intros a; rewrite Ha | rewrite Hnone];
      cbn [parseDigits]; rewrite digitValue_digitChar by lia; do 2 f_equal; lia.
Qed.

Lemma allDigits_trimStart (s : string) : allDigits s = true -> trimStart s = s.
Proof.
  destruct s as [|c r]; [reflexivity|]. cbn. intros H.
  apply andb_prop in H as [Hc _]. now destruct (digit_not_special c Hc) as (-> & _).
Qed.

Lemma allDigits_trimEnd (s : string) : allDigits s = true -> trimEnd s = s.
Proof.
  induction s as [|c r IH]; [reflexivity|]. cbn. intros H.
  apply andb_prop in H as [Hc Hr]. rewrite (IH Hr).
  destruct (digit_not_special c Hc) as (-> & _). now destruct r.
Qed.

Lemma allDigits_trim (s : string) : allDigits s = true -> trim s = s.
Proof.
  intros H. unfold trim. rewrite (allDigits_trimStart s H). now apply allDigits_trimEnd.
Qed.

Lemma allDigits_split (s : string) : allDigits s = true -> split "," s = [s].
Proof.
  induction s as [|c r IH]; [reflexivity|]. cbn. intros H.
  apply andb_prop in H as [Hc Hr]. rewrite (IH Hr).
  now destruct (digit_not_special c Hc) as (_ & _ & _ & -> & _).
Qed.

Lemma allDigits_includes (s : string) : allDigits s = true -> includes "-" s = false.
Proof.
  induction s as [|c r IH]; [reflexivity|]. cbn. intros H.
  apply andb_prop in H as [Hc Hr]. rewrite (IH Hr).
  now destruct (digit_not_special c Hc) as (_ & -> & _).
Qed.

Lemma allDigits_stripHexPrefix (s : string) :
  allDigits s = true -> stripHexPrefix s = (10, s).
Proof.
  destruct s as [|c0 [|c1 r]]; try reflexivity. cbn. intros H.
  apply andb_prop in H as [_ H]. apply andb_prop in H as [Hc _].
  destruct (digit_not_special c1 Hc) as (_ & _ & _ & _ & -> & ->).
  now rewrite Bool.andb_false_r.
Qed.

(** [parseInt] reads the numeral of [n] as [n]; the code does so for [n]
    up to [Number.MAX_SAFE_INTEGER]. *)
Lemma parseInt_numeral (n : Z) : 0 <= n -> parseInt (numeral n) = Some n.
Proof.
  intros Hn. unfold parseInt.
  assert (Hd : allDigits (numeral n) = true) by now apply numeralAux_allDigits.
  rewrite (allDigits_trimStart _ Hd).
  destruct (parseDigits_numeralAux (S (Z.to_nat n)) n EmptyString Hn ltac:(lia))
    as (k & _ & Hp).
  fold (numeral n) in Hp. cbn [parseDigits] in Hp.
  destruct (numeralAux_cons (Z.to_nat n) n EmptyString) as (c & r & Hc).
  fold (numeral n) in Hc. rewrite Hc in Hd |- *. rewrite Hc in Hp.
  pose proof Hd as Hd'. cbn in Hd'. apply andb_prop in Hd' as [Hdc _].
  destruct (digit_not_special c Hdc) as (_ & -> & -> & _).
  rewrite (allDigits_stripHexPrefix _ Hd), Hp. f_equal. lia.
Qed.

(** A text that is the numeral of [n] alone parses to the single index
    [n - 1], for every [n] from 0 to [Number.MAX_SAFE_INTEGER]. *)
Lemma parsePageRange_numeral (n : Z) :
  0 <= n <= Vocabulary.MAX_SAFE_INTEGER -> parsePageRange (numeral n) = [n - 1].
Proof.
  intros [Hn _]. unfold parsePageRange.
  assert (Hd : allDigits (numeral n) = true) by now apply numeralAux_allDigits.
  rewrite (allDigits_split _ Hd). cbn [List.map fold_left].
  rewrite (allDigits_trim _ Hd). unfold addPart.
  rewrite (allDigits_includes _ Hd), (parseInt_numeral n Hn). reflexivity.
Qed.

Example numeral_example : numeral 120 = "120" /\ parsePageRange (numeral 120) = [119].
Proof. split; reflexivity. Qed.

Example parsePageRange_zero : parsePageRange "0" = [-1].
Proof. reflexivity. Qed.

Example parsePageRange_past_end : parsePageRange "1-2,40" = [0; 1; 39].
Proof. reflexivity. Qed.

End PageRangeFacts.

(* ------------------------------------------------------------------ *)
(** ** Coordinate conversion                                           *)
(* ------------------------------------------------------------------ *)

Module ConversionFacts.
Import PDFJS Viewer Examples.
Local Open Scope Q_scope.

Lemma Qdiv_mult_cancel (a s : Q) : ~ s == 0 -> a / s * s == a.
Proof. intros Hs. field. exact Hs. Qed.

Lemma Qmult_div_cancel (a s : Q) : ~ s == 0 -> a * s / s == a.
Proof. intros Hs. field. exact Hs. Qed.

Lemma Qpos_nonzero (s : Q) : 0 < s -> ~ s == 0.
Proof. intros H E. rewrite E in H. now apply Qlt_irrefl in H. Qed.

(** With a page rendered the two point conversions return a point. *)
Lemma canvasToPDF_rendered v vp W H x y :
  currentViewport v = Some vp -> getPageDimensions v = Some (W, H) ->
  canvasToPDF v x y = Some (Point.mk (x / scale v) (H - y / scale v)).
Proof. intros Hvp Hd. unfold canvasToPDF. now rewrite Hvp, Hd. Qed.

Lemma pdfToCanvas_rendered v vp W H x y :
  currentViewport v = Some vp -> getPageDimensions v = Some (W, H) ->
  pdfToCanvas v x y = Some (Point.mk (x * scale v) ((H - y) * scale v)).
Proof. intros Hvp Hd. unfold pdfToCanvas. now rewrite Hvp, Hd. Qed.



(** With a page rendered the rectangle conversions go corner by corner. *)
Lemma canvasRectToPDFBbox_rendered v vp W H r :
  currentViewport v = Some vp -> getPageDimensions v = Some (W, H) ->
  canvasRectToPDFBbox v r =
    BBox.mk (Rect.x r / scale v)
            (H - (Rect.y r + Rect.height r) / scale v)
            ((Rect.x r + Rect.width r) / scale v)
            (H - Rect.y r / scale v).
Proof.
  intros Hvp Hd. unfold canvasRectToPDFBbox.
  now rewrite !(canvasToPDF_rendered v vp W H) by assumption.
Qed.

Lemma pdfBboxToCanvasRect_rendered v vp W H b :
  currentViewport v = Some vp -> getPageDimensions v = Some (W, H) ->
  pdfBboxToCanvasRect v b =
    Rect.mk (BBox.left b * scale v)
            ((H - BBox.top b) * scale v)
            (BBox.right b * scale v - BBox.left b * scale v)
            ((H - BBox.bottom b) * scale v - (H - BBox.top b) * scale v).
Proof.
  intros Hvp Hd. unfold pdfBboxToCanvasRect.
  now rewrite !(pdfToCanvas_rendered v vp W H) by assumption.
Qed.

(** C1: with a page rendered at a scale above 0, converting a device
    rectangle to a page box and back gives the rectangle again, exactly.
    This holds for every rectangle, within the canvas or not. *)
Theorem rect_round_trip (v : PDFViewer) (vp : PageViewport)
    (pageWidth pageHeight : Q) (rect : Rect.t) :
  currentViewport v = Some vp ->
  getPageDimensions v = Some (pageWidth, pageHeight) ->
  0 < scale v ->
  Rect.equiv (pdfBboxToCanvasRect v (canvasRectToPDFBbox v rect)) rect.
Proof.
  intros Hvp Hd Hs. apply Qpos_nonzero in Hs.
  rewrite (canvasRectToPDFBbox_rendered v vp pageWidth pageHeight) by assumption.
  rewrite (pdfBboxToCanvasRect_rendered v vp pageWidth pageHeight) by assumption.
  unfold Rect.equiv; simpl. repeat split; field; exact Hs.
Qed.

Lemma rect_round_trip_witness :
  Rect.equiv
    (pdfBboxToCanvasRect exampleViewer
       (canvasRectToPDFBbox exampleViewer (Rect.mk 10 20 300 400)))
    (Rect.mk 10 20 300 400).
Proof.
  apply (rect_round_trip exampleViewer
           (getViewport (mkPage 612 792 true) (scale exampleViewer))
           (612 * 1) (792 * 1)); reflexivity.
Defined.

(** The other direction: a page box converted to a device rectangle and
    back is the box again, so the conversion is a bijection. *)
Lemma bbox_round_trip (v : PDFViewer) (vp : PageViewport)
    (pageWidth pageHeight : Q) (bbox : BBox.t) :
  currentViewport v = Some vp ->
  getPageDimensions v = Some (pageWidth, pageHeight) ->
  0 < scale v ->
  BBox.equiv (canvasRectToPDFBbox v (pdfBboxToCanvasRect v bbox)) bbox.
Proof.
  intros Hvp Hd Hs. apply Qpos_nonzero in Hs.
  rewrite (pdfBboxToCanvasRect_rendered v vp pageWidth pageHeight) by assumption.
  rewrite (canvasRectToPDFBbox_rendered v vp pageWidth pageHeight) by assumption.
  unfold BBox.equiv; simpl. repeat split; field; exact Hs.
Qed.

(** C6 (as stated, refuted): on a viewer that has rendered nothing, the
    rectangle conversions do not fail.  They return the all-zero rectangle,
    also through the overlay's nullable wrapper, and that value is no error
    mark: a rendered page yields it for the empty rectangle at its
    bottom-left corner. *)
Lemma rect_conversion_without_page_returns :
  let v := create 300 150 in
  currentViewport v = None
  /\ canvasRectToPDFBbox v (Rect.mk 10 20 30 40) = BBox.mk 0 0 0 0
  /\ pdfBboxToCanvasRect v (BBox.mk 1 2 3 4) = Rect.mk 0 0 0 0
  /\ Overlay.canvasBboxToPdf (Some v) (Rect.mk 10 20 30 40) <> None
  /\ BBox.equiv
       (canvasRectToPDFBbox exampleViewer
          (Rect.mk 0 (792 * scale exampleViewer) 0 0))
       (canvasRectToPDFBbox v (Rect.mk 10 20 30 40)).
Proof.
  cbv zeta. repeat split; try reflexivity. discriminate.
Qed.

(** C6 (amended): with no viewport the two point conversions return null,
    for every argument, and the two rectangle conversions return the
    all-zero rectangle, for every argument; no scale enters any of the four
    results. *)
Theorem conversion_without_page (v : PDFViewer) (a b : Q) (rect : Rect.t) (bbox : BBox.t) :
  currentViewport v = None ->
  canvasToPDF v a b = None
  /\ pdfToCanvas v a b = None
  /\ canvasRectToPDFBbox v rect = BBox.mk 0 0 0 0
  /\ pdfBboxToCanvasRect v bbox = Rect.mk 0 0 0 0.
Proof.
  intros Hvp.
  unfold canvasRectToPDFBbox, pdfBboxToCanvasRect, canvasToPDF, pdfToCanvas.
  rewrite Hvp. repeat split.
Qed.

Lemma conversion_without_page_witness :
  canvasToPDF (create 300 150) 5 6 = None
  /\ pdfToCanvas (create 300 150) 5 6 = None
  /\ canvasRectToPDFBbox (create 300 150) (Rect.mk 10 20 30 40) = BBox.mk 0 0 0 0
  /\ pdfBboxToCanvasRect (create 300 150) (BBox.mk 1 2 3 4) = Rect.mk 0 0 0 0.
Proof.
  apply (conversion_without_page (create 300 150) 5 6); reflexivity.
Defined.

End ConversionFacts.

(* ------------------------------------------------------------------ *)
(** ** State invariants of effectful code                              *)
(* ------------------------------------------------------------------ *)

Section Preserves.
Context {S E : Type} (P : S -> Prop).

Lemma preserves_ret {A} (a : A) : preserves P (@ret S E A a).
Proof. intros s H; exact H. Qed.

Lemma preserves_throw {A} msg : preserves P (@throw S E A msg).
Proof. intros s H; exact H. Qed.

Lemma preserves_get : preserves P (@get S E).
Proof. intros s H; exact H. Qed.

Lemma preserves_emit e : preserves P (@emit S E e).
Proof. intros s H; exact H. Qed.

Lemma preserves_await {A} (o : Outcome A) : preserves P (@await S E A o).
Proof. intros s H; exact H. Qed.

Lemma preserves_modify (f : S -> S) : (forall s, P s -> P (f s)) -> preserves P (@modify S E f).
Proof. intros Hf s H; cbn; auto. Qed.

Lemma preserves_bind {A B} (m : Eff S E A) (k : A -> Eff S E B) :
  preserves P m -> (forall a, preserves P (k a)) -> preserves P (bind m k).
Proof.
  intros Hm Hk s H. unfold bind. specialize (Hm s H).
  destruct (m s) as [[s1 ev1] [a|msg]]; cbn in *; [|exact Hm].
  specialize (Hk a s1 Hm). destruct (k a s1) as [[s2 ev2] r]; exact Hk.
Qed.

Lemma preserves_tryCatch {A} (m : Eff S E A) (h : string -> Eff S E A) :
  preserves P m -> (forall msg, preserves P (h msg)) -> preserves P (tryCatch m h).
Proof.
  intros Hm Hh s H. unfold tryCatch. specialize (Hm s H).
  destruct (m s) as [[s1 ev1] [a|msg]]; cbn in *; [exact Hm|].
  specialize (Hh msg s1 Hm). destruct (h msg s1) as [[s2 ev2] r]; exact Hh.
Qed.

Lemma preserves_if {A} (b : bool) (m1 m2 : Eff S E A) :
  preserves P m1 -> preserves P m2 -> preserves P (if b then m1 else m2).
Proof. now destruct b. Qed.

Lemma preserves_hoare {A} (m : Eff S E A) :
  preserves P m -> hoare P m (fun _ => P) P.
Proof.
  intros Hm s H. specialize (Hm s H). now destruct (m s) as [[s' ev] [a|msg]].
Qed.

Lemma hoare_ret {A} (a : A) (Q : A -> S -> Prop) R :
  (forall s, P s -> Q a s) -> hoare P (@ret S E A a) Q R.
Proof. intros HQ s H. cbn. auto. Qed.

Lemma hoare_modify (f : S -> S) (Q : unit -> S -> Prop) R :
  (forall s, P s -> Q tt (f s)) -> hoare P (@modify S E f) Q R.
Proof. intros HQ s H. cbn. auto. Qed.

End Preserves.

Lemma hoare_bind {S E A B} (P : S -> Prop) (I : A -> S -> Prop)
    (m : Eff S E A) (k : A -> Eff S E B) (Q : B -> S -> Prop) (R : S -> Prop) :
  hoare P m I R -> (forall a, hoare (I a) (k a) Q R) -> hoare P (bind m k) Q R.
Proof.
  intros Hm Hk s H. unfold bind. specialize (Hm s H).
  destruct (m s) as [[s1 ev1] [a|msg]]; [|exact Hm].
  specialize (Hk a s1 Hm). now destruct (k a s1) as [[s2 ev2] [b|msg]].
Qed.

Lemma hoare_tryCatch {S E A} (P : S -> Prop) (I : S -> Prop)
    (m : Eff S E A) (h : string -> Eff S E A) (Q : A -> S -> Prop) (R : S -> Prop) :
  hoare P m Q I -> (forall msg, hoare I (h msg) Q R) -> hoare P (tryCatch m h) Q R.
Proof.
  intros Hm Hh s H. unfold tryCatch. specialize (Hm s H).
  destruct (m s) as [[s1 ev1] [a|msg]]; [exact Hm|].
  specialize (Hh msg s1 Hm). now destruct (h msg s1) as [[s2 ev2] [b|msg']].
Qed.

(** Rules that run the first step from a known state. *)
Lemma hoare_weaken {S E A} (P P' : S -> Prop) (m : Eff S E A) Q R :
  (forall s, P s -> P' s) -> hoare P' m Q R -> hoare P m Q R.
Proof. intros HP Hm s H. apply Hm, HP, H. Qed.

Lemma hoare_run_modify {S E B} (s1 : S) (f : S -> S) (k : unit -> Eff S E B) Q R :
  hoare (eq (f s1)) (k tt) Q R -> hoare (eq s1) (bind (modify f) k) Q R.
Proof.
  intros Hk s <-. unfold bind, modify. specialize (Hk (f s1) eq_refl).
  now destruct (k tt (f s1)) as [[s2 ev2] [b|msg]].
Qed.

Lemma hoare_run_await {S E A B} (s1 : S) (a : A) (k : A -> Eff S E B) Q R :
  hoare (eq s1) (k a) Q R -> hoare (eq s1) (bind (await (Ok a)) k) Q R.
Proof.
  intros Hk s <-. unfold bind, await. specialize (Hk s1 eq_refl).
  now destruct (k a s1) as [[s2 ev2] [b|msg]].
Qed.

Lemma hoare_exec {S E A} (s : S) (m : Eff S E A) (Q : S -> Prop) :
  hoare (eq s) m (fun _ => Q) Q -> Q (fst (fst (m s))).
Proof. intros H. specialize (H s eq_refl). now destruct (m s) as [[s' ev] [a|msg]]. Qed.

(** Break a computation into its steps, leaving the [modify] steps and the
    calls to other methods as goals. *)
Ltac preserves_step :=
  lazymatch goal with
  | |- preserves _ (ret _) => apply preserves_ret
  | |- preserves _ (throw _) => apply preserves_throw
  | |- preserves _ get => apply preserves_get
  | |- preserves _ (emit _) => apply preserves_emit
  | |- preserves _ (await _) => apply preserves_await
  | |- preserves _ (bind _ _) => apply preserves_bind; [|intros ?]
  | |- preserves _ (tryCatch _ _) => apply preserves_tryCatch; [|intros ?]
  | |- preserves _ (if _ then _ else _) => apply preserves_if
  | |- preserves _ (fun s => await _ s) => apply preserves_await
  end.

(* ------------------------------------------------------------------ *)
(** ** The render scale                                                *)
(* ------------------------------------------------------------------ *)

Module ScaleFacts.
Import PDFJS Viewer.
Local Open Scope Q_scope.

Lemma clamp_inRange (a : Q) : inRange (Math_max (1 # 2) (Math_min a 3)).
Proof.
  unfold inRange, Math_max, Math_min. split.
  - apply Q.le_max_l.
  - apply Q.max_lub; [discriminate | apply Q.le_min_r].
Qed.

Lemma clamp_inRange' (a : Q) : inRange (Math_max (1 # 2) (Math_min 3 a)).
Proof.
  unfold inRange, Math_max, Math_min. split.
  - apply Q.le_max_l.
  - apply Q.max_lub; [discriminate | apply Q.le_min_l].
Qed.

Lemma modify_other_scaleOk (f : PDFViewer -> PDFViewer) :
  (forall v, scale (f v) = scale v) -> preserves scaleOk (@modify _ Event f).
Proof. intros Hf. apply preserves_modify. intros v H. unfold scaleOk. now rewrite Hf. Qed.

Lemma modify_clamp_scaleOk (s : Q) :
  inRange s -> preserves scaleOk (@modify _ Event (set_scale s)).
Proof. intros Hs. apply preserves_modify. intros v _. exact Hs. Qed.

Ltac scale_steps :=
  repeat first
    [ preserves_step
    | lazymatch goal with
      | |- preserves _ (modify (set_scale _)) =>
          apply modify_clamp_scaleOk; first [apply clamp_inRange | apply clamp_inRange']
      | |- preserves _ (modify _) =>
          apply modify_other_scaleOk; intros ?; reflexivity
      end ].

Lemma renderPage_scaleOk c n : preserves scaleOk (renderPage c n).
Proof.
  unfold renderPage. apply preserves_bind; [apply preserves_get|]. intros v.
  destruct (pdfDocument v) as [doc|]; [|apply preserves_throw].
  apply preserves_if; [apply preserves_throw|].
  unfold renderPageBody. scale_steps.
Qed.

Lemma setScale_scaleOk c a : preserves scaleOk (setScale c a).
Proof. unfold setScale. scale_steps. apply renderPage_scaleOk. Qed.

Lemma runOp_scaleOk v step : scaleOk v -> scaleOk (runOp v step).
Proof.
  revert v. destruct step as [c op].
  destruct op; cbn [runOp];
    try match goal with |- forall v, _ -> scaleOk (fst (fst (?m v))) =>
      change (preserves scaleOk m) end.
  - now intros v H.
  - unfold loadPDF. scale_steps. apply renderPage_scaleOk.
  - apply renderPage_scaleOk.
  - unfold nextPage. scale_steps. apply renderPage_scaleOk.
  - unfold previousPage. scale_steps. apply renderPage_scaleOk.
  - apply setScale_scaleOk.
  - unfold zoomIn. scale_steps. apply setScale_scaleOk.
  - unfold zoomOut. scale_steps. apply setScale_scaleOk.
  - unfold fitToWidth. apply preserves_bind; [apply preserves_get|]. intros v.
    destruct (currentPageObject v); [apply setScale_scaleOk | apply preserves_ret].
  - unfold fitToPage. scale_steps. apply renderPage_scaleOk.
Qed.

(** The scale of every state reached from a fresh viewer is in range. *)
Lemma reachable_scaleOk w h steps : scaleOk (runOps (create w h) steps).
Proof.
  unfold runOps.
  assert (H0 : scaleOk (create w h)) by (split; discriminate).
  revert H0. generalize (create w h) as v.
  induction steps as [|step steps IH]; intros v H; cbn; [exact H|].
  apply IH, runOp_scaleOk, H.
Qed.

(** C9: the scale of a fresh viewer is 1, and after every sequence of
    [loadPDF], [renderPage], page navigation, [setScale], [zoomIn],
    [zoomOut], [fitToWidth] and [fitToPage] calls, with any arguments, any
    documents, any page sizes and any container size at each call, whether
    the calls return or throw, [getScale()] is between 0.5 and 3. *)
Theorem scale_bounded (cssWidth cssHeight : Q) (steps : list (Container * Op)) :
  getScale (create cssWidth cssHeight) = 1
  /\ 1 # 2 <= getScale (runOps (create cssWidth cssHeight) steps)
  /\ getScale (runOps (create cssWidth cssHeight) steps) <= 3.
Proof.
  split; [reflexivity|]. apply reachable_scaleOk.
Qed.

End ScaleFacts.

(* ------------------------------------------------------------------ *)
(** ** Selections stay within the page                                 *)
(* ------------------------------------------------------------------ *)

Module SelectionFacts.
Import PDFJS Viewer Overlay Examples.
Local Open Scope Q_scope.

Lemma Qdiv_le_mono (a b s : Q) : 0 < s -> a <= b -> a / s <= b / s.
Proof.
  intros Hs Hab. unfold Qdiv. apply Qmult_le_compat_r; [exact Hab|].
  apply Qlt_le_weak, Qinv_lt_0_compat, Hs.
Qed.

Lemma Qdiv_nonneg (a s : Q) : 0 < s -> 0 <= a -> 0 <= a / s.
Proof.
  intros Hs Ha. apply Qle_shift_div_l; [exact Hs|]. now rewrite Qmult_0_l.
Qed.

Lemma floor_nonneg (q : Q) : 0 <= q -> 0 <= Math_floor q.
Proof.
  intros H. unfold Math_floor. change 0 with (inject_Z 0).
  rewrite <- Zle_Qle. change 0%Z with (Qfloor 0). now apply Qfloor_resp_le.
Qed.

Lemma floor_le (q : Q) : Math_floor q <= q.
Proof. apply Qfloor_le. Qed.

(** Clamping to [0, bound] lands in [0, bound] and keeps the order. *)
Lemma clamp_bounds (a bound : Q) :
  0 <= bound ->
  0 <= Math_max 0 (Math_min a bound) /\ Math_max 0 (Math_min a bound) <= bound.
Proof.
  intros Hb. unfold Math_max, Math_min. split.
  - apply Q.le_max_l.
  - apply Q.max_lub; [exact Hb | apply Q.le_min_r].
Qed.

Lemma clamp_mono (a b bound : Q) :
  a <= b -> Math_max 0 (Math_min a bound) <= Math_max 0 (Math_min b bound).
Proof.
  intros Hab. unfold Math_max, Math_min.
  apply Q.max_le_compat_l, Q.min_le_compat_r, Hab.
Qed.

Lemma min_le_max (a b : Q) : Math_min a b <= Math_max a b.
Proof.
  unfold Math_max, Math_min.
  apply Qle_trans with a; [apply Q.le_min_l | apply Q.le_max_l].
Qed.

(** [getCanvasBbox] returns a rectangle inside the canvas box. *)
Lemma getCanvasBbox_clamped (cw ch : Q) (o : BBoxOverlay) :
  0 <= cw -> 0 <= ch ->
  let r := getCanvasBbox cw ch o in
  0 <= Rect.x r /\ 0 <= Rect.width r /\ Rect.x r + Rect.width r <= cw
  /\ 0 <= Rect.y r /\ 0 <= Rect.height r /\ Rect.y r + Rect.height r <= ch.
Proof.
  intros Hw Hh. unfold getCanvasBbox. cbn [Rect.x Rect.y Rect.width Rect.height].
  pose proof (clamp_bounds (Math_min (startX o) (currentX o)) cw Hw) as [A1 A2].
  pose proof (clamp_bounds (Math_max (startX o) (currentX o)) cw Hw) as [B1 B2].
  pose proof (clamp_mono _ _ cw (min_le_max (startX o) (currentX o))) as C.
  pose proof (clamp_bounds (Math_min (startY o) (currentY o)) ch Hh) as [D1 D2].
  pose proof (clamp_bounds (Math_max (startY o) (currentY o)) ch Hh) as [E1 E2].
  pose proof (clamp_mono _ _ ch (min_le_max (startY o) (currentY o))) as F.
  revert A1 A2 B1 B2 C D1 D2 E1 E2 F.
  generalize (Math_max 0 (Math_min (Math_min (startX o) (currentX o)) cw)).
  generalize (Math_max 0 (Math_min (Math_max (startX o) (currentX o)) cw)).
  generalize (Math_max 0 (Math_min (Math_min (startY o) (currentY o)) ch)).
  generalize (Math_max 0 (Math_min (Math_max (startY o) (currentY o)) ch)).
  intros y2 y1 x2 x1 **. repeat split; lra.
Qed.

(** A rectangle inside a canvas no larger than the scaled page converts to
    a box inside the page. *)
Lemma bbox_within_page (s W H cw ch : Q) (r : Rect.t) :
  0 < s -> cw <= W * s -> ch <= H * s ->
  0 <= Rect.x r -> 0 <= Rect.width r -> Rect.x r + Rect.width r <= cw ->
  0 <= Rect.y r -> 0 <= Rect.height r -> Rect.y r + Rect.height r <= ch ->
  let b := BBox.mk (Rect.x r / s) (H - (Rect.y r + Rect.height r) / s)
                   ((Rect.x r + Rect.width r) / s) (H - Rect.y r / s) in
  0 <= BBox.left b /\ BBox.left b <= BBox.right b /\ BBox.right b <= W
  /\ 0 <= BBox.bottom b /\ BBox.bottom b <= BBox.top b /\ BBox.top b <= H.
Proof.
  intros Hs Hcw Hch Hx Hw Hxw Hy Hh Hyh. cbn.
  assert (L1 : 0 <= Rect.x r / s) by now apply Qdiv_nonneg.
  assert (L2 : Rect.x r / s <= (Rect.x r + Rect.width r) / s)
    by (apply Qdiv_le_mono; [exact Hs | lra]).
  assert (L3 : (Rect.x r + Rect.width r) / s <= W)
    by (apply Qle_shift_div_r; [exact Hs | lra]).
  assert (L4 : 0 <= Rect.y r / s) by now apply Qdiv_nonneg.
  assert (L5 : Rect.y r / s <= (Rect.y r + Rect.height r) / s)
    by (apply Qdiv_le_mono; [exact Hs | lra]).
  assert (L6 : (Rect.y r + Rect.height r) / s <= H)
    by (apply Qle_shift_div_r; [exact Hs | lra]).
  revert L1 L2 L3 L4 L5 L6.
  generalize (Rect.x r / s) ((Rect.x r + Rect.width r) / s)
             (Rect.y r / s) ((Rect.y r + Rect.height r) / s).
  intros a b c d **. repeat split; lra.
Qed.

(** What a returning [renderPage] leaves: the page, its viewport at the
    current scale, and the canvases sized to the floored viewport. *)
Lemma renderPage_returns c n v v' evs vp :
  renderPage c n v = (v', evs, Ok vp) ->
  exists p, currentPageObject v' = Some p
    /\ currentViewport v' = Some vp
    /\ vp = getViewport p (scale v')
    /\ overlayCssWidth v' = Math_floor (vpWidth vp)
    /\ overlayCssHeight v' = Math_floor (vpHeight vp).
Proof.
  unfold renderPage, renderPageBody, tryCatch, bind, get, modify, throw, ret, emit, await.
  destruct (pdfDocument v) as [doc|]; [|discriminate].
  destruct (_ || _)%bool; [discriminate|].
  destruct (getPage doc n) as [p|msg]; [|discriminate].
  intros H. exists p. revert H.
  destruct (manualScale _); cbn; destruct (renderCompletes p); cbn;
    try discriminate; destruct (onPageChange v); cbn;
    intros [= <- <- <-]; cbn; repeat split.
Qed.

(** The page box of any drawing coordinates, on a viewer whose last
    [renderPage] returned, is inside the page. *)
Lemma currentPdfBbox_within_page v p (o : BBoxOverlay) :
  currentPageObject v = Some p ->
  currentViewport v = Some (getViewport p (scale v)) ->
  overlayCssWidth v = Math_floor (viewWidth p * scale v) ->
  overlayCssHeight v = Math_floor (viewHeight p * scale v) ->
  0 < scale v -> 0 < viewWidth p -> 0 < viewHeight p ->
  exists b, currentPdfBbox v o = Some b
    /\ 0 <= BBox.left b /\ BBox.left b <= BBox.right b /\ BBox.right b <= viewWidth p
    /\ 0 <= BBox.bottom b /\ BBox.bottom b <= BBox.top b /\ BBox.top b <= viewHeight p.
Proof.
  intros Hp Hvp Hcw Hch Hs HW HH.
  unfold currentPdfBbox, canvasSize, canvasBboxToPdf. eexists. split; [reflexivity|].
  assert (Hd : getPageDimensions v = Some (viewWidth p * 1, viewHeight p * 1))
    by (unfold getPageDimensions; now rewrite Hp).
  rewrite (ConversionFacts.canvasRectToPDFBbox_rendered v _ _ _ _ Hvp Hd).
  assert (Cw : 0 <= overlayCssWidth v).
  { rewrite Hcw. apply floor_nonneg, Qlt_le_weak, Qmult_lt_0_compat; assumption. }
  assert (Ch : 0 <= overlayCssHeight v).
  { rewrite Hch. apply floor_nonneg, Qlt_le_weak, Qmult_lt_0_compat; assumption. }
  pose proof (getCanvasBbox_clamped _ _ o Cw Ch) as (R1 & R2 & R3 & R4 & R5 & R6).
  assert (Bw : overlayCssWidth v <= viewWidth p * scale v)
    by (rewrite Hcw; apply floor_le).
  assert (Bh : overlayCssHeight v <= viewHeight p * scale v)
    by (rewrite Hch; apply floor_le).
  pose proof (bbox_within_page (scale v) (viewWidth p) (viewHeight p) _ _ _
                Hs Bw Bh R1 R2 R3 R4 R5 R6) as B.
  cbn in B |- *. rewrite !Qmult_1_r. exact B.
Qed.

(** C5 (as stated, refuted): not every gesture gives a box inside the
    page.  On [staleViewer] the page object is still the Letter page, the
    canvas is the one of scale 3 and the scale is 0.5; a drag over the whole
    canvas is clamped to the canvas and stores the box (0, -3960, 3672,
    792), which is wider than the page (612) and reaches below it. *)
Lemma stale_canvas_selection_outside_page :
  currentPageObject staleViewer = Some (mkPage 612 792 true)
  /\ scale staleViewer == 1 # 2
  /\ overlayCssWidth staleViewer == 1836 /\ overlayCssHeight staleViewer == 2376
  /\ exists b,
       getBbox (fst (fst (gesture staleViewer 0 0 [] 5000 5000 (Overlay.create true true))))
       = Some b
       /\ BBox.left b == 0 /\ BBox.bottom b == -3960
       /\ BBox.right b == 3672 /\ BBox.top b == 792
       /\ ~ BBox.right b <= 612 /\ ~ 0 <= BBox.bottom b.
Proof.
  split; [reflexivity|]. split; [reflexivity|]. split; [reflexivity|].
  split; [reflexivity|].
  eexists. split; [vm_compute; reflexivity|].
  cbn [BBox.left BBox.bottom BBox.right BBox.top].
  repeat split; try reflexivity; intros C; vm_compute in C; now apply C.
Qed.

(** C5 (amended): take any viewer state reached from a fresh viewer, let
    [renderPage] return on it for a page of positive size, and let a
    selection gesture end on the overlay, with the anchor and the pointer
    anywhere.  The rectangle [getCanvasBbox] hands to the conversion lies
    in the canvas box, and, numbers being exact, the page box that the
    gesture stores and reports satisfies 0 <= left <= right <= pageWidth
    and 0 <= bottom <= top <= pageHeight. *)
Theorem selection_within_page (cssWidth cssHeight : Q) (steps : list (Container * Op))
    (c : Container) (pageNum : Z) (v : PDFViewer) (evs : list Viewer.Event)
    (vp : PageViewport) (p : PDFPageProxy) (o : BBoxOverlay) (x y : Q) :
  renderPage c pageNum (runOps (Viewer.create cssWidth cssHeight) steps) = (v, evs, Ok vp) ->
  currentPageObject v = Some p ->
  0 < viewWidth p -> 0 < viewHeight p ->
  isDrawing o = true ->
  let '(o', events, _) := onMouseUp v x y o in
  let r := getCanvasBbox (overlayCssWidth v) (overlayCssHeight v) o' in
  (0 <= Rect.x r /\ Rect.x r + Rect.width r <= overlayCssWidth v
   /\ 0 <= Rect.y r /\ Rect.y r + Rect.height r <= overlayCssHeight v)
  /\ exists b,
      getBbox o' = Some b
      /\ b = canvasRectToPDFBbox v r
      /\ (onBboxComplete o = true -> events = [BboxComplete (Some b)])
      /\ 0 <= BBox.left b /\ BBox.left b <= BBox.right b
      /\ BBox.right b <= viewWidth p
      /\ 0 <= BBox.bottom b /\ BBox.bottom b <= BBox.top b
      /\ BBox.top b <= viewHeight p.
Proof.
  intros Hr Hp HW HH Hd.
  pose proof (ScaleFacts.renderPage_scaleOk c pageNum _
                (ScaleFacts.reachable_scaleOk cssWidth cssHeight steps)) as [Hlo _].
  rewrite Hr in Hlo. cbn in Hlo.
  assert (Hs : 0 < scale v) by (eapply Qlt_le_trans; [|exact Hlo]; reflexivity).
  apply renderPage_returns in Hr as (p' & Hp' & Hvp & -> & Hcw & Hch).
  rewrite Hp in Hp'. injection Hp' as <-. cbn in Hcw, Hch.
  set (o1 := set_drawing false (set_current x y o)).
  destruct (currentPdfBbox_within_page v p o1 Hp Hvp Hcw Hch Hs HW HH) as (b & Hb & B).
  unfold onMouseUp, finishDrawing, bind, get, modify, emit, ret. rewrite Hd.
  cbn [fst snd set_current set_drawing isDrawing onBboxComplete].
  fold o1. rewrite Hb.
  assert (Cw : 0 <= overlayCssWidth v).
  { rewrite Hcw. apply floor_nonneg, Qlt_le_weak, Qmult_lt_0_compat; assumption. }
  assert (Ch : 0 <= overlayCssHeight v).
  { rewrite Hch. apply floor_nonneg, Qlt_le_weak, Qmult_lt_0_compat; assumption. }
  assert (Hb' : b = canvasRectToPDFBbox v
                      (getCanvasBbox (overlayCssWidth v) (overlayCssHeight v) o1)).
  { unfold currentPdfBbox, canvasSize, canvasBboxToPdf in Hb. now injection Hb as <-. }
  destruct (onBboxComplete o) eqn:Hc; cbn.
  all: split;
    [ pose proof (getCanvasBbox_clamped _ _ o1 Cw Ch) as (R1 & R2 & R3 & R4 & R5 & R6);
      cbn in R1, R2, R3, R4, R5, R6 |- *; tauto
    | exists b; repeat split; try tauto; try exact Hb'; try discriminate ].
Qed.

Lemma selection_within_page_witness :
  let v := fst (fst exampleRender) in
  let '(o', events, _) := onMouseUp v 5000 400 exampleDrawing in
  let r := getCanvasBbox (overlayCssWidth v) (overlayCssHeight v) o' in
  (0 <= Rect.x r /\ Rect.x r + Rect.width r <= overlayCssWidth v
   /\ 0 <= Rect.y r /\ Rect.y r + Rect.height r <= overlayCssHeight v)
  /\ exists b,
      getBbox o' = Some b
      /\ b = canvasRectToPDFBbox v r
      /\ (onBboxComplete exampleDrawing = true -> events = [BboxComplete (Some b)])
      /\ 0 <= BBox.left b /\ BBox.left b <= BBox.right b
      /\ BBox.right b <= 612
      /\ 0 <= BBox.bottom b /\ BBox.bottom b <= BBox.top b
      /\ BBox.top b <= 792.
Proof.
  exact (selection_within_page 300 150
           [(Some (1000, 800)%Z, OpLoadPDF (Ok letter))]
           (Some (1000, 800)%Z) 1 (fst (fst exampleRender)) (snd (fst exampleRender))
           (getViewport (mkPage 612 792 true) (scale (fst (fst exampleRender))))
           (mkPage 612 792 true) exampleDrawing 5000 400
           eq_refl eq_refl eq_refl eq_refl eq_refl).
Defined.

End SelectionFacts.

(* ------------------------------------------------------------------ *)
(** ** The controller: selections, upload, failures                    *)
(* ------------------------------------------------------------------ *)

Module AppFacts.
Import App Examples.

(** An overlay method changes the overlay and nothing else. *)
Lemma runOverlay_frame m s :
  let s' := fst (runOverlay m s) in
  pdfViewer s' = pdfViewer s
  /\ currentPDFData s' = currentPDFData s
  /\ currentPDFFilename s' = currentPDFFilename s
  /\ currentPage s' = currentPage s
  /\ totalPages s' = totalPages s
  /\ pageBboxes s' = pageBboxes s
  /\ loadingHidden s' = loadingHidden s
  /\ clipContent s' = clipContent s
  /\ alerts s' = alerts s
  /\ downloads s' = downloads s.
Proof.
  unfold runOverlay. destruct (pdfViewer s) as [v|] eqn:Hv; [|cbn; now rewrite Hv].
  destruct (bboxOverlay s) as [o|]; [|cbn; now rewrite Hv].
  destruct (m v o) as [[o' evs] r]. cbn. now rewrite Hv.
Qed.

Section KeepsDocument.
Variable s0 : App.

Lemma runOverlay_keeps m :
  preserves (fun s => sameDocument s0 s)
    (@modify _ Empty_set (fun s => fst (runOverlay m s))).
Proof.
  apply preserves_modify. intros s (A & B & C).
  destruct (runOverlay_frame m s) as (_ & A' & B' & _ & _ & C' & _).
  repeat split; congruence.
Qed.

Lemma renderBboxOverlay_keeps :
  preserves (fun s => sameDocument s0 s) renderBboxOverlay.
Proof.
  unfold renderBboxOverlay. apply preserves_bind; [apply preserves_get|]. intros s.
  destruct (_ !! _); [apply runOverlay_keeps | apply preserves_ret].
Qed.

Lemma onPageChange_keeps e :
  preserves (fun s => sameDocument s0 s) (onPageChange e).
Proof.
  destruct e as [n total]. unfold onPageChange.
  apply preserves_bind; [|intros _; apply renderBboxOverlay_keeps].
  apply preserves_modify. now intros s H.
Qed.

Lemma dispatchAll_keeps {E} (h : E -> AM unit) evs :
  (forall e, preserves (fun s => sameDocument s0 s) (h e)) ->
  preserves (fun s => sameDocument s0 s) (dispatchAll h evs).
Proof.
  intros Hh. induction evs as [|e evs IH]; cbn [dispatchAll].
  - apply preserves_ret.
  - apply preserves_bind; [apply Hh | intros _; exact IH].
Qed.

Lemma callViewer_keeps {A} (m : Viewer.VM A) :
  preserves (fun s => sameDocument s0 s) (callViewer m).
Proof.
  unfold callViewer. apply preserves_bind; [apply preserves_get|]. intros s.
  destruct (pdfViewer s) as [v|]; [|apply preserves_throw].
  destruct (m v) as [[v' evs] r].
  apply preserves_bind; [apply preserves_modify; now intros ? ?|]. intros _.
  apply preserves_bind; [|intros _; apply preserves_await].
  apply dispatchAll_keeps, onPageChange_keeps.
Qed.

End KeepsDocument.

(** What an upload leaves once the bytes of the file are there, whether
    the rest of the load succeeds or not. *)
Lemma upload_outcome env file s data :
  arrayBuffer file = Ok data ->
  let s' := exec (handleFileUpload env file) s in
  currentPDFData s' = Some data
  /\ currentPDFFilename s' = fileName file
  /\ pageBboxes s' = ∅
  /\ loadingHidden s' = true.
Proof.
  intros Harr. cbv zeta. unfold exec.
  set (s3 := set_pageBboxes ∅
               (set_document data (fileName file) (set_loadingHidden false s))).
  enough (H : sameDocument s3 (fst (fst (handleFileUpload env file s)))
              /\ loadingHidden (fst (fst (handleFileUpload env file s))) = true).
  { destruct H as ((A & B & C) & D). rewrite A, B, C. now repeat split. }
  apply (hoare_exec s (handleFileUpload env file)
           (fun s' => sameDocument s3 s' /\ loadingHidden s' = true)).
  unfold handleFileUpload, showLoading. apply hoare_run_modify.
  apply hoare_tryCatch with (I := fun x => sameDocument s3 x).
  - rewrite Harr. apply hoare_run_await. do 2 apply hoare_run_modify. fold s3.
    apply hoare_weaken with (P' := fun x => sameDocument s3 x);
      [intros ? <-; now repeat split|].
    apply hoare_bind with (I := fun _ x => sameDocument s3 x);
      [apply preserves_hoare, callViewer_keeps|]. intros n.
    apply hoare_bind with (I := fun _ x => sameDocument s3 x);
      [apply preserves_hoare, preserves_modify; now intros ? ?|]. intros _.
    apply hoare_bind with (I := fun _ x => sameDocument s3 x);
      [apply preserves_hoare, preserves_modify; now intros ? ?|]. intros _.
    apply hoare_bind with (I := fun _ x => sameDocument s3 x);
      [apply preserves_hoare, callViewer_keeps|]. intros _.
    apply hoare_modify. intros x Hx. split; [exact Hx | reflexivity].
  - intros msg.
    apply hoare_bind with (I := fun _ x => sameDocument s3 x);
      [apply hoare_modify; now intros ? ?|]. intros _.
    apply hoare_modify. intros x Hx. split; [exact Hx | reflexivity].
Qed.

(** An upload whose file cannot be read only shows an alert. *)
Lemma upload_unreadable env file s msg :
  arrayBuffer file = Throw msg ->
  let s' := exec (handleFileUpload env file) s in
  unchanged s s' /\ loadingHidden s' = true /\ failed (handleFileUpload env file) s.
Proof.
  intros Harr. unfold failed, exec, handleFileUpload, showLoading, hideLoading, alert,
    tryCatch, bind, modify, await.
  rewrite Harr. cbn. now repeat split.
Qed.

(** C7: whatever the selection map holds, an upload that has read the
    bytes of its file leaves the map empty, whether the document then
    loads or not. *)
Theorem upload_clears_selections (env : Env) (file : File) (s : App) (data : Bytes) :
  arrayBuffer file = Ok data ->
  pageBboxes (exec (handleFileUpload env file) s) = ∅.
Proof. intros Harr. now destruct (upload_outcome env file s data Harr) as (_ & _ & H & _). Qed.

Lemma upload_clears_selections_witness :
  pageBboxes (exec (handleFileUpload exampleEnv exampleFile) withSelection) = ∅.
Proof.
  exact (upload_clears_selections exampleEnv exampleFile withSelection
           [Byte.x25; Byte.x50; Byte.x44; Byte.x46] eq_refl).
Defined.

Lemma not_failed_same_alerts {A} (m : AM A) s :
  alerts (exec m s) = alerts s -> ~ failed m s.
Proof. unfold failed. intros ->. lia. Qed.

Lemma crop_failure env form s :
  failed (handleCrop env form) s ->
  loadingHidden (exec (handleCrop env form) s) = true
  /\ unchanged s (exec (handleCrop env form) s).
Proof.
  intros F. revert F. unfold failed, exec, handleCrop, showLoading, hideLoading, alert,
    tryCatch, bind, modify, await, get, ret.
  destruct (currentPDFData s) as [data|] eqn:Hd; cbn; [|lia].
  destruct (cropPdf env _) as [out|msg]; cbn; [lia|].
  intros _. unfold unchanged. cbn. now repeat split.
Qed.

Lemma detect_failure env s :
  failed (handleAutoDetect env) s ->
  loadingHidden (exec (handleAutoDetect env) s) = true
  /\ unchanged s (exec (handleAutoDetect env) s).
Proof.
  intros F. revert F. unfold failed, exec, handleAutoDetect, showLoading, hideLoading,
    alert, tryCatch, bind, modify, await, get, ret.
  destruct (currentPDFData s) as [data|] eqn:Hd; cbn; [|lia].
  destruct (bboxOverlay s) as [o|] eqn:Ho; cbn; [|lia].
  destruct (detectBbox env data _) as [b|msg]; cbn.
  - match goal with |- context [runOverlay ?m ?x] =>
      destruct (runOverlay_frame m x) as (_ & _ & _ & _ & _ & _ & _ & _ & Ha & _)
    end.
    cbn in Ha. rewrite Ha. lia.
  - intros _. unfold unchanged. cbn. now repeat split.
Qed.

(** C8 (as stated, refuted): a load that fails after the file was read
    hides the loading overlay but does not bring the state back: the
    selections of the earlier document are gone and the stored bytes are
    those of the file that failed to load. *)
Lemma failed_load_changes_state :
  let s' := exec (handleFileUpload brokenEnv exampleFile) withSelection in
  failed (handleFileUpload brokenEnv exampleFile) withSelection
  /\ loadingHidden s' = true
  /\ pageBboxes withSelection !! 0%Z = Some (BBox.mk 10 20 300 400)
  /\ pageBboxes s' !! 0%Z = None
  /\ pageBboxes s' <> pageBboxes withSelection
  /\ currentPDFData withSelection = Some [Byte.x00]
  /\ currentPDFData s' = Some [Byte.x25; Byte.x50; Byte.x44; Byte.x46]
  /\ currentPDFData s' <> currentPDFData withSelection.
Proof.
  cbv zeta.
  destruct (upload_outcome brokenEnv exampleFile withSelection _ eq_refl)
    as (Hd & _ & Hm & Hl).
  rewrite Hm, Hd, Hl.
  repeat split; try reflexivity; discriminate.
Qed.

(** C8 (amended): every failing load, crop or detect ends with the loading
    overlay hidden.  A failing crop or detect, and a load that fails on
    reading the file, leave everything else but the list of alerts as it
    was, the selection map and the stored bytes included.  A load that
    fails after the file was read has stored the bytes and the name of the
    new file and emptied the selection map. *)
Theorem failure_outcome (env : Env) (op : Operation) (s : App) :
  failed (handler env op) s ->
  let s' := exec (handler env op) s in
  loadingHidden s' = true
  /\ match op with
     | Crop _ | Detect => unchanged s s'
     | Load file =>
         match arrayBuffer file with
         | Throw _ => unchanged s s'
         | Ok data =>
             currentPDFData s' = Some data
             /\ currentPDFFilename s' = fileName file
             /\ pageBboxes s' = ∅
         end
     end.
Proof.
  intros F. destruct op as [file|form|]; cbn [handler] in *.
  - destruct (arrayBuffer file) as [data|msg] eqn:Harr.
    + destruct (upload_outcome env file s data Harr) as (A & B & C & D). now repeat split.
    + destruct (upload_unreadable env file s msg Harr) as (A & B & _). now split.
  - now apply crop_failure.
  - now apply detect_failure.
Qed.

Lemma failure_outcome_witness :
  loadingHidden (exec (handler exampleEnv Detect)
                   (exec (handleFileUpload exampleEnv exampleFile) withSelection)) = true
  /\ unchanged (exec (handleFileUpload exampleEnv exampleFile) withSelection)
       (exec (handler exampleEnv Detect)
          (exec (handleFileUpload exampleEnv exampleFile) withSelection)).
Proof.
  apply (failure_outcome exampleEnv Detect
           (exec (handleFileUpload exampleEnv exampleFile) withSelection)).
  reflexivity.
Defined.

(** What ending a gesture does to the controller: the page box of the
    clamped rectangle goes into the map under the current page index. *)
Lemma mouseUp_stores s v o (x y : Q) :
  pdfViewer s = Some v -> bboxOverlay s = Some o ->
  Overlay.isDrawing o = true -> Overlay.onBboxComplete o = true ->
  let rect := Overlay.getCanvasBbox (Viewer.overlayCssWidth v) (Viewer.overlayCssHeight v)
                (Overlay.set_current x y o) in
  pageBboxes (exec (mouseUp x y) s)
  = <[currentPage s - 1 := Viewer.canvasRectToPDFBbox v rect]> (pageBboxes s).
Proof.
  intros Hv Ho Hd Hc. cbv zeta.
  unfold exec, mouseUp, overlayEvent, runOverlay, bind, get, modify.
  rewrite Hv, Ho.
  unfold Overlay.onMouseUp, Overlay.finishDrawing, bind, get, modify, emit, ret.
  rewrite Hd. cbn. rewrite Hc. cbn. reflexivity.
Qed.

(** C3 (as stated, refuted): a click without a drag ends a gesture whose
    rectangle is 0 wide and 0 high, and the completion handler stores its
    page box for the current page in a map that was empty. *)
Lemma zero_area_selection_is_stored :
  pageBboxes (exec (mouseDown 10 10) loadedState) = ∅
  /\ (exists v o,
        pdfViewer afterClick = Some v /\ bboxOverlay afterClick = Some o
        /\ let rect := Overlay.getCanvasBbox (Viewer.overlayCssWidth v)
                         (Viewer.overlayCssHeight v) o in
           (Rect.width rect == 0 /\ Rect.height rect == 0)%Q)
  /\ (exists b, pageBboxes afterClick !! 0%Z = Some b)
  /\ pageBboxes afterClick <> pageBboxes (exec (mouseDown 10 10) loadedState).
Proof.
  assert (E : pageBboxes (exec (mouseDown 10 10) loadedState) = ∅) by reflexivity.
  assert (L : exists b, pageBboxes afterClick !! 0%Z = Some b)
    by (eexists; vm_compute; reflexivity).
  split; [exact E|]. split; [|split; [exact L|]].
  - eexists _, _. split; [reflexivity|]. split; [reflexivity|]. split; reflexivity.
  - rewrite E. intros C. destruct L as (b & L). rewrite C in L. discriminate L.
Qed.

(** C3 (amended): when a gesture ends, the completion handler stores the
    page box of its final rectangle in the map under the current page
    index, whatever the area of the rectangle, zero included; only a null
    box leaves the map as it was. *)
Theorem completed_selection_is_stored (s : App) (v : Viewer.PDFViewer)
    (o : Overlay.BBoxOverlay) (x y : Q) :
  pdfViewer s = Some v -> bboxOverlay s = Some o ->
  Overlay.isDrawing o = true -> Overlay.onBboxComplete o = true ->
  let rect := Overlay.getCanvasBbox (Viewer.overlayCssWidth v) (Viewer.overlayCssHeight v)
                (Overlay.set_current x y o) in
  pageBboxes (exec (mouseUp x y) s)
    = <[currentPage s - 1 := Viewer.canvasRectToPDFBbox v rect]> (pageBboxes s)
  /\ pageBboxes (exec (mouseUp x y) s) !! (currentPage s - 1)
    = Some (Viewer.canvasRectToPDFBbox v rect)
  /\ (forall b, pageBboxes (exec (onBboxComplete (Some b)) s)
                = <[currentPage s - 1 := b]> (pageBboxes s))
  /\ exec (onBboxComplete None) s = s.
Proof.
  intros Hv Ho Hd Hc. cbv zeta.
  rewrite (mouseUp_stores s v o x y Hv Ho Hd Hc).
  split; [reflexivity|]. split; [apply lookup_insert_eq|]. split; reflexivity.
Qed.

Lemma completed_selection_is_stored_witness :
  pageBboxes afterClick !! (currentPage (exec (mouseDown 10 10) loadedState) - 1)
  = Some (Viewer.canvasRectToPDFBbox clickViewer
            (Overlay.getCanvasBbox (Viewer.overlayCssWidth clickViewer)
               (Viewer.overlayCssHeight clickViewer)
               (Overlay.set_current 10 10 clickOverlay))).
Proof.
  exact (proj1 (proj2 (completed_selection_is_stored
           (exec (mouseDown 10 10) loadedState) clickViewer clickOverlay 10 10
           eq_refl eq_refl eq_refl eq_refl))).
Defined.

End AppFacts.

(* ------------------------------------------------------------------ *)
(** ** Page ranges: what the parser returns                            *)
(* ------------------------------------------------------------------ *)

Module PageRangeSpec.
Import JSString PageRange Vocabulary.
Local Open Scope string_scope.

Lemma setAdd_NoDup (x : Z) (l : list Z) : NoDup l -> NoDup (setAdd x l).
Proof.
  intros H. unfold setAdd. destruct (existsb (Z.eqb x) l) eqn:E; [exact H|].
  apply NoDup_app; split; [exact H|]. split.
  - intros y Hy Hx. apply list_elem_of_In in Hy. apply list_elem_of_In in Hx.
    destruct Hx as [<-|[]]. 
    assert (T : existsb (Z.eqb x) l = true)
      by (apply existsb_exists; exists x; split; [exact Hy | apply Z.eqb_refl]).
    congruence.
  - apply NoDup_singleton.
Qed.

Lemma fold_setAdd_NoDup (f : Z -> Z) (ws acc : list Z) :
  NoDup acc -> NoDup (fold_left (fun a i => setAdd (f i) a) ws acc).
Proof.
  revert acc. induction ws as [|w ws IH]; intros acc H; cbn; [exact H|].
  now apply IH, setAdd_NoDup.
Qed.

Lemma addPart_NoDup (acc : list Z) (part : string) : NoDup acc -> NoDup (addPart acc part).
Proof.
  intros H. unfold addPart. destruct (includes "-" part).
  - destruct (List.map _ _) as [|[a|] [|[b|] l]]; auto. now apply fold_setAdd_NoDup.
  - destruct (parseInt part); auto. now apply setAdd_NoDup.
Qed.

Lemma fold_addPart_NoDup (parts : list string) (acc : list Z) :
  NoDup acc -> NoDup (fold_left addPart parts acc).
Proof.
  revert acc. induction parts as [|p ps IH]; intros acc H; cbn; [exact H|].
  now apply IH, addPart_NoDup.
Qed.

Lemma leb_le (x y : Z) : is_true (ZOrder.leb x y) <-> x <= y.
Proof. rewrite ZOrder.leb_le. reflexivity. Qed.

Lemma strictly_sorted (l : list Z) :
  StronglySorted (fun x y => is_true (ZOrder.leb x y)) l -> NoDup l ->
  StronglySorted Z.lt l.
Proof.
  induction 1 as [|a l Hs IH Hall]; intros Hnd; constructor.
  - apply IH. now apply NoDup_cons in Hnd as [_ ?].
  - apply NoDup_cons in Hnd as [Hnot _].
    rewrite List.Forall_forall in Hall |- *. intros y Hy.
    specialize (Hall y Hy). apply leb_le in Hall.
    assert (a <> y) by (intros ->; apply Hnot, list_elem_of_In, Hy). lia.
Qed.

Lemma parsePageRange_sorted (text : string) :
  StronglySorted Z.lt (parsePageRange text).
Proof.
  unfold parsePageRange. apply strictly_sorted.
  - apply ZSort.StronglySorted_sort, ZOrder.leb_trans.
  - rewrite <- (ZSort.Permuted_sort _). apply fold_addPart_NoDup. constructor.
Qed.

(** X1: whatever the text, the list [parsePageRange] returns is strictly
    ascending: sorted, with no index twice. *)
Theorem parsePageRange_ascending (text : string) :
  StronglySorted Z.lt (parsePageRange text).
Proof. exact (parsePageRange_sorted text). Qed.

Lemma loopValues_In (a b j : Z) : In j (loopValues a b) <-> a <= j <= b.
Proof.
  unfold loopValues. rewrite in_map_iff. split.
  - intros (k & <- & Hk). apply in_seq in Hk. lia.
  - intros H. exists (Z.to_nat (j - a)). split; [lia|]. apply in_seq. lia.
Qed.

Lemma fold_setAdd_In (ws acc : list Z) (i : Z) :
  In i (fold_left (fun a j => setAdd (j - 1) a) ws acc)
  <-> In i acc \/ exists j, In j ws /\ i = j - 1.
Proof.
  revert acc. induction ws as [|w ws IH]; intros acc; cbn.
  - split.
    + intros H. left. exact H.
    + intros [H|(j & [] & _)]. exact H.
  - rewrite IH, PageRangeFacts.setAdd_In. split.
    + intros [[->|H]|(j & Hj & ->)]; eauto.
    + intros [H|(j & [<-|Hj] & ->)]; eauto.
Qed.

Lemma addPart_In (acc : list Z) (part : string) (i : Z) :
  In i (addPart acc part) <-> In i acc \/ denotes part (i + 1).
Proof.
  unfold addPart, denotes. destruct (includes "-" part).
  - destruct (List.map _ _) as [|[a|] [|[b|] l]] eqn:E.
    1-2, 4-7: split; [intros H; now left | intros [H|(s0 & e0 & r0 & [=] & _)]; exact H].
    rewrite fold_setAdd_In. split.
    + intros [H|(j & Hj & ->)]; [now left|]. right. exists a, b, l.
      apply loopValues_In in Hj. split; [reflexivity | lia].
    + intros [H|(s0 & e0 & r0 & [= <- <- <-] & Hr)]; [now left|]. right.
      exists (i + 1). split; [apply loopValues_In; lia | lia].
  - destruct (parseInt part) as [page|].
    + rewrite PageRangeFacts.setAdd_In. split.
      * intros [->|H]; [right; f_equal; lia | now left].
      * intros [H|[= ->]]; [now right | left; lia].
    + split; [intros H; now left | intros [H|[=]]; exact H].
Qed.

Lemma fold_addPart_In (parts : list string) (acc : list Z) (i : Z) :
  In i (fold_left addPart parts acc)
  <-> In i acc \/ exists part, In part parts /\ denotes part (i + 1).
Proof.
  revert acc. induction parts as [|p ps IH]; intros acc; cbn.
  - split; [intros H; now left | intros [H|(part & [] & _)]; exact H].
  - rewrite IH, addPart_In. split.
    + intros [[H|H]|(part & Hp & Hd)]; eauto.
    + intros [H|(part & [<-|Hp] & Hd)]; eauto.
Qed.

Lemma parsePageRange_In (text : string) (i : Z) :
  In i (parsePageRange text)
  <-> exists part, In part (tokens text) /\ denotes part (i + 1).
Proof.
  unfold parsePageRange, tokens. rewrite PageRangeFacts.sort_In, fold_addPart_In.
  split; [intros [[]|H]; exact H | intros H; now right].
Qed.



Lemma digitValue_nonneg (radix : Z) (c : ascii) (d : Z) :
  digitValue radix c = Some d -> 0 <= d.
Proof.
  unfold digitValue.
  set (n := Z.of_nat (nat_of_ascii c)).
  destruct ((48 <=? n)%Z && (n <=? 57)%Z)%bool eqn:E1;
    [|destruct ((97 <=? n)%Z && (n <=? 102)%Z)%bool eqn:E2;
      [|destruct ((65 <=? n)%Z && (n <=? 70)%Z)%bool eqn:E3; [|discriminate]]].
  all: match goal with |- (if ?b then _ else _) = _ -> _ => destruct b end;
    intros [= <-]; lia.
Qed.

Lemma parseDigits_nonneg (radix : Z) (acc : option Z) (s : string) (m : Z) :
  0 <= radix -> (forall a, acc = Some a -> 0 <= a) ->
  parseDigits radix acc s = Some m -> 0 <= m.
Proof.
  intros Hr. revert acc. induction s as [|c s IH]; intros acc Hacc; cbn.
  - intros H. now apply Hacc.
  - destruct (digitValue radix c) as [d|] eqn:Hd; [|intros H; now apply Hacc].
    apply IH. intros a [= <-]. apply digitValue_nonneg in Hd.
    destruct acc as [a0|]; [|exact Hd]. specialize (Hacc a0 eq_refl). nia.
Qed.

Lemma includes_trimStart (c : ascii) (s : string) :
  includes c s = false -> includes c (trimStart s) = false.
Proof.
  induction s as [|a s IH]; [reflexivity|]. cbn. intros H.
  apply Bool.orb_false_iff in H as [Ha Hs].
  destruct (isWhiteSpace a); [now apply IH|]. cbn. now rewrite Ha, Hs.
Qed.

Lemma includes_trimEnd (c : ascii) (s : string) :
  includes c s = false -> includes c (trimEnd s) = false.
Proof.
  induction s as [|a s IH]; [reflexivity|]. cbn. intros H.
  apply Bool.orb_false_iff in H as [Ha Hs]. specialize (IH Hs).
  destruct (trimEnd s) as [|b t].
  - destruct (isWhiteSpace a); [reflexivity|]. cbn. now rewrite Ha.
  - cbn in IH |- *. now rewrite Ha, IH.
Qed.

Lemma includes_trim (c : ascii) (s : string) :
  includes c s = false -> includes c (trim s) = false.
Proof. intros H. now apply includes_trimEnd, includes_trimStart. Qed.

Lemma split_pieces (sep : ascii) (s p : string) :
  In p (split sep s) -> includes sep p = false.
Proof.
  revert p. induction s as [|a s IH]; intros p; cbn.
  - now intros [<-|[]].
  - destruct (Ascii.eqb a sep) eqn:Ha.
    + intros [<-|H]; [reflexivity | now apply IH].
    + destruct (split sep s) as [|h t]; [now intros [<-|[]]; cbn; rewrite Ha|].
      intros [<-|H].
      * cbn. rewrite Ha. apply IH. now left.
      * apply IH. now right.
Qed.

(** [parseInt] reads no negative number from a text without a dash. *)
Lemma parseInt_nonneg (s : string) (n : Z) :
  includes "-" s = false -> parseInt s = Some n -> 0 <= n.
Proof.
  intros Hs. apply (includes_trimStart "-") in Hs. unfold parseInt.
  destruct (trimStart s) as [|c r] eqn:Ht.
  - discriminate.
  - cbn in Hs. apply Bool.orb_false_iff in Hs as [Hc Hr]. rewrite Hc.
    destruct (Ascii.eqb c "+").
    + destruct (stripHexPrefix r) as [radix s3] eqn:Hx.
      destruct (parseDigits radix None s3) as [m|] eqn:Hp; [|discriminate].
      intros [= <-].
      assert (0 <= radix).
      { unfold stripHexPrefix in Hx. destruct r as [|c0 [|c1 rest]];
          try (injection Hx as <- <-; lia).
        destruct (_ && _)%bool; injection Hx as <- <-; lia. }
      apply parseDigits_nonneg in Hp; [lia | assumption | discriminate].
    + destruct (stripHexPrefix (String c r)) as [radix s3] eqn:Hx.
      destruct (parseDigits radix None s3) as [m|] eqn:Hp; [|discriminate].
      intros [= <-].
      assert (0 <= radix).
      { unfold stripHexPrefix in Hx. destruct r as [|c1 rest];
          try (injection Hx as <- <-; lia).
        destruct (_ && _)%bool; injection Hx as <- <-; lia. }
      apply parseDigits_nonneg in Hp; [lia | assumption | discriminate].
Qed.

Lemma denotes_nonneg (part : string) (page : Z) : denotes part page -> 0 <= page.
Proof.
  unfold denotes. destruct (includes "-" part) eqn:Hd.
  - intros (start & end_ & rest & E & Hr).
    destruct (split "-" part) as [|p0 ps] eqn:Hsp; [discriminate|].
    injection E as E0 _.
    assert (Hin : In p0 (split "-" part)) by (rewrite Hsp; now left).
    apply split_pieces, (includes_trim "-") in Hin.
    apply (parseInt_nonneg _ _ Hin) in E0. lia.
  - now apply parseInt_nonneg.
Qed.

(** X3: no index below -1 ever comes out of [parsePageRange].  A minus
    sign makes a token a range, and the bounds of a range are read from
    pieces without a minus sign, so no page number below 0 is ever read. *)
Theorem parsePageRange_lower_bound (text : string) (i : Z) :
  In i (parsePageRange text) -> -1 <= i.
Proof.
  intros H. apply parsePageRange_In in H as (part & _ & Hd).
  apply denotes_nonneg in Hd. lia.
Qed.

Lemma parsePageRange_lower_bound_witness :
  parsePageRange "3, 0 ,-7" = [-1; 2] /\ -1 <= -1.
Proof.
  split; [reflexivity|].
  apply (parsePageRange_lower_bound "3, 0 ,-7" (-1)). vm_compute. tauto.
Defined.






(** X4: [getPageRange] never returns an empty list: it returns the null
    sentinel or a strictly ascending list with at least one index. *)
Theorem getPageRange_nonempty (currentPage : Z) (sel : RangeSelect) (l : list Z) :
  getPageRange currentPage sel = Some l -> l <> [] /\ StronglySorted Z.lt l.
Proof.
  destruct sel as [| | |text|]; cbn; try discriminate.
  - intros [= <-]. split; [discriminate|]. repeat constructor.
  - pose proof (parsePageRange_sorted text) as Hs.
    destruct (parsePageRange text) as [|x l']; cbn; [discriminate|].
    intros [= <-]. split; [discriminate | exact Hs].
Qed.

Lemma getPageRange_nonempty_witness :
  [1; 2; 3; 6] <> [] /\ StronglySorted Z.lt [1; 2; 3; 6].
Proof.
  apply (getPageRange_nonempty 1 (SelectCustom "7,2-4,3")). reflexivity.
Defined.

End PageRangeSpec.

(* ------------------------------------------------------------------ *)
(** ** The viewer: rendering, navigation and zoom                      *)
(* ------------------------------------------------------------------ *)

Module ViewerSpec.
Import PDFJS Viewer Vocabulary Examples.
Local Open Scope Q_scope.

Lemma renderPage_run c n v doc p :
  pdfDocument v = Some doc -> (1 <= n <= totalPages v)%Z -> getPage doc n = Ok p ->
  renderPage c n v =
    if renderCompletes p
    then (rendered c n p v,
          if onPageChange v then [PageChange n (totalPages v)] else [],
          Ok (getViewport p (scale (rendered c n p v))))
    else (rendered c n p v, [], Throw "Failed to render page: Rendering failed").
Proof.
  intros Hd Hn Hp.
  unfold renderPage, renderPageBody, rendered, tryCatch, bind, get, modify, throw, ret,
    emit, await.
  rewrite Hd.
  replace ((n <? 1)%Z || (totalPages v <? n)%Z)%bool with false
    by (symmetry; apply Bool.orb_false_iff; split; apply Z.ltb_ge; lia).
  rewrite Hp. destruct v as [d cp tp sc ms po cv cw ch cb], p as [pw ph rc].
  destruct ms, rc, cb; reflexivity.
Qed.

Lemma renderPage_refused c n v :
  pdfDocument v = None \/ (n < 1)%Z \/ (totalPages v < n)%Z ->
  exists msg, renderPage c n v = (v, [], Throw msg).
Proof.
  intros H. unfold renderPage, bind, get, throw.
  destruct (pdfDocument v) as [doc|]; [|eexists; reflexivity].
  destruct H as [H|H]; [discriminate|].
  replace ((n <? 1)%Z || (totalPages v <? n)%Z)%bool with true; [eexists; reflexivity|].
  symmetry. apply Bool.orb_true_iff. destruct H; [left | right]; apply Z.ltb_lt; lia.
Qed.

Lemma renderPage_page_missing c n v doc msg :
  pdfDocument v = Some doc -> (1 <= n <= totalPages v)%Z -> getPage doc n = Throw msg ->
  renderPage c n v = (v, [], Throw ("Failed to render page: " ++ msg)%string).
Proof.
  intros Hd Hn Hp.
  unfold renderPage, renderPageBody, tryCatch, bind, get, modify, throw, ret, emit, await.
  rewrite Hd.
  replace ((n <? 1)%Z || (totalPages v <? n)%Z)%bool with false
    by (symmetry; apply Bool.orb_false_iff; split; apply Z.ltb_ge; lia).
  now rewrite Hp.
Qed.

Lemma renderPage_ok_inv c n v v' evs vp :
  renderPage c n v = (v', evs, Ok vp) ->
  exists doc p,
    pdfDocument v = Some doc /\ (1 <= n <= totalPages v)%Z
    /\ getPage doc n = Ok p /\ renderCompletes p = true.
Proof.
  intros H.
  destruct (pdfDocument v) as [doc|] eqn:Hd.
  2: { destruct (renderPage_refused c n v) as (msg & E);
         [left; exact Hd | congruence]. }
  destruct (Z_lt_dec n 1) as [Hlo|Hlo].
  { destruct (renderPage_refused c n v) as (msg & E);
      [right; left; exact Hlo | congruence]. }
  destruct (Z_lt_dec (totalPages v) n) as [Hhi|Hhi].
  { destruct (renderPage_refused c n v) as (msg & E);
      [right; right; exact Hhi | congruence]. }
  destruct (getPage doc n) as [p|msg] eqn:Hp.
  2: { rewrite (renderPage_page_missing c n v doc msg Hd ltac:(lia) Hp) in H.
       discriminate. }
  exists doc, p. split; [reflexivity|]. split; [lia|]. split; [exact Hp|].
  rewrite (renderPage_run c n v doc p Hd ltac:(lia) Hp) in H.
  destruct (renderCompletes p); [reflexivity | discriminate].
Qed.

(** The state after [renderPage], returned or thrown: untouched, or the
    state built for the page. *)
Lemma renderPage_cases c n v :
  fst (fst (renderPage c n v)) = v
  \/ exists doc p,
       pdfDocument v = Some doc /\ (1 <= n <= totalPages v)%Z
       /\ getPage doc n = Ok p
       /\ fst (fst (renderPage c n v)) = rendered c n p v.
Proof.
  destruct (pdfDocument v) as [doc|] eqn:Hd.
  2: { left. destruct (renderPage_refused c n v) as (msg & ->); [now left | reflexivity]. }
  destruct (Z_lt_dec n 1) as [Hlo|Hlo].
  { left. destruct (renderPage_refused c n v) as (msg & ->); [now right; left | reflexivity]. }
  destruct (Z_lt_dec (totalPages v) n) as [Hhi|Hhi].
  { left. destruct (renderPage_refused c n v) as (msg & ->); [now right; right | reflexivity]. }
  destruct (getPage doc n) as [p|msg] eqn:Hp.
  - right. exists doc, p. split; [reflexivity|]. split; [lia|]. split; [exact Hp|].
    rewrite (renderPage_run c n v doc p Hd ltac:(lia) Hp).
    now destruct (renderCompletes p).
  - left. now rewrite (renderPage_page_missing c n v doc msg Hd ltac:(lia) Hp).
Qed.

(** X6: [renderPage] returns exactly when a document is loaded, the page
    number is between 1 and the page count, the library hands out the page
    and its rendering completes; and when no document is loaded or the
    number is out of range it throws before touching anything: the viewer
    is unchanged and no callback runs. *)
Theorem renderPage_outcome (c : Container) (pageNum : Z) (v : PDFViewer) :
  ((exists v' evs vp, renderPage c pageNum v = (v', evs, Ok vp))
   <-> exists doc p,
         pdfDocument v = Some doc /\ (1 <= pageNum <= totalPages v)%Z
         /\ getPage doc pageNum = Ok p /\ renderCompletes p = true)
  /\ (pdfDocument v = None \/ (pageNum < 1)%Z \/ (totalPages v < pageNum)%Z ->
      exists msg, renderPage c pageNum v = (v, [], Throw msg)).
Proof.
  split; [|apply renderPage_refused]. split.
  - intros (v' & evs & vp & H). eapply renderPage_ok_inv, H.
  - intros (doc & p & Hd & Hn & Hp & Hr).
    rewrite (renderPage_run c pageNum v doc p Hd Hn Hp), Hr. eauto.
Qed.



(** *** Operations as state changes *)

Lemma bind_render_state {A} c n v (k : PageViewport -> VM A) :
  (forall vp v1, fst (fst (k vp v1)) = v1) ->
  fst (fst (bind (renderPage c n) k v)) = fst (fst (renderPage c n v)).
Proof.
  intros Hk. unfold bind. destruct (renderPage c n v) as [[v1 ev1] [vp|msg]]; [|reflexivity].
  specialize (Hk vp v1). now destruct (k vp v1) as [[v2 ev2] r].
Qed.

Lemma nextPage_state c v :
  fst (fst (nextPage c v))
  = if (currentPage v <? totalPages v)%Z
    then fst (fst (renderPage c (currentPage v + 1) v)) else v.
Proof.
  unfold nextPage. unfold bind at 1. cbn [get].
  destruct (_ <? _)%Z; [|reflexivity].
  destruct (bind _ _ v) as [[v2 ev2] r] eqn:E. cbn [fst].
  pose proof (bind_render_state c (currentPage v + 1) v (fun _ => ret tt)
                (fun _ _ => eq_refl)) as B.
  rewrite E in B. exact B.
Qed.

Lemma previousPage_state c v :
  fst (fst (previousPage c v))
  = if (1 <? currentPage v)%Z
    then fst (fst (renderPage c (currentPage v - 1) v)) else v.
Proof.
  unfold previousPage. unfold bind at 1. cbn [get].
  destruct (_ <? _)%Z; [|reflexivity].
  destruct (bind _ _ v) as [[v2 ev2] r] eqn:E. cbn [fst].
  pose proof (bind_render_state c (currentPage v - 1) v (fun _ => ret tt)
                (fun _ _ => eq_refl)) as B.
  rewrite E in B. exact B.
Qed.

Lemma setScale_state c a v :
  fst (fst (setScale c a v))
  = fst (fst (renderPage c (currentPage v)
                (set_manualScale true (set_scale (Math_max (1 # 2) (Math_min 3 a)) v)))).
Proof.
  unfold setScale. unfold bind at 1. cbn [modify]. unfold bind at 1. cbn [modify].
  unfold bind at 1. cbn [get].
  set (v1 := set_manualScale true (set_scale _ v)).
  change (currentPage v) with (currentPage v1).
  destruct (bind _ _ v1) as [[v2 ev2] r] eqn:E. cbn [fst].
  pose proof (bind_render_state c (currentPage v1) v1 (fun _ => ret tt)
                (fun _ _ => eq_refl)) as B.
  rewrite E in B. exact B.
Qed.

Lemma fitToPage_state c v :
  fst (fst (fitToPage c v))
  = fst (fst (renderPage c (currentPage v) (set_manualScale false v))).
Proof.
  unfold fitToPage. unfold bind at 1. cbn [modify]. unfold bind at 1. cbn [get].
  set (v1 := set_manualScale false v).
  change (currentPage v) with (currentPage v1).
  destruct (bind _ _ v1) as [[v2 ev2] r] eqn:E. cbn [fst].
  pose proof (bind_render_state c (currentPage v1) v1 (fun _ => ret tt)
                (fun _ _ => eq_refl)) as B.
  rewrite E in B. exact B.
Qed.

Lemma loadPDF_state c loaded v :
  fst (fst (loadPDF c loaded v))
  = match loaded with
    | Ok doc =>
        fst (fst (renderPage c 1 (set_totalPages (numPages doc) (set_pdfDocument doc v))))
    | Throw _ => v
    end.
Proof.
  unfold loadPDF, tryCatch. destruct loaded as [doc|msg]; [|reflexivity].
  unfold bind at 1. cbn [await]. unfold bind at 1. cbn [modify].
  unfold bind at 1. cbn [modify].
  set (v1 := set_totalPages _ _).
  pose proof (bind_render_state c 1 v1 (fun _ => bind get (fun v => ret (totalPages v)))
                (fun _ _ => eq_refl)) as B.
  destruct (bind _ _ v1) as [[v2 ev2] [r|m]]; cbn [fst] in *; exact B.
Qed.

(** *** The page counters *)

Lemma rendered_consistent c n p v :
  (1 <= n)%Z -> consistent v -> consistent (rendered c n p v).
Proof.
  intros Hn (Ht & _ & _). unfold rendered, consistent.
  destruct v as [d cp tp sc ms po cv cw ch cb]. cbn in *.
  destruct ms; cbn; repeat split; try assumption; discriminate.
Qed.

Lemma renderPage_consistent c n v :
  consistent v -> consistent (fst (fst (renderPage c n v))).
Proof.
  intros H. destruct (renderPage_cases c n v) as [->|(doc & p & _ & Hn & _ & ->)];
    [exact H | apply rendered_consistent; [lia | exact H]].
Qed.

Lemma runOp_consistent v step : consistent v -> consistent (runOp v step).
Proof.
  intros H. destruct step as [c op]. destruct op; cbn [runOp].
  - exact H.
  - rewrite loadPDF_state. destruct loaded as [doc|msg]; [|exact H].
    apply renderPage_consistent. destruct H as (_ & Hc & Hv). now repeat split.
  - now apply renderPage_consistent.
  - rewrite nextPage_state. destruct (_ <? _)%Z; [now apply renderPage_consistent | exact H].
  - rewrite previousPage_state.
    destruct (_ <? _)%Z; [now apply renderPage_consistent | exact H].
  - rewrite setScale_state. now apply renderPage_consistent.
  - unfold zoomIn. unfold bind. cbn [get].
    pose proof (setScale_state c (scale v * (125 # 100)) v) as E.
    destruct (setScale _ _ v) as [[v1 e1] r]. cbn [fst] in *. rewrite E.
    now apply renderPage_consistent.
  - unfold zoomOut. unfold bind. cbn [get].
    pose proof (setScale_state c (scale v / (125 # 100)) v) as E.
    destruct (setScale _ _ v) as [[v1 e1] r]. cbn [fst] in *. rewrite E.
    now apply renderPage_consistent.
  - unfold fitToWidth. unfold bind. cbn [get].
    destruct (currentPageObject v) as [p|]; [|exact H].
    pose proof (setScale_state c (containerWidth c / vpWidth (getViewport p 1)) v) as E.
    destruct (setScale _ _ v) as [[v1 e1] r]. cbn [fst] in *. rewrite E.
    now apply renderPage_consistent.
  - rewrite fitToPage_state. now apply renderPage_consistent.
Qed.

Lemma reachable_consistent w h steps : consistent (runOps (create w h) steps).
Proof.
  unfold runOps.
  assert (H0 : consistent (create w h)).
  { split; [reflexivity|]. split; [cbn; lia|]. intros C. now contradiction C. }
  revert H0. generalize (create w h) as v.
  induction steps as [|step steps IH]; intros v H; cbn; [exact H|].
  apply IH, runOp_consistent, H.
Qed.

Lemma rendered_viewportOfPage c n p v : viewportOfPage (rendered c n p v).
Proof.
  unfold rendered, viewportOfPage.
  destruct v as [d cp tp sc ms po cv cw ch cb]. cbn.
  destruct ms; cbn; intros vp [= <-]; exists p; now repeat split.
Qed.

Lemma renderPage_viewportOfPage c n v :
  viewportOfPage v -> viewportOfPage (fst (fst (renderPage c n v))).
Proof.
  intros H. destruct (renderPage_cases c n v) as [->|(doc & p & _ & _ & _ & ->)];
    [exact H | apply rendered_viewportOfPage].
Qed.

Lemma runOp_viewportOfPage v step : viewportOfPage v -> viewportOfPage (runOp v step).
Proof.
  intros H. destruct step as [c op]. destruct op; cbn [runOp].
  - exact H.
  - rewrite loadPDF_state. destruct loaded as [doc|msg]; [|exact H].
    apply renderPage_viewportOfPage. exact H.
  - now apply renderPage_viewportOfPage.
  - rewrite nextPage_state.
    destruct (_ <? _)%Z; [now apply renderPage_viewportOfPage | exact H].
  - rewrite previousPage_state.
    destruct (_ <? _)%Z; [now apply renderPage_viewportOfPage | exact H].
  - rewrite setScale_state. now apply renderPage_viewportOfPage.
  - unfold zoomIn. unfold bind. cbn [get].
    pose proof (setScale_state c (scale v * (125 # 100)) v) as E.
    destruct (setScale _ _ v) as [[v1 e1] r]. cbn [fst] in *. rewrite E.
    now apply renderPage_viewportOfPage.
  - unfold zoomOut. unfold bind. cbn [get].
    pose proof (setScale_state c (scale v / (125 # 100)) v) as E.
    destruct (setScale _ _ v) as [[v1 e1] r]. cbn [fst] in *. rewrite E.
    now apply renderPage_viewportOfPage.
  - unfold fitToWidth. unfold bind. cbn [get].
    destruct (currentPageObject v) as [p|]; [|exact H].
    pose proof (setScale_state c (containerWidth c / vpWidth (getViewport p 1)) v) as E.
    destruct (setScale _ _ v) as [[v1 e1] r]. cbn [fst] in *. rewrite E.
    now apply renderPage_viewportOfPage.
  - rewrite fitToPage_state. now apply renderPage_viewportOfPage.
Qed.

Lemma reachable_viewportOfPage w h steps : viewportOfPage (runOps (create w h) steps).
Proof.
  unfold runOps.
  assert (H0 : viewportOfPage (create w h)) by (intros vp; discriminate).
  revert H0. generalize (create w h) as v.
  induction steps as [|step steps IH]; intros v H; cbn; [exact H|].
  apply IH, runOp_viewportOfPage, H.
Qed.

(** X8: in every state reached from a fresh viewer, whatever the calls
    and whether they returned or threw, the page count is that of the
    loaded document (0 without one), the current page number is at least 1,
    and a stored viewport comes with the page object it was made from: it
    is the viewport of the stored page object at the scale the viewport
    records, and the overlay canvas has its floored size. *)
Theorem viewer_counters (cssWidth cssHeight : Q) (steps : list (Container * Op)) :
  let v := runOps (create cssWidth cssHeight) steps in
  totalPages v = match pdfDocument v with Some d => numPages d | None => 0%Z end
  /\ (1 <= currentPage v)%Z
  /\ (forall vp, currentViewport v = Some vp ->
      exists p, currentPageObject v = Some p
        /\ vp = getViewport p (vpScale vp)
        /\ overlayCssWidth v = Math_floor (vpWidth vp)
        /\ overlayCssHeight v = Math_floor (vpHeight vp)).
Proof.
  cbv zeta. destruct (reachable_consistent cssWidth cssHeight steps) as (A & B & _).
  split; [exact A|]. split; [exact B|].
  apply reachable_viewportOfPage.
Qed.

(** X9: the fallback of [canvasToPDF] that answers the origin when a
    viewport is there without page dimensions is never taken in a state
    reached from a fresh viewer: the conversion returns null or the point
    computed from the scale and the page height. *)
Theorem canvasToPDF_no_fallback (cssWidth cssHeight : Q) (steps : list (Container * Op))
    (canvasX canvasY : Q) :
  let v := runOps (create cssWidth cssHeight) steps in
  (currentViewport v = None /\ canvasToPDF v canvasX canvasY = None)
  \/ exists pageWidth pageHeight,
       getPageDimensions v = Some (pageWidth, pageHeight)
       /\ canvasToPDF v canvasX canvasY
          = Some (Point.mk (canvasX / scale v) (pageHeight - canvasY / scale v)).
Proof.
  cbv zeta. destruct (reachable_consistent cssWidth cssHeight steps) as (_ & _ & C).
  set (v := runOps _ _) in *. unfold canvasToPDF, getPageDimensions.
  destruct (currentViewport v) as [vp|]; [|now left]. right.
  destruct (currentPageObject v) as [p|]; [|exfalso; apply C; [discriminate | reflexivity]].
  eexists _, _. split; reflexivity.
Qed.

(** *** Zoom *)

Lemma renderPage_manual c n v :
  manualScale v = true ->
  scale (fst (fst (renderPage c n v))) = scale v
  /\ manualScale (fst (fst (renderPage c n v))) = true.
Proof.
  intros Hm. destruct (renderPage_cases c n v) as [->|(doc & p & _ & _ & _ & ->)];
    [now split|].
  unfold rendered. destruct v as [d cp tp sc ms po cv cw ch cb]. cbn in *.
  subst ms. now split.
Qed.

Lemma setScale_result c a v :
  scale (fst (fst (setScale c a v))) = Math_max (1 # 2) (Math_min 3 a)
  /\ manualScale (fst (fst (setScale c a v))) = true.
Proof.
  rewrite setScale_state.
  now destruct (renderPage_manual c (currentPage v)
                  (set_manualScale true (set_scale (Math_max (1 # 2) (Math_min 3 a)) v))
                  eq_refl) as [-> ->].
Qed.

Lemma zoomIn_scale c v :
  scale (runOp v (c, OpZoomIn)) = Math_max (1 # 2) (Math_min 3 (scale v * (125 # 100))).
Proof.
  cbn [runOp]. unfold zoomIn, bind. cbn [get].
  pose proof (setScale_result c (scale v * (125 # 100)) v) as [E _].
  now destruct (setScale _ _ v) as [[v1 e1] r].
Qed.

Lemma zoomOut_scale c v :
  scale (runOp v (c, OpZoomOut)) = Math_max (1 # 2) (Math_min 3 (scale v / (125 # 100))).
Proof.
  cbn [runOp]. unfold zoomOut, bind. cbn [get].
  pose proof (setScale_result c (scale v / (125 # 100)) v) as [E _].
  now destruct (setScale _ _ v) as [[v1 e1] r].
Qed.

Lemma navigation_keeps_manual v step :
  isNavigation (snd step) = true -> manualScale v = true ->
  scale (runOp v step) = scale v /\ manualScale (runOp v step) = true.
Proof.
  destruct step as [c op]. destruct op; cbn [snd isNavigation]; try discriminate;
    intros _ Hm; cbn [runOp].
  - now apply renderPage_manual.
  - rewrite nextPage_state. destruct (_ <? _)%Z; [now apply renderPage_manual | now split].
  - rewrite previousPage_state.
    destruct (_ <? _)%Z; [now apply renderPage_manual | now split].
Qed.

(** X10: a zoom set by hand survives page navigation.  After
    [setScale(a)], returned or thrown, any sequence of [renderPage],
    [nextPage] and [previousPage] calls leaves the scale at [a] clamped to
    [0.5, 3], and the viewer marked as manually scaled. *)
Theorem manual_zoom_persists (c : Container) (a : Q) (v : PDFViewer)
    (steps : list (Container * Op)) :
  List.Forall (fun step => isNavigation (snd step) = true) steps ->
  let v' := runOps (runOp v (c, OpSetScale a)) steps in
  getScale v' = Math_max (1 # 2) (Math_min 3 a) /\ isManuallyScaled v' = true.
Proof.
  intros Hnav. cbv zeta. unfold getScale, isManuallyScaled.
  destruct (setScale_result c a v) as [Hs Hm]. cbn [runOp].
  revert Hs Hm. generalize (fst (fst (setScale c a v))) as v1.
  induction Hnav as [|step steps Hstep _ IH]; intros v1 Hs Hm; cbn; [now split|].
  destruct (navigation_keeps_manual v1 step Hstep Hm) as [Hs' Hm'].
  apply IH; [now rewrite Hs' | exact Hm'].
Qed.

Lemma manual_zoom_persists_witness :
  getScale (runOps (runOp exampleViewer (None, OpSetScale 2))
              [(None, OpNextPage); (Some (10, 10)%Z, OpRenderPage 1)])
  = Math_max (1 # 2) (Math_min 3 2).
Proof.
  apply (manual_zoom_persists None 2 exampleViewer
           [(None, OpNextPage); (Some (10, 10)%Z, OpRenderPage 1)]).
  repeat constructor.
Defined.

Lemma clamp_id (a : Q) : 1 # 2 <= a -> a <= 3 -> Math_max (1 # 2) (Math_min 3 a) == a.
Proof.
  intros Hlo Hhi. unfold Math_max, Math_min.
  rewrite (Q.min_r 3 a Hhi). now apply Q.max_r.
Qed.

Lemma clamp_compat (a b : Q) :
  a == b -> Math_max (1 # 2) (Math_min 3 a) == Math_max (1 # 2) (Math_min 3 b).
Proof. intros E. unfold Math_max, Math_min. now rewrite E. Qed.

(** X11: when zooming in does not hit the upper limit, zooming out
    afterwards restores the scale: from a scale [s] between 0.5 and 2.4,
    [zoomIn] followed by [zoomOut] ends at [s] again. *)
Theorem zoomIn_zoomOut (c1 c2 : Container) (v : PDFViewer) :
  1 # 2 <= scale v -> scale v * (125 # 100) <= 3 ->
  getScale (runOps v [(c1, OpZoomIn); (c2, OpZoomOut)]) == getScale v.
Proof.
  intros Hlo Hhi. unfold getScale, runOps. cbn [fold_left].
  rewrite zoomOut_scale, zoomIn_scale.
  assert (E1 : Math_max (1 # 2) (Math_min 3 (scale v * (125 # 100)))
               == scale v * (125 # 100)) by (apply clamp_id; lra).
  rewrite (clamp_compat _ (scale v)).
  - apply clamp_id; lra.
  - rewrite E1. field.
Qed.

Lemma zoomIn_zoomOut_witness :
  getScale (runOps exampleViewer [(None, OpZoomIn); (None, OpZoomOut)])
  == getScale exampleViewer.
Proof.
  apply (zoomIn_zoomOut None None exampleViewer); vm_compute; discriminate.
Defined.

(** X12: in every state reached from a fresh viewer, [zoomIn] never
    lowers the scale and [zoomOut] never raises it; at the limits they
    leave it where it is. *)
Theorem zoom_monotone (cssWidth cssHeight : Q) (steps : list (Container * Op))
    (c : Container) :
  let v := runOps (create cssWidth cssHeight) steps in
  getScale v <= getScale (runOp v (c, OpZoomIn))
  /\ getScale (runOp v (c, OpZoomOut)) <= getScale v
  /\ (getScale v == 3 -> getScale (runOp v (c, OpZoomIn)) == 3)
  /\ (getScale v == 1 # 2 -> getScale (runOp v (c, OpZoomOut)) == 1 # 2).
Proof.
  cbv zeta. unfold getScale.
  destruct (ScaleFacts.reachable_scaleOk cssWidth cssHeight steps) as [Hlo Hhi].
  set (v := runOps _ _) in *. rewrite zoomIn_scale, zoomOut_scale.
  unfold Math_max, Math_min. repeat split.
  - apply Qle_trans with (Qmin 3 (scale v * (125 # 100))); [|apply Q.le_max_r].
    apply Q.min_glb; lra.
  - apply Q.max_lub; [exact Hlo|].
    apply Qle_trans with (scale v / (125 # 100)); [apply Q.le_min_r|].
    apply Qle_shift_div_r; [reflexivity | lra].
  - intros E. rewrite (Q.min_l 3 _) by lra. now apply Q.max_r.
  - intros E.
    assert (L : scale v / (125 # 100) <= 1 # 2)
      by (apply Qle_shift_div_r; [reflexivity | lra]).
    rewrite (Q.min_r 3 _) by lra. now apply Q.max_l.
Qed.

(** *** Fitting *)

Lemma fitScale_ge_half c p : 1 # 2 <= fitScale c p.
Proof. apply ScaleFacts.clamp_inRange. Qed.

Lemma floor_mono (a b : Q) : a <= b -> Math_floor a <= Math_floor b.
Proof. intros H. unfold Math_floor. rewrite <- Zle_Qle. now apply Qfloor_resp_le. Qed.

Lemma floor_below (a b : Q) : a <= b -> Math_floor a <= b.
Proof. intros H. eapply Qle_trans; [apply Qfloor_le | exact H]. Qed.

(** X13: the canvas of a page rendered without a manual zoom.  The fitted
    scale is never below 0.5, and the canvas [renderPage] sizes for it, the
    floor of the page size times the fitted scale, fits the container,
    padding taken off, exactly when the canvas of the page at half size
    does: a page that is too large at half size overflows the container. *)
Theorem fitScale_fits (c : Container) (p : PDFPageProxy) :
  0 < viewWidth p -> 0 < viewHeight p ->
  1 # 2 <= fitScale c p
  /\ ((Math_floor (viewWidth p * fitScale c p) <= containerWidth c
       /\ Math_floor (viewHeight p * fitScale c p) <= containerHeight c)
      <-> (Math_floor (viewWidth p * (1 # 2)) <= containerWidth c
           /\ Math_floor (viewHeight p * (1 # 2)) <= containerHeight c)).
Proof.
  intros HW HH. pose proof (fitScale_ge_half c p) as Hge.
  split; [exact Hge|]. split.
  - intros [A B]. split.
    + eapply Qle_trans; [|exact A].
      apply floor_mono, Qmult_le_l; [exact HW | exact Hge].
    + eapply Qle_trans; [|exact B].
      apply floor_mono, Qmult_le_l; [exact HH | exact Hge].
  - intros [A B].
    set (sx := containerWidth c / (viewWidth p * 1)).
    set (sy := containerHeight c / (viewHeight p * 1)).
    assert (Ef : fitScale c p = Qmax (1 # 2) (Qmin (Qmin sx sy) 3)) by reflexivity.
    destruct (Qlt_le_dec (1 # 2) (Qmin (Qmin sx sy) 3)) as [Hm|Hm].
    + assert (E : fitScale c p == Qmin (Qmin sx sy) 3)
        by (rewrite Ef; apply Q.max_r, Qlt_le_weak, Hm).
      assert (FX : fitScale c p <= sx).
      { rewrite E. eapply Qle_trans; [apply Q.le_min_l|]. apply Q.le_min_l. }
      assert (FY : fitScale c p <= sy).
      { rewrite E. eapply Qle_trans; [apply Q.le_min_l|]. apply Q.le_min_r. }
      split; apply floor_below.
      * apply Qle_trans with (viewWidth p * sx).
        -- apply Qmult_le_l; [exact HW | exact FX].
        -- apply Qle_lteq. right. unfold sx. field. lra.
      * apply Qle_trans with (viewHeight p * sy).
        -- apply Qmult_le_l; [exact HH | exact FY].
        -- apply Qle_lteq. right. unfold sy. field. lra.
    + assert (E : fitScale c p == 1 # 2) by (rewrite Ef; apply Q.max_l, Hm).
      assert (EW : viewWidth p * fitScale c p == viewWidth p * (1 # 2))
        by (rewrite E; reflexivity).
      assert (EH : viewHeight p * fitScale c p == viewHeight p * (1 # 2))
        by (rewrite E; reflexivity).
      unfold Math_floor in *.
      rewrite (Qfloor_comp _ _ EW), (Qfloor_comp _ _ EH). now split.
Qed.

Lemma fitScale_fits_witness :
  Math_floor (612 * fitScale (Some (1000, 800)%Z) (mkPage 612 792 true)) <= 1000 - 60.
Proof.
  apply (proj2 (proj2 (fitScale_fits (Some (1000, 800)%Z) (mkPage 612 792 true)
                         eq_refl eq_refl))).
  split; vm_compute; discriminate.
Defined.

(** X14: [fitToPage] undoes a manual zoom: when it returns, the viewer is
    no longer marked as manually scaled and its scale is the fitted scale
    of the page shown, whatever the scale was. *)
Theorem fitToPage_resets (c : Container) (v v' : PDFViewer) (evs : list Event) :
  fitToPage c v = (v', evs, Ok tt) ->
  isManuallyScaled v' = false
  /\ exists p, currentPageObject v' = Some p /\ getScale v' = fitScale c p.
Proof.
  unfold fitToPage. unfold bind at 1. cbn [modify]. unfold bind at 1. cbn [get].
  set (v1 := set_manualScale false v).
  change (currentPage v) with (currentPage v1). unfold bind, ret.
  destruct (renderPage c (currentPage v1) v1) as [[v2 ev2] [vp|msg]] eqn:E;
    [|discriminate].
  intros [= <- <-].
  destruct (renderPage_ok_inv c _ v1 v2 ev2 vp E) as (doc & p & Hd & Hn & Hp & Hr).
  rewrite (renderPage_run c _ v1 doc p Hd Hn Hp), Hr in E. injection E as <- _ _.
  unfold isManuallyScaled, getScale, rendered. split; [reflexivity|].
  exists p. split; reflexivity.
Qed.

Lemma fitToPage_resets_witness :
  isManuallyScaled
    (fst (fst (fitToPage None (runOp exampleViewer (None, OpSetScale 2))))) = false.
Proof.
  apply (fitToPage_resets None (runOp exampleViewer (None, OpSetScale 2))
           (fst (fst (fitToPage None (runOp exampleViewer (None, OpSetScale 2)))))
           (snd (fst (fitToPage None (runOp exampleViewer (None, OpSetScale 2)))))).
  reflexivity.
Defined.

(** *** Navigation *)

Lemma getPage_in_range doc n :
  (1 <= n <= numPages doc)%Z -> exists p, getPage doc n = Ok p.
Proof.
  intros Hn. unfold getPage, numPages in *.
  replace (n <? 1)%Z with false by (symmetry; apply Z.ltb_ge; lia).
  destruct (nth_error (pages doc) (Z.to_nat (n - 1))) as [p|] eqn:E; [eauto|].
  apply nth_error_None in E. lia.
Qed.

Lemma renderPage_in_range c n v doc :
  pdfDocument v = Some doc -> totalPages v = numPages doc -> (1 <= n <= totalPages v)%Z ->
  exists p, getPage doc n = Ok p
    /\ fst (fst (renderPage c n v)) = rendered c n p v.
Proof.
  intros Hd Ht Hn. destruct (getPage_in_range doc n) as (p & Hp); [lia|].
  exists p. split; [exact Hp|].
  rewrite (renderPage_run c n v doc p Hd Hn Hp). now destruct (renderCompletes p).
Qed.

Lemma rendered_fields c n p v :
  currentPage (rendered c n p v) = n
  /\ totalPages (rendered c n p v) = totalPages v
  /\ pdfDocument (rendered c n p v) = pdfDocument v
  /\ currentPageObject (rendered c n p v) = Some p.
Proof.
  unfold rendered. destruct v as [d cp tp sc ms po cv cw ch cb]. cbn.
  now destruct ms.
Qed.



(** X16: [nextPage] followed by [previousPage] comes back: from a page
    that is not the last one, the viewer ends on the page number it started
    from, holding the handle of that page, whether or not the renderings
    completed. *)
Theorem next_then_previous (c1 c2 : Container) (v : PDFViewer) (doc : PDFDocumentProxy) :
  pdfDocument v = Some doc -> totalPages v = numPages doc ->
  (1 <= currentPage v < totalPages v)%Z ->
  let v' := runOps v [(c1, OpNextPage); (c2, OpPreviousPage)] in
  currentPage v' = currentPage v
  /\ exists p, getPage doc (currentPage v) = Ok p /\ currentPageObject v' = Some p.
Proof.
  intros Hd Ht Hr. cbv zeta. unfold runOps. cbn [fold_left runOp].
  rewrite nextPage_state.
  replace (currentPage v <? totalPages v)%Z with true by (symmetry; apply Z.ltb_lt; lia).
  destruct (renderPage_in_range c1 (currentPage v + 1) v doc Hd Ht ltac:(lia))
    as (p1 & _ & ->).
  destruct (rendered_fields c1 (currentPage v + 1) p1 v) as (Ec & Et & Edoc & _).
  set (v1 := rendered c1 (currentPage v + 1) p1 v) in *.
  rewrite previousPage_state, Ec.
  replace (1 <? currentPage v + 1)%Z with true by (symmetry; apply Z.ltb_lt; lia).
  replace (currentPage v + 1 - 1)%Z with (currentPage v) by lia.
  destruct (renderPage_in_range c2 (currentPage v) v1 doc
              ltac:(congruence) ltac:(congruence) ltac:(lia)) as (p & Hp & ->).
  destruct (rendered_fields c2 (currentPage v) p v1) as (-> & _ & _ & ->).
  split; [reflexivity|]. exists p. now split.
Qed.

Lemma next_then_previous_witness :
  currentPage (runOps twoPageViewer [(None, OpNextPage); (None, OpPreviousPage)])
  = currentPage twoPageViewer.
Proof.
  apply (next_then_previous None None twoPageViewer twoPages eq_refl eq_refl).
  vm_compute. split; [discriminate | reflexivity].
Defined.

End ViewerSpec.

(* ------------------------------------------------------------------ *)
(** ** The overlay: gestures and stored selections                     *)
(* ------------------------------------------------------------------ *)

Module OverlaySpec.
Import PDFJS Viewer Overlay Vocabulary Examples.
Local Open Scope Q_scope.

Lemma currentPdfBbox_span v o :
  currentPdfBbox v o = spanBox v (startX o) (startY o) (currentX o) (currentY o).
Proof. reflexivity. Qed.

(** X17: the rectangle of a selection does not depend on the direction of
    the drag: exchanging the anchor and the pointer position gives the same
    clamped rectangle. *)
Theorem getCanvasBbox_direction (canvasWidth canvasHeight : Q) (o : BBoxOverlay) :
  Rect.equiv (getCanvasBbox canvasWidth canvasHeight (reversed o))
             (getCanvasBbox canvasWidth canvasHeight o).
Proof.
  unfold getCanvasBbox, reversed, Rect.equiv, Math_max, Math_min.
  destruct o as [d sx sy cx cy b f g]. cbn.
  rewrite (Q.min_comm cx sx), (Q.max_comm cx sx), (Q.min_comm cy sy), (Q.max_comm cy sy).
  repeat split; reflexivity.
Qed.

Lemma bind_ok {S E A B} (m : Eff S E A) (k : A -> Eff S E B) s s1 e1 a :
  m s = (s1, e1, Ok a) ->
  bind m k s = (let '(s2, e2, r) := k a s1 in (s2, e1 ++ e2, r)).
Proof. intros H. unfold bind. now rewrite H. Qed.

Lemma onMouseDown_run x y o :
  onMouseDown x y o = (set_current x y (set_start x y (set_drawing true o)), [], Ok tt).
Proof. reflexivity. Qed.

Lemma onMouseMove_run v x y o :
  isDrawing o = true ->
  onMouseMove v x y o
  = (set_current x y o,
     if onBboxChange o then [BboxChange (spanBox v (startX o) (startY o) x y)] else [],
     Ok tt).
Proof.
  intros Hd. unfold onMouseMove, updateDrawing, bind, get, modify, emit, ret.
  rewrite Hd. destruct o as [d sx sy cx cy b f g]. cbn. now destruct f.
Qed.

Lemma onMouseUp_run v x y o :
  isDrawing o = true ->
  onMouseUp v x y o
  = (mkOverlay false (startX o) (startY o) x y (spanBox v (startX o) (startY o) x y)
       (onBboxChange o) (onBboxComplete o),
     if onBboxComplete o
     then [BboxComplete (spanBox v (startX o) (startY o) x y)] else [],
     Ok tt).
Proof.
  intros Hd. unfold onMouseUp, finishDrawing, bind, get, modify, emit, ret.
  rewrite Hd. destruct o as [d sx sy cx cy b f g]. cbn. now destruct g.
Qed.

(** The state and the callbacks of the moves of a gesture. *)
Lemma moves_run v (moves : list (Q * Q)) (o : BBoxOverlay) :
  isDrawing o = true ->
  fold_right (fun '(x, y) k => bind (onMouseMove v x y) (fun _ => k)) (ret tt) moves o
  = (fold_left (fun o1 '(x, y) => set_current x y o1) moves o,
     if onBboxChange o
     then List.map (fun '(x, y) => BboxChange (spanBox v (startX o) (startY o) x y)) moves
     else [],
     Ok tt).
Proof.
  revert o. induction moves as [|[x y] moves IH]; intros o Hd.
  - cbn. now destruct (onBboxChange o).
  - cbn [fold_right fold_left List.map].
    rewrite (bind_ok _ _ _ _ _ _ (onMouseMove_run v x y o Hd)).
    rewrite (IH (set_current x y o) Hd).
    cbn [onBboxChange set_current startX startY].
    now destruct (onBboxChange o).
Qed.

Lemma moves_keep (moves : list (Q * Q)) (o : BBoxOverlay) :
  let o' := fold_left (fun o1 '(x, y) => set_current x y o1) moves o in
  isDrawing o' = isDrawing o /\ startX o' = startX o /\ startY o' = startY o
  /\ onBboxChange o' = onBboxChange o /\ onBboxComplete o' = onBboxComplete o.
Proof.
  revert o. induction moves as [|[x y] moves IH]; intros o; cbn; [now repeat split|].
  apply (IH (set_current x y o)).
Qed.

(** X18: a whole gesture, pointer down at the anchor, any moves, pointer
    up at the release point.  The overlay ends idle with the page box of
    the rectangle spanned by the anchor and the release point: the moves in
    between do not matter.  Each move reports the box of the rectangle so
    far through [onBboxChange], and the end reports the final box once
    through [onBboxComplete]. *)
Theorem gesture_result (v : PDFViewer) (x0 y0 x1 y1 : Q) (moves : list (Q * Q))
    (o : BBoxOverlay) :
  gesture v x0 y0 moves x1 y1 o
  = (mkOverlay false x0 y0 x1 y1 (spanBox v x0 y0 x1 y1)
       (onBboxChange o) (onBboxComplete o),
     (if onBboxChange o
      then List.map (fun '(x, y) => BboxChange (spanBox v x0 y0 x y)) moves
      else [])
     ++ (if onBboxComplete o then [BboxComplete (spanBox v x0 y0 x1 y1)] else []),
     Ok tt).
Proof.
  unfold gesture.
  rewrite (bind_ok _ _ _ _ _ _ (onMouseDown_run x0 y0 o)).
  set (o1 := set_current x0 y0 (set_start x0 y0 (set_drawing true o))).
  rewrite (bind_ok _ _ _ _ _ _ (moves_run v moves o1 eq_refl)).
  destruct (moves_keep moves o1) as (Kd & Kx & Ky & Kc & Kf).
  set (o2 := fold_left _ moves o1) in *.
  rewrite (onMouseUp_run v x1 y1 o2 Kd), Kx, Ky, Kc, Kf. subst o1. cbn.
  reflexivity.
Qed.

(** *** Showing a stored box *)

Lemma Qeq_bbox_trans (a b c : BBox.t) :
  BBox.equiv a b -> BBox.equiv b c -> BBox.equiv a c.
Proof.
  intros (A1 & A2 & A3 & A4) (B1 & B2 & B3 & B4).
  repeat split; eapply Qeq_trans; eassumption.
Qed.

Lemma setBbox_run v b o :
  setBbox v (Some b) o
  = (let r := pdfBboxToCanvasRect v b in
     mkOverlay (isDrawing o) (Rect.x r) (Rect.y r)
       (Rect.x r + Rect.width r) (Rect.y r + Rect.height r) (Some b)
       (onBboxChange o) (onBboxComplete o),
     [], Ok tt).
Proof. destruct o as [d sx sy cx cy b0 f g]. reflexivity. Qed.

Lemma span_clamp (a b bound : Q) :
  0 <= a -> a <= b -> b <= bound ->
  Math_max 0 (Math_min (Math_min a b) bound) == a
  /\ Math_max 0 (Math_min (Math_max a b) bound) == b.
Proof.
  intros Ha Hab Hb. unfold Math_max, Math_min. split.
  - rewrite (Q.min_l a b Hab), (Q.min_l a bound) by lra. now apply Q.max_r.
  - rewrite (Q.max_r a b Hab), (Q.min_l b bound Hb). apply Q.max_r. lra.
Qed.

Lemma canvasRectToPDFBbox_equiv v vp W H r r' :
  currentViewport v = Some vp -> getPageDimensions v = Some (W, H) ->
  Rect.equiv r r' -> BBox.equiv (canvasRectToPDFBbox v r) (canvasRectToPDFBbox v r').
Proof.
  intros Hvp Hd (Ex & Ey & Ew & Eh).
  rewrite !(ConversionFacts.canvasRectToPDFBbox_rendered v vp W H) by assumption.
  unfold BBox.equiv. cbn. now rewrite Ex, Ey, Ew, Eh.
Qed.

(** X19: showing a stored box and reading the overlay back gives the box
    again.  On a rendered page, when the canvas rectangle of a box lies
    within the overlay canvas with non-negative width and height, [setBbox]
    leaves drawing coordinates whose clamped rectangle is that rectangle
    and whose page box is the box. *)
Theorem setBbox_reads_back (v : PDFViewer) (vp : PageViewport) (pageWidth pageHeight : Q)
    (bbox : BBox.t) (o : BBoxOverlay) :
  currentViewport v = Some vp ->
  getPageDimensions v = Some (pageWidth, pageHeight) ->
  0 < scale v ->
  let r := pdfBboxToCanvasRect v bbox in
  0 <= Rect.x r -> 0 <= Rect.width r -> Rect.x r + Rect.width r <= overlayCssWidth v ->
  0 <= Rect.y r -> 0 <= Rect.height r -> Rect.y r + Rect.height r <= overlayCssHeight v ->
  let o' := fst (fst (setBbox v (Some bbox) o)) in
  getBbox o' = Some bbox
  /\ Rect.equiv (getCanvasBbox (overlayCssWidth v) (overlayCssHeight v) o') r
  /\ exists b', currentPdfBbox v o' = Some b' /\ BBox.equiv b' bbox.
Proof.
  intros Hvp Hd Hs r Hx Hw Hxw Hy Hh Hyh o'.
  subst o'. rewrite setBbox_run. cbn [fst]. fold r.
  assert (R : Rect.equiv
                (getCanvasBbox (overlayCssWidth v) (overlayCssHeight v)
                   (mkOverlay (isDrawing o) (Rect.x r) (Rect.y r)
                      (Rect.x r + Rect.width r) (Rect.y r + Rect.height r) (Some bbox)
                      (onBboxChange o) (onBboxComplete o))) r).
  { unfold getCanvasBbox, Rect.equiv.
    cbn [startX startY currentX currentY Rect.x Rect.y Rect.width Rect.height].
    destruct (span_clamp (Rect.x r) (Rect.x r + Rect.width r) (overlayCssWidth v))
      as [X1 X2]; [lra | lra | lra |].
    destruct (span_clamp (Rect.y r) (Rect.y r + Rect.height r) (overlayCssHeight v))
      as [Y1 Y2]; [lra | lra | lra |].
    rewrite X1, X2, Y1, Y2. repeat split; ring. }
  split; [reflexivity|]. split; [exact R|].
  eexists. split; [reflexivity|].
  eapply Qeq_bbox_trans.
  - apply (canvasRectToPDFBbox_equiv v vp pageWidth pageHeight _ r Hvp Hd R).
  - apply (ConversionFacts.bbox_round_trip v vp pageWidth pageHeight bbox Hvp Hd Hs).
Qed.

Lemma setBbox_reads_back_witness :
  getBbox (fst (fst (setBbox Examples.exampleViewer (Some (BBox.mk 10 20 300 400))
                       (Overlay.create true true))))
  = Some (BBox.mk 10 20 300 400).
Proof.
  refine (proj1 (setBbox_reads_back Examples.exampleViewer _ _ _ (BBox.mk 10 20 300 400)
                   (Overlay.create true true) _ _ _ _ _ _ _ _ _));
    vm_compute; first [reflexivity | discriminate].
Defined.

End OverlaySpec.

(* ------------------------------------------------------------------ *)
(** ** The controller: what the operations store and send              *)
(* ------------------------------------------------------------------ *)

Module AppSpec.
Import App Controls Vocabulary Examples.
Local Open Scope string_scope.

(** *** The name of the download *)

Lemma stripPdfSuffix_step (c : ascii) (rest : string) :
  stripPdfSuffix (String c rest)
  = if isPdfExtension (String c rest) then "" else String c (stripPdfSuffix rest).
Proof.
  change (stripPdfSuffix (String c rest))
    with (match String c rest with
          | String "." (String p (String d (String f EmptyString))) =>
              if ((Ascii.eqb p "p" || Ascii.eqb p "P")
                  && (Ascii.eqb d "d" || Ascii.eqb d "D")
                  && (Ascii.eqb f "f" || Ascii.eqb f "F"))%bool
              then EmptyString else String c (stripPdfSuffix rest)
          | _ => String c (stripPdfSuffix rest)
          end).
  generalize (stripPdfSuffix rest) as r. intros r.
  destruct rest as [|p [|d [|f [|x tail]]]];
    destruct c as [[] [] [] [] [] [] [] []]; reflexivity.
Qed.

Lemma length_append (a b : string) :
  String.length (a ++ b) = (String.length a + String.length b)%nat.
Proof.
  induction a as [|c a IH]; [reflexivity|].
  change (S (String.length (a ++ b)) = S (String.length a + String.length b)).
  now rewrite IH.
Qed.

Lemma long_not_extension (c : ascii) (s : string) :
  (4 <= String.length s)%nat -> isPdfExtension (String c s) = false.
Proof.
  destruct s as [|p [|d [|f [|x tail]]]]; cbn; intros H; first [lia | reflexivity].
Qed.

Lemma extension_length (ext : string) :
  isPdfExtension ext = true -> String.length ext = 4%nat.
Proof.
  destruct ext as [|c [|p [|d [|f [|x tail]]]]]; cbn; intros H;
    first [discriminate H | reflexivity].
Qed.

(** The suffix [.pdf], in any case, is removed from the end of a name. *)
Lemma stripPdfSuffix_extension (base ext : string) :
  isPdfExtension ext = true -> stripPdfSuffix (base ++ ext) = base.
Proof.
  intros He. induction base as [|c base IH].
  - change ("" ++ ext) with ext. destruct ext as [|c rest]; [discriminate|].
    now rewrite stripPdfSuffix_step, He.
  - change (String c base ++ ext) with (String c (base ++ ext)).
    rewrite stripPdfSuffix_step, long_not_extension, IH; [reflexivity|].
    rewrite length_append, (extension_length ext He). lia.
Qed.

(** *** Crop *)

(** The request [handleCrop] builds from the state and the form. *)
Lemma handleCrop_run env form s data :
  currentPDFData s = Some data ->
  handleCrop env form s
  = match cropPdf env
            (mkCropRequest data (margins form) (shrinkToContent form) (clipContent s)
               (if (0 <? Z.of_nat (size (pageBboxes s)))%Z
                then Some (pageBboxes s) else None)
               (PageRange.getPageRange (currentPage s) (pageRangeSelect form)))
    with
    | Ok out =>
        (set_loadingHidden true
           (add_download out (stripPdfSuffix (currentPDFFilename s) ++ "-crop.pdf")
              (set_loadingHidden false s)), [], Ok tt)
    | Throw msg =>
        (set_loadingHidden true
           (add_alert ("Failed to crop PDF: " ++ msg) (set_loadingHidden false s)),
         [], Ok tt)
    end.
Proof.
  intros Hd. unfold handleCrop, showLoading, hideLoading, alert, tryCatch, bind, get,
    modify, await, ret.
  rewrite Hd. cbn. now destruct (cropPdf env _).
Qed.

(** X20: a crop that does not fail.  [cropPdf] was called once, with the
    stored bytes, the margins and the shrink option of the form, the state
    of the clip checkbox, the page range of the form, and the selection
    map, or null when the map is empty.  For a
    document named [base.pdf], the extension in any case, exactly one
    download is added: the bytes [cropPdf] returned under the name
    [base-crop.pdf].  The stored document, the selections and the alerts
    are untouched and the loading overlay is hidden. *)
Theorem crop_success (env : Env) (form : CropForm) (s : App) (data : Bytes)
    (base ext : string) :
  currentPDFData s = Some data ->
  currentPDFFilename s = base ++ ext -> isPdfExtension ext = true ->
  ~ failed (handleCrop env form) s ->
  let s' := exec (handleCrop env form) s in
  exists req out,
    cropPdf env req = Ok out
    /\ reqData req = data
    /\ reqMargins req = margins form
    /\ reqShrinkToContent req = shrinkToContent form
    /\ reqClipContent req = clipContent s
    /\ reqPageRange req = PageRange.getPageRange (currentPage s) (pageRangeSelect form)
    /\ (pageBboxes s = ∅ -> reqBboxes req = None)
    /\ (pageBboxes s <> ∅ -> reqBboxes req = Some (pageBboxes s))
    /\ downloads s' = (out, base ++ "-crop.pdf") :: downloads s
    /\ pageBboxes s' = pageBboxes s
    /\ currentPDFData s' = currentPDFData s
    /\ alerts s' = alerts s
    /\ loadingHidden s' = true.
Proof.
  intros Hd Hn He Hf. cbv zeta. unfold failed, exec in *.
  rewrite (handleCrop_run env form s data Hd) in *.
  match goal with |- context [cropPdf env ?r] => set (req := r) in * end.
  destruct (cropPdf env req) as [out|msg] eqn:Hc.
  2: { exfalso. apply Hf. reflexivity. }
  exists req, out. cbn. rewrite Hn, (stripPdfSuffix_extension base ext He).
  repeat split; try assumption.
  - intros Hm. subst req. cbn. now rewrite Hm.
  - intros Hm. subst req. cbn.
    destruct (0 <? Z.of_nat (size (pageBboxes s)))%Z eqn:Hz; [reflexivity|].
    apply Z.ltb_ge in Hz. exfalso. apply Hm, map_size_empty_iff. lia.
Qed.

Lemma crop_success_witness :
  exists req out,
    cropPdf workingEnv req = Ok out
    /\ reqPageRange req = Some [0; 1]%Z
    /\ downloads (exec (handleCrop workingEnv exampleForm) loadedState)
       = [(out, "scan-crop.pdf")].
Proof.
  destruct (crop_success workingEnv exampleForm loadedState
              [Byte.x25; Byte.x50; Byte.x44; Byte.x46] "scan" ".pdf"
              eq_refl eq_refl eq_refl)
    as (req & out & H1 & _ & _ & _ & _ & H4 & _ & _ & H7 & _).
  - unfold failed. vm_compute. discriminate.
  - exists req, out. split; [exact H1|]. split; [exact H4|]. exact H7.
Defined.

(** *** Auto-detect *)

Lemma handleAutoDetect_run env s data o b :
  currentPDFData s = Some data -> bboxOverlay s = Some o ->
  detectBbox env data (currentPage s - 1) = Ok b ->
  exec (handleAutoDetect env) s
  = set_loadingHidden true
      (fst (runOverlay (fun v => Overlay.setBbox v (Some b))
              (set_pageBboxes (<[currentPage s - 1 := b]> (pageBboxes s))
                 (set_loadingHidden false s)))).
Proof.
  intros Hd Ho Hb. unfold exec, handleAutoDetect, showLoading, hideLoading, alert,
    tryCatch, bind, get, modify, await, ret.
  rewrite Hd, Ho. cbn. now rewrite Hb.
Qed.

(** X21: a detection that succeeds stores the detected box under the
    index of the current page and leaves the boxes of all other pages as
    they were; the overlay now holds that box; the loading overlay is
    hidden and no alert is shown.  Unlike a manual selection it does not
    tick the clip checkbox. *)
Theorem detect_success (env : Env) (s : App) (data : Bytes) (v : Viewer.PDFViewer)
    (o : Overlay.BBoxOverlay) (b : BBox.t) :
  currentPDFData s = Some data -> pdfViewer s = Some v -> bboxOverlay s = Some o ->
  detectBbox env data (currentPage s - 1) = Ok b ->
  let s' := exec (handleAutoDetect env) s in
  pageBboxes s' !! (currentPage s - 1) = Some b
  /\ (forall k, k <> currentPage s - 1 -> pageBboxes s' !! k = pageBboxes s !! k)
  /\ (exists o', bboxOverlay s' = Some o' /\ Overlay.getBbox o' = Some b)
  /\ clipContent s' = clipContent s
  /\ currentPage s' = currentPage s
  /\ currentPDFData s' = currentPDFData s
  /\ alerts s' = alerts s
  /\ loadingHidden s' = true.
Proof.
  intros Hd Hv Ho Hb. cbv zeta.
  rewrite (handleAutoDetect_run env s data o b Hd Ho Hb).
  unfold runOverlay. cbn [pdfViewer bboxOverlay set_pageBboxes set_loadingHidden].
  rewrite Hv, Ho, OverlaySpec.setBbox_run. cbn.
  split; [apply lookup_insert_eq|]. split; [intros k Hk; now apply lookup_insert_ne|].
  split; [eexists; split; reflexivity|]. now repeat split.
Qed.

Lemma detect_success_witness :
  pageBboxes (exec (handleAutoDetect workingEnv) loadedState) !! 0%Z
  = Some (BBox.mk 50 60 500 700).
Proof.
  apply (detect_success workingEnv loadedState
           [Byte.x25; Byte.x50; Byte.x44; Byte.x46]
           (default (Viewer.create 300 150) (pdfViewer loadedState))
           (default (Overlay.create true true) (bboxOverlay loadedState))
           (BBox.mk 50 60 500 700));
    reflexivity.
Defined.

(** *** Manual selection *)

Lemma mouseUp_run s v o (x y : Q) :
  pdfViewer s = Some v -> bboxOverlay s = Some o ->
  Overlay.isDrawing o = true -> Overlay.onBboxComplete o = true ->
  mouseUp x y s
  = match spanBox v (Overlay.startX o) (Overlay.startY o) x y with
    | Some b =>
        (set_clipContent true
           (set_pageBboxes (<[currentPage s - 1 := b]> (pageBboxes s))
              (set_bboxOverlay
                 (Overlay.mkOverlay false (Overlay.startX o) (Overlay.startY o) x y
                    (Some b) (Overlay.onBboxChange o) true) s)), [], Ok tt)
    | None => (s, [], Ok tt)
    end.
Proof.
  intros Hv Ho Hd Hc.
  unfold mouseUp, overlayEvent, runOverlay. unfold bind at 1. cbn [get].
  rewrite Hv, Ho, (OverlaySpec.onMouseUp_run v x y o Hd), Hc.
  reflexivity.
Qed.

(** X22: ending a gesture touches the selection of the current page
    only.  The boxes stored for all other pages stay as they were, the
    entry of the current page is replaced by the new box, the clip checkbox
    ends ticked, and the stored document, the page counters, the alerts and
    the loading overlay are untouched. *)
Theorem selection_frame (s : App) (v : Viewer.PDFViewer) (o : Overlay.BBoxOverlay)
    (x y : Q) :
  pdfViewer s = Some v -> bboxOverlay s = Some o ->
  Overlay.isDrawing o = true -> Overlay.onBboxComplete o = true ->
  let s' := exec (mouseUp x y) s in
  (forall k, k <> currentPage s - 1 -> pageBboxes s' !! k = pageBboxes s !! k)
  /\ pageBboxes s' !! (currentPage s - 1)
     = spanBox v (Overlay.startX o) (Overlay.startY o) x y
  /\ clipContent s' = true
  /\ (exists o', bboxOverlay s' = Some o' /\ Overlay.isDrawing o' = false
        /\ Overlay.getBbox o' = pageBboxes s' !! (currentPage s - 1))
  /\ pdfViewer s' = pdfViewer s
  /\ currentPDFData s' = currentPDFData s
  /\ currentPage s' = currentPage s /\ totalPages s' = totalPages s
  /\ alerts s' = alerts s /\ loadingHidden s' = loadingHidden s.
Proof.
  intros Hv Ho Hd Hc. cbv zeta. unfold exec.
  rewrite (mouseUp_run s v o x y Hv Ho Hd Hc).
  assert (Hb : exists b, spanBox v (Overlay.startX o) (Overlay.startY o) x y = Some b)
    by (eexists; reflexivity).
  destruct Hb as (b & Hb). rewrite Hb. cbn.
  split; [intros k Hk; now apply lookup_insert_ne|].
  split; [apply lookup_insert_eq|]. split; [reflexivity|].
  split; [eexists; split; [reflexivity|]; split; [reflexivity|];
          cbn; symmetry; apply lookup_insert_eq|].
  now repeat split.
Qed.

Lemma selection_frame_witness :
  clipContent afterClick = true /\ pdfViewer afterClick = pdfViewer loadedState.
Proof.
  destruct (selection_frame (exec (mouseDown 10 10) loadedState) clickViewer clickOverlay
              10 10 eq_refl eq_refl eq_refl eq_refl)
    as (_ & _ & H3 & _ & H5 & _).
  split; [exact H3 | exact H5].
Defined.

(** *** Loading *)

Lemma getPage_ok_range doc n p :
  PDFJS.getPage doc n = Ok p -> 1 <= n <= PDFJS.numPages doc.
Proof.
  unfold PDFJS.getPage, PDFJS.numPages. destruct (n <? 1)%Z eqn:E; [discriminate|].
  apply Z.ltb_ge in E.
  destruct (nth_error _ _) as [q|] eqn:Hn; [|discriminate]. intros _.
  assert (Z.to_nat (n - 1) < length (PDFJS.pages doc))%nat
    by (apply nth_error_Some; congruence).
  lia.
Qed.

Lemma loadPDF_unfold c doc v :
  Viewer.loadPDF c (Ok doc) v
  = match Viewer.renderPage c 1
            (Viewer.set_totalPages (PDFJS.numPages doc) (Viewer.set_pdfDocument doc v))
    with
    | (v2, ev, Ok _) => (v2, ev, Ok (Viewer.totalPages v2))
    | (v2, ev, Throw m) => (v2, ev, Throw ("Failed to load PDF: " ++ m))
    end.
Proof.
  unfold Viewer.loadPDF, tryCatch. unfold bind at 1. cbn [await].
  unfold bind at 1. cbn [modify]. unfold bind at 1. cbn [modify].
  unfold bind at 1.
  destruct (Viewer.renderPage c 1 _) as [[v2 ev] [vp|m]]; cbn;
    now rewrite ?app_nil_r.
Qed.

(** X23: [loadPDF] returns exactly when the library loads the document
    and its first page exists and renders.  It then returns the page count,
    which is at least 1, and the viewer shows page 1 of the new document.
    When the library rejects the bytes the viewer is left untouched. *)
Theorem loadPDF_outcome (c : Viewer.Container) (loaded : Outcome PDFJS.PDFDocumentProxy)
    (v : Viewer.PDFViewer) :
  (forall v' evs n,
     Viewer.loadPDF c loaded v = (v', evs, Ok n) ->
     exists doc p,
       loaded = Ok doc /\ PDFJS.getPage doc 1 = Ok p /\ PDFJS.renderCompletes p = true
       /\ n = PDFJS.numPages doc /\ 1 <= n
       /\ Viewer.pdfDocument v' = Some doc /\ Viewer.totalPages v' = n
       /\ Viewer.currentPage v' = 1 /\ Viewer.currentPageObject v' = Some p)
  /\ (forall doc p,
        loaded = Ok doc -> PDFJS.getPage doc 1 = Ok p -> PDFJS.renderCompletes p = true ->
        exists v' evs, Viewer.loadPDF c loaded v = (v', evs, Ok (PDFJS.numPages doc)))
  /\ (forall msg, loaded = Throw msg ->
        Viewer.loadPDF c loaded v = (v, [], Throw ("Failed to load PDF: " ++ msg))).
Proof.
  split; [|split].
  - intros v' evs n H. destruct loaded as [doc|msg]; [|discriminate H].
    rewrite loadPDF_unfold in H.
    set (v1 := Viewer.set_totalPages _ _) in H.
    destruct (Viewer.renderPage c 1 v1) as [[v2 ev] [vp|m]] eqn:E; [|discriminate H].
    injection H as <- <- <-.
    destruct (ViewerSpec.renderPage_ok_inv c 1 v1 v2 ev vp E)
      as (d & p & Hd & Hn & Hp & Hr).
    injection Hd as <-.
    rewrite (ViewerSpec.renderPage_run c 1 v1 doc p eq_refl Hn Hp), Hr in E.
    injection E as <- _ _.
    destruct (ViewerSpec.rendered_fields c 1 p v1) as (Ec & Et & Edoc & Ep).
    exists doc, p. rewrite Ec, Et, Edoc, Ep.
    pose proof (getPage_ok_range doc 1 p Hp) as Hrange.
    subst v1. cbn. repeat split; try assumption; try reflexivity; lia.
  - intros doc p -> Hp Hr. rewrite loadPDF_unfold.
    set (v1 := Viewer.set_totalPages _ _).
    rewrite (ViewerSpec.renderPage_run c 1 v1 doc p eq_refl
               (getPage_ok_range doc 1 p Hp) Hp), Hr.
    destruct (ViewerSpec.rendered_fields c 1 p v1) as (_ & -> & _ & _). eauto.
  - intros msg ->. reflexivity.
Qed.

Lemma loadPDF_outcome_witness :
  exists v' evs,
    Viewer.loadPDF None (Ok twoPages) (Viewer.create 300 150) = (v', evs, Ok 2).
Proof.
  exact (proj1 (proj2 (loadPDF_outcome None (Ok twoPages) (Viewer.create 300 150)))
           twoPages (PDFJS.mkPage 612 792 true) eq_refl eq_refl eq_refl).
Defined.

(** *** Calls into the viewer and the page-change callback *)

Lemma no_events (evs : list Empty_set) : evs = [].
Proof. destruct evs as [|[] ?]. reflexivity. Qed.

Lemma sameButPage_refl s : sameButPage s s.
Proof. now repeat split. Qed.

Lemma sameButPage_trans s1 s2 s3 :
  sameButPage s1 s2 -> sameButPage s2 s3 -> sameButPage s1 s3.
Proof.
  intros (A1 & A2 & A3 & A4 & A5 & A6 & A7 & A8 & A9)
         (B1 & B2 & B3 & B4 & B5 & B6 & B7 & B8 & B9).
  repeat split; congruence.
Qed.

Lemma renderBboxOverlay_run s :
  exists s', renderBboxOverlay s = (s', [], Ok tt)
    /\ sameButPage s s' /\ currentPage s' = currentPage s /\ overlayRestored s s'.
Proof.
  unfold renderBboxOverlay, bind, get, modify, ret.
  destruct (pageBboxes s !! (currentPage s - 1)) as [b|] eqn:Hb.
  - eexists. split; [reflexivity|]. cbn [fst].
    unfold overlayRestored, runOverlay.
    destruct (pdfViewer s) as [v|] eqn:Hv;
      [destruct (bboxOverlay s) as [o|] eqn:Ho|].
    + rewrite OverlaySpec.setBbox_run. cbn. rewrite Hv, Hb.
      split; [now repeat split|]. split; [reflexivity|]. eexists. split; reflexivity.
    + cbn. rewrite Hv, Hb, Ho. split; [now repeat split|]. now split.
    + cbn. rewrite Hv, Hb. split; [now repeat split|]. now split.
  - eexists. split; [reflexivity|]. split; [apply sameButPage_refl|].
    split; [reflexivity|]. unfold overlayRestored. now rewrite Hb.
Qed.

Lemma onPageChange_run n total s :
  exists s', onPageChange (Viewer.PageChange n total) s = (s', [], Ok tt)
    /\ sameButPage s s' /\ currentPage s' = n
    /\ overlayRestored s s'.
Proof.
  unfold onPageChange. unfold bind. cbn [modify].
  destruct (renderBboxOverlay_run (set_currentPage n s)) as (s' & E & F & Hc & Hr).
  rewrite E. exists s'. split; [reflexivity|].
  split; [exact F|]. split; [exact Hc|]. exact Hr.
Qed.

(** A viewer method that runs the callback at most once, for page [n]. *)
Lemma callViewer_run {A} (m : Viewer.VM A) s v v' evs r n total :
  pdfViewer s = Some v -> m v = (v', evs, r) ->
  evs = [] \/ evs = [Viewer.PageChange n total] ->
  exists s', callViewer m s = (s', [], r)
    /\ pdfViewer s' = Some v'
    /\ sameButPage (set_pdfViewer v' s) s'
    /\ (evs = [] -> s' = set_pdfViewer v' s)
    /\ (evs = [Viewer.PageChange n total] ->
        currentPage s' = n /\ overlayRestored s s').
Proof.
  intros Hv Hm Hev. unfold callViewer. unfold bind at 1. cbn [get].
  rewrite Hv, Hm. unfold bind at 1. cbn [modify].
  destruct Hev as [->| ->].
  - cbn. destruct r; eexists; (split; [reflexivity|]);
      (split; [reflexivity|]); (split; [apply sameButPage_refl|]);
      (split; [reflexivity | discriminate]).
  - cbn [dispatchAll]. unfold bind at 1. unfold bind at 1.
    destruct (onPageChange_run n total (set_pdfViewer v' s)) as (s1 & E & F & Hc & Hr).
    rewrite E. cbn.
    destruct F as (F1 & F').
    destruct r; eexists; (split; [reflexivity|]);
      (split; [exact F1|]); (split; [now split|]);
      (split; [discriminate | intros _; split; [exact Hc | exact Hr]]).
Qed.

Lemma loadPDF_run c doc p v :
  PDFJS.getPage doc 1 = Ok p -> PDFJS.renderCompletes p = true ->
  Viewer.loadPDF c (Ok doc) v
  = (rendered c 1 p
       (Viewer.set_totalPages (PDFJS.numPages doc) (Viewer.set_pdfDocument doc v)),
     if Viewer.onPageChange v
     then [Viewer.PageChange 1 (PDFJS.numPages doc)] else [],
     Ok (PDFJS.numPages doc)).
Proof.
  intros Hp Hr. rewrite loadPDF_unfold.
  set (v1 := Viewer.set_totalPages _ _).
  rewrite (ViewerSpec.renderPage_run c 1 v1 doc p eq_refl
             (getPage_ok_range doc 1 p Hp) Hp), Hr.
  destruct (ViewerSpec.rendered_fields c 1 p v1) as (_ & -> & _ & _). reflexivity.
Qed.

(** X24: an upload that goes through.  When the file can be read, the
    library loads its bytes and the first page renders, [handleFileUpload]
    shows no alert and leaves: the bytes and the name of the file stored,
    an empty selection map, the page count of the document, current page 1
    in the controller and in the viewer, the [onPageChange] callback set on
    the viewer, and the loading overlay hidden. *)
Theorem upload_success (env : Env) (file : File) (s : App) (data : Bytes)
    (v : Viewer.PDFViewer) (doc : PDFJS.PDFDocumentProxy) (p : PDFJS.PDFPageProxy) :
  arrayBuffer file = Ok data -> pdfViewer s = Some v ->
  getDocument env data = Ok doc ->
  PDFJS.getPage doc 1 = Ok p -> PDFJS.renderCompletes p = true ->
  let s' := exec (handleFileUpload env file) s in
  alerts s' = alerts s
  /\ currentPDFData s' = Some data /\ currentPDFFilename s' = fileName file
  /\ pageBboxes s' = ∅
  /\ totalPages s' = PDFJS.numPages doc /\ currentPage s' = 1
  /\ loadingHidden s' = true
  /\ exists v', pdfViewer s' = Some v'
       /\ Viewer.pdfDocument v' = Some doc
       /\ Viewer.totalPages v' = PDFJS.numPages doc
       /\ Viewer.currentPage v' = 1
       /\ Viewer.currentPageObject v' = Some p
       /\ Viewer.onPageChange v' = true.
Proof.
  intros Harr Hv Hdoc Hp Hr. cbv zeta.
  set (vr := rendered (container env) 1 p
               (Viewer.set_totalPages (PDFJS.numPages doc) (Viewer.set_pdfDocument doc v))).
  set (s3 := set_pageBboxes ∅ (set_document data (fileName file) (set_loadingHidden false s))).
  assert (K : exists s4,
             sameButPage (set_pdfViewer vr s3) s4
             /\ exec (handleFileUpload env file) s
                = set_loadingHidden true
                    (set_pdfViewer (Viewer.set_onPageChange true vr)
                       (set_currentPage 1 (set_totalPages (PDFJS.numPages doc) s4)))).
  { unfold exec, handleFileUpload, showLoading.
    unfold bind at 1. cbn [modify]. unfold tryCatch. rewrite Harr.
    unfold bind at 1. cbn [await]. unfold bind at 1. cbn [modify].
    unfold bind at 1. cbn [modify]. fold s3. rewrite Hdoc.
    destruct (callViewer_run (Viewer.loadPDF (container env) (Ok doc)) s3 v _ _ _
                1 (PDFJS.numPages doc) Hv (loadPDF_run (container env) doc p v Hp Hr))
      as (s4 & E4 & Hv4 & F4 & _); [destruct (Viewer.onPageChange v); auto|].
    fold vr in E4, Hv4, F4.
    unfold bind at 1. rewrite E4.
    unfold bind at 1. cbn [modify]. unfold bind at 1. cbn [modify].
    set (s5 := set_currentPage 1 (set_totalPages (PDFJS.numPages doc) s4)).
    destruct (callViewer_run (modify (Viewer.set_onPageChange true)) s5 _ _ [] (Ok tt)
                0 0 Hv4 eq_refl (or_introl eq_refl))
      as (s6 & E6 & Hv6 & _ & H6 & _).
    specialize (H6 eq_refl). subst s6.
    unfold bind at 1. rewrite E6. unfold hideLoading, modify. cbn [fst snd].
    exists s4. split; [exact F4 | reflexivity]. }
  destruct K as (s4 & (_ & A2 & A3 & A4 & A5 & A6 & A7 & A8 & A9) & ->).
  subst s3.
  cbn [pdfViewer bboxOverlay currentPDFData currentPDFFilename currentPage totalPages
       pageBboxes loadingHidden clipContent alerts downloads set_pdfViewer
       set_currentPage set_totalPages set_loadingHidden set_pageBboxes set_document] in *.
  destruct (ViewerSpec.rendered_fields (container env) 1 p
              (Viewer.set_totalPages (PDFJS.numPages doc) (Viewer.set_pdfDocument doc v)))
    as (Ec & Et & Edoc & Ep).
  fold vr in Ec, Et, Edoc, Ep.
  repeat split; try assumption; try reflexivity.
  exists (Viewer.set_onPageChange true vr). split; [reflexivity|].
  destruct vr as [d cp tp sc ms po cv cw ch cb]. cbn in *. now repeat split.
Qed.

Lemma upload_success_witness :
  totalPages (exec (handleFileUpload workingEnv exampleFile) withSelection) = 2
  /\ pageBboxes (exec (handleFileUpload workingEnv exampleFile) withSelection) = ∅.
Proof.
  destruct (upload_success workingEnv exampleFile withSelection
              [Byte.x25; Byte.x50; Byte.x44; Byte.x46]
              (Viewer.create 300 150) twoPages (PDFJS.mkPage 612 792 true)
              eq_refl eq_refl eq_refl eq_refl eq_refl)
    as (_ & _ & _ & H4 & H5 & _).
  split; [exact H5 | exact H4].
Defined.

End AppSpec.

(* ------------------------------------------------------------------ *)
(** ** The page controls and the thumbnails                            *)
(* ------------------------------------------------------------------ *)

Module ControlsSpec.
Import App Controls Vocabulary Examples AppSpec.
Local Open Scope Z_scope.

(** A rendering runs the callback at most once, for the requested page. *)
Lemma renderPage_events c n v :
  snd (fst (Viewer.renderPage c n v)) = []
  \/ snd (fst (Viewer.renderPage c n v)) = [Viewer.PageChange n (Viewer.totalPages v)].
Proof.
  destruct (Viewer.pdfDocument v) as [doc|] eqn:Hd.
  2: { left. destruct (ViewerSpec.renderPage_refused c n v) as (msg & ->);
         [now left | reflexivity]. }
  destruct (Z_lt_dec n 1) as [Hlo|Hlo].
  { left. destruct (ViewerSpec.renderPage_refused c n v) as (msg & ->);
      [now right; left | reflexivity]. }
  destruct (Z_lt_dec (Viewer.totalPages v) n) as [Hhi|Hhi].
  { left. destruct (ViewerSpec.renderPage_refused c n v) as (msg & ->);
      [now right; right | reflexivity]. }
  destruct (PDFJS.getPage doc n) as [p|msg] eqn:Hp.
  - rewrite (ViewerSpec.renderPage_run c n v doc p Hd ltac:(lia) Hp).
    destruct (PDFJS.renderCompletes p), (Viewer.onPageChange v); cbn; auto.
  - left. now rewrite (ViewerSpec.renderPage_page_missing c n v doc msg Hd ltac:(lia) Hp).
Qed.

Lemma dispatchAll_frame evs s :
  exists s', dispatchAll onPageChange evs s = (s', [], Ok tt) /\ sameButPage s s'.
Proof.
  revert s. induction evs as [|[n total] evs IH]; intros s.
  - exists s. split; [reflexivity | apply sameButPage_refl].
  - cbn [dispatchAll]. unfold bind at 1.
    destruct (onPageChange_run n total s) as (s1 & E & F & _ & _). rewrite E.
    destruct (IH s1) as (s2 & E2 & F2). rewrite E2. exists s2.
    split; [reflexivity | eapply sameButPage_trans; eassumption].
Qed.

(** Whatever a viewer method does, calling it touches the viewer, the
    overlay and the controller's page number only. *)
Lemma callViewer_frame {A} (m : Viewer.VM A) s v :
  pdfViewer s = Some v ->
  exists s', callViewer m s = (s', [], snd (m v))
    /\ pdfViewer s' = Some (fst (fst (m v)))
    /\ sameButPage (set_pdfViewer (fst (fst (m v))) s) s'.
Proof.
  intros Hv. unfold callViewer. unfold bind at 1. cbn [get]. rewrite Hv.
  destruct (m v) as [[v' evs] r]. unfold bind at 1. cbn [modify].
  unfold bind at 1.
  destruct (dispatchAll_frame evs (set_pdfViewer v' s)) as (s1 & E & F). rewrite E.
  cbn. exists s1. destruct F as (F1 & F').
  destruct r; (split; [reflexivity|]); (split; [exact F1 | now split]).
Qed.

Lemma bind_unit {S E A} (m : Eff S E A) (s : S) :
  fst (fst (bind m (fun _ => ret tt) s)) = fst (fst (m s)).
Proof. unfold bind, ret. now destruct (m s) as [[s1 ev] [a|msg]]. Qed.

Lemma pageInputEnter_run env value s :
  exec (pageInputEnter env value) s
  = match JSString.parseInt value, pdfViewer s with
    | Some n, Some _ =>
        if (1 <=? n) && (n <=? totalPages s)
        then exec (callViewer (Viewer.goToPage (container env) n)) s
        else s
    | _, _ => s
    end.
Proof.
  unfold exec, pageInputEnter. unfold bind at 1. cbn [get].
  destruct (JSString.parseInt value) as [n|]; [|reflexivity].
  destruct (pdfViewer s) as [v|]; [|reflexivity].
  destruct ((1 <=? n) && (n <=? totalPages s)); [|reflexivity].
  pose proof (bind_unit (callViewer (Viewer.goToPage (container env) n)) s) as B.
  destruct (bind _ _ s) as [[s2 ev2] r]. exact B.
Qed.

(** X25: Enter in the page-number field.  Either nothing changes, or the
    text parses to a number between 1 and the controller's page count and
    a viewer exists: then the viewer is asked for that page, only the
    viewer, the overlay and the page number may differ afterwards, and the
    controller's page number is the old one or the entered one. *)
Theorem page_input_outcome (env : Env) (value : string) (s : App) :
  exec (pageInputEnter env value) s = s
  \/ exists n v,
       JSString.parseInt value = Some n /\ 1 <= n <= totalPages s
       /\ pdfViewer s = Some v
       /\ sameButPage
            (set_pdfViewer (fst (fst (Viewer.renderPage (container env) n v))) s)
            (exec (pageInputEnter env value) s)
       /\ (currentPage (exec (pageInputEnter env value) s) = currentPage s
           \/ currentPage (exec (pageInputEnter env value) s) = n).
Proof.
  rewrite pageInputEnter_run.
  destruct (JSString.parseInt value) as [n|]; [|now left].
  destruct (pdfViewer s) as [v|] eqn:Hv; [|now left].
  destruct ((1 <=? n) && (n <=? totalPages s)) eqn:Hn; [|now left].
  apply andb_prop in Hn. destruct Hn as [H1 H2].
  apply Z.leb_le in H1. apply Z.leb_le in H2.
  right. exists n, v. split; [reflexivity|]. split; [lia|]. split; [reflexivity|].
  unfold Viewer.goToPage.
  destruct (Viewer.renderPage (container env) n v) as [[v' evs] r] eqn:E.
  pose proof (renderPage_events (container env) n v) as Hev. rewrite E in Hev.
  cbn [fst snd] in Hev |- *.
  destruct (callViewer_run (Viewer.renderPage (container env) n) s v v' evs r
              n (Viewer.totalPages v) Hv E Hev) as (s1 & E1 & _ & F & H0 & H1').
  unfold exec. rewrite E1. cbn [fst]. split; [exact F|].
  destruct Hev as [Hev|Hev].
  - left. now rewrite (H0 Hev).
  - right. now destruct (H1' Hev).
Qed.

(** X26: a number the viewer accepts.  When the field holds a page number
    within the page count, the viewer has the document and its callback,
    and the page renders, Enter makes that page the current one of the
    controller and of the viewer, and the overlay shows the selection
    stored for it, if there is one. *)
Theorem page_input_navigates (env : Env) (value : string) (s : App) (n : Z)
    (v : Viewer.PDFViewer) (doc : PDFJS.PDFDocumentProxy) (p : PDFJS.PDFPageProxy) :
  JSString.parseInt value = Some n -> 1 <= n <= totalPages s ->
  pdfViewer s = Some v -> Viewer.pdfDocument v = Some doc ->
  n <= Viewer.totalPages v -> Viewer.onPageChange v = true ->
  PDFJS.getPage doc n = Ok p -> PDFJS.renderCompletes p = true ->
  currentPage (exec (pageInputEnter env value) s) = n
  /\ pdfViewer (exec (pageInputEnter env value) s)
     = Some (rendered (container env) n p v)
  /\ pageBboxes (exec (pageInputEnter env value) s) = pageBboxes s
  /\ overlayRestored s (exec (pageInputEnter env value) s).
Proof.
  intros Hparse Hn Hv Hd Hhi Hcb Hp Hr.
  rewrite pageInputEnter_run, Hparse, Hv.
  replace ((1 <=? n) && (n <=? totalPages s)) with true
    by (symmetry; apply andb_true_intro; split; apply Z.leb_le; lia).
  assert (E : Viewer.goToPage (container env) n v
              = (rendered (container env) n p v,
                 [Viewer.PageChange n (Viewer.totalPages v)],
                 Ok (PDFJS.getViewport p
                       (Viewer.scale (rendered (container env) n p v))))).
  { unfold Viewer.goToPage.
    rewrite (ViewerSpec.renderPage_run (container env) n v doc p Hd ltac:(lia) Hp).
    now rewrite Hr, Hcb. }
  destruct (callViewer_run (Viewer.goToPage (container env) n) s v _ _ _
              n (Viewer.totalPages v) Hv E (or_intror eq_refl))
    as (s1 & E1 & Hv1 & F & _ & H1).
  unfold exec. rewrite E1. cbn [fst].
  destruct (H1 eq_refl) as [Hc Ho].
  destruct F as (_ & _ & _ & _ & F5 & _).
  repeat split; assumption.
Qed.

Lemma page_input_navigates_witness :
  currentPage
    (exec (pageInputEnter workingEnv " 1")
       (exec (handleFileUpload workingEnv exampleFile) withSelection)) = 1.
Proof.
  refine (proj1 (page_input_navigates workingEnv " 1"
                   (exec (handleFileUpload workingEnv exampleFile) withSelection) 1
                   (default (Viewer.create 300 150)
                      (pdfViewer
                         (exec (handleFileUpload workingEnv exampleFile) withSelection)))
                   twoPages (PDFJS.mkPage 612 792 true)
                   _ _ _ _ _ _ _ _)); vm_compute; try reflexivity;
    try (split; discriminate); discriminate.
Defined.

Lemma controlsRenderPage_run env i s :
  exists s', Controls.renderPage env i s = (s', [], Ok tt)
    /\ match pdfViewer s with
       | None => s' = s
       | Some v =>
           sameButPage
             (set_pdfViewer (fst (fst (Viewer.renderPage (container env) i v))) s) s'
           /\ (currentPage s' = currentPage s \/ currentPage s' = i)
       end.
Proof.
  unfold Controls.renderPage. unfold bind at 1. cbn [get].
  destruct (pdfViewer s) as [v|] eqn:Hv; [|exists s; now split].
  destruct (Viewer.renderPage (container env) i v) as [[v' evs] r] eqn:E.
  pose proof (renderPage_events (container env) i v) as Hev. rewrite E in Hev.
  cbn [fst snd] in Hev |- *.
  destruct (callViewer_run (Viewer.renderPage (container env) i) s v v' evs r
              i (Viewer.totalPages v) Hv E Hev) as (s1 & E1 & _ & F & H0 & H1).
  assert (Hc : currentPage s1 = currentPage s \/ currentPage s1 = i).
  { destruct Hev as [Hev|Hev]; [left; now rewrite (H0 Hev) | right; now destruct (H1 Hev)]. }
  unfold tryCatch. unfold bind at 1. rewrite E1.
  destruct r as [vp|msg].
  - destruct (renderBboxOverlay_run s1) as (s2 & E2 & F2 & Hc2 & _). rewrite E2.
    exists s2. split; [reflexivity|].
    split; [eapply sameButPage_trans; eassumption | now rewrite Hc2].
  - exists s1. split; [reflexivity|]. now split.
Qed.

(** X27: a click on the thumbnail of page [i] never throws and shows no
    alert; afterwards the controller's page number is [i] whether or not
    the viewer rendered the page, the viewer is the one its [renderPage]
    left, and the document, the page count and the selections are as
    before. *)
Theorem thumbnail_click (env : Env) (i : Z) (s : App) :
  snd (thumbnailClick env i s) = Ok tt
  /\ currentPage (exec (thumbnailClick env i) s) = i
  /\ pdfViewer (exec (thumbnailClick env i) s)
     = match pdfViewer s with
       | Some v => Some (fst (fst (Viewer.renderPage (container env) i v)))
       | None => None
       end
  /\ totalPages (exec (thumbnailClick env i) s) = totalPages s
  /\ pageBboxes (exec (thumbnailClick env i) s) = pageBboxes s
  /\ currentPDFData (exec (thumbnailClick env i) s) = currentPDFData s
  /\ alerts (exec (thumbnailClick env i) s) = alerts s.
Proof.
  unfold exec, thumbnailClick. unfold bind. cbn [modify].
  destruct (controlsRenderPage_run env i (set_currentPage i s)) as (s' & E & H).
  rewrite E. cbn [fst snd].
  change (pdfViewer (set_currentPage i s)) with (pdfViewer s) in H.
  destruct (pdfViewer s) as [v|] eqn:Hv.
  - destruct H as [(F1 & F2 & F3 & F4 & F5 & F6 & F7 & F8 & F9) Hc].
    cbn in F1, F2, F3, F4, F5, F6, F7, F8, F9, Hc.
    repeat split; try assumption. now destruct Hc.
  - subst s'. cbn. now rewrite Hv.
Qed.

Lemma zoomIn_manual c v : Viewer.manualScale (fst (fst (Viewer.zoomIn c v))) = true.
Proof.
  unfold Viewer.zoomIn, bind. cbn [get].
  pose proof (ViewerSpec.setScale_result c (Viewer.scale v * (125 # 100)) v) as [_ E].
  now destruct (Viewer.setScale _ _ v) as [[v1 e1] r].
Qed.

Lemma zoomOut_manual c v : Viewer.manualScale (fst (fst (Viewer.zoomOut c v))) = true.
Proof.
  unfold Viewer.zoomOut, bind. cbn [get].
  pose proof (ViewerSpec.setScale_result c (Viewer.scale v / (125 # 100)) v) as [_ E].
  now destruct (Viewer.setScale _ _ v) as [[v1 e1] r].
Qed.

Lemma resizeTimer_manual env s v :
  pdfViewer s = Some v -> Viewer.manualScale v = true -> resizeTimer env s = (s, [], Ok tt).
Proof.
  intros Hv Hm. unfold resizeTimer, bind. cbn [get]. rewrite Hv.
  destruct (currentPDFData s); [|reflexivity].
  unfold Viewer.isManuallyScaled. now rewrite Hm.
Qed.

Lemma resize_after_manual (m : Viewer.VM unit) env s v :
  pdfViewer s = Some v -> Viewer.manualScale (fst (fst (m v))) = true ->
  exec (resizeTimer env) (exec (callViewer m) s) = exec (callViewer m) s.
Proof.
  intros Hv Hm. destruct (callViewer_frame m s v Hv) as (s1 & E & Hv1 & _).
  unfold exec. rewrite E. cbn [fst]. now rewrite (resizeTimer_manual env s1 _ Hv1 Hm).
Qed.

Lemma with_viewer (m : Viewer.PDFViewer -> AM unit) s v :
  pdfViewer s = Some v ->
  exec (s0 <- get ;; match pdfViewer s0 with Some v0 => m v0 | None => ret tt end)%eff s
  = exec (m v) s.
Proof.
  intros Hv. unfold exec, bind. cbn [get]. rewrite Hv.
  now destruct (m v s) as [[s2 ev2] r].
Qed.

Lemma without_viewer (m : Viewer.PDFViewer -> AM unit) s :
  pdfViewer s = None ->
  exec (s0 <- get ;; match pdfViewer s0 with Some v0 => m v0 | None => ret tt end)%eff s
  = s.
Proof. intros Hv. unfold exec, bind. cbn [get]. now rewrite Hv. Qed.

Lemma resizeTimer_no_viewer env s : pdfViewer s = None -> exec (resizeTimer env) s = s.
Proof. intros Hv. unfold exec, resizeTimer, bind. cbn [get]. now rewrite Hv. Qed.

(** X28: a window resize after a zoom made by hand changes nothing.  After
    the zoom-in button, the zoom-out button or a Ctrl-wheel event, whatever
    the rendering did, the resize callback leaves the state as it is: it
    does not fit the page again. *)
Theorem resize_after_zoom (env env' : Env) (deltaY : Q) (s : App) :
  exec (resizeTimer env') (exec (zoomInClick env) s) = exec (zoomInClick env) s
  /\ exec (resizeTimer env') (exec (zoomOutClick env) s) = exec (zoomOutClick env) s
  /\ exec (resizeTimer env') (exec (wheelZoom env deltaY) s)
     = exec (wheelZoom env deltaY) s.
Proof.
  assert (W : exec (resizeTimer env') (exec (wheelZoom env deltaY) s)
              = exec (wheelZoom env deltaY) s).
  { destruct (pdfViewer s) as [v|] eqn:Hv.
    - assert (E : exec (wheelZoom env deltaY) s
                  = exec (callViewer
                            (Viewer.setScale (container env)
                               (Viewer.getScale v
                                * (if Thumbnail.isPositive deltaY
                                   then 9 # 10 else 11 # 10))%Q)) s).
      { unfold exec, wheelZoom, bind. cbn [get]. rewrite Hv.
        now destruct (callViewer _ s) as [[s2 ev2] r]. }
      rewrite E.
      apply (resize_after_manual _ env' s v Hv
               (proj2 (ViewerSpec.setScale_result _ _ v))).
    - assert (E : exec (wheelZoom env deltaY) s = s).
      { unfold exec, wheelZoom, bind. cbn [get]. now rewrite Hv. }
      rewrite E. apply (resizeTimer_no_viewer env' s Hv). }
  split; [|split; [|exact W]]; clear W.
  - unfold zoomInClick. destruct (pdfViewer s) as [v|] eqn:Hv.
    + rewrite (with_viewer (fun _ => callViewer (Viewer.zoomIn (container env))) s v Hv).
      apply (resize_after_manual _ env' s v Hv (zoomIn_manual _ v)).
    + rewrite (without_viewer (fun _ => callViewer (Viewer.zoomIn (container env))) s Hv).
      apply (resizeTimer_no_viewer env' s Hv).
  - unfold zoomOutClick. destruct (pdfViewer s) as [v|] eqn:Hv.
    + rewrite (with_viewer (fun _ => callViewer (Viewer.zoomOut (container env))) s v Hv).
      apply (resize_after_manual _ env' s v Hv (zoomOut_manual _ v)).
    + rewrite (without_viewer (fun _ => callViewer (Viewer.zoomOut (container env))) s Hv).
      apply (resizeTimer_no_viewer env' s Hv).
Qed.

Lemma Math_round_bounds (a : Q) (lo hi : Z) :
  (inject_Z lo <= a)%Q -> (a <= inject_Z hi)%Q -> lo <= Math_round a <= hi.
Proof.
  intros Hlo Hhi. unfold Math_round. split.
  - rewrite <- (Qfloor_Z lo). apply Qfloor_resp_le. lra.
  - apply Z.lt_succ_r. rewrite Zlt_Qlt.
    pose proof (Qfloor_le (a + (1 # 2))) as F.
    unfold Z.succ. rewrite inject_Z_plus. change (inject_Z 1) with 1%Q. lra.
Qed.

(** X29: the zoom display.  For a viewer that was created and then used
    through its methods in any way, [updateZoomLevel] writes a percentage
    between 50 and 300. *)
Theorem zoom_level_bounds (cssWidth cssHeight : Q)
    (steps : list (Viewer.Container * Viewer.Op)) (s : App) :
  pdfViewer s = Some (Viewer.runOps (Viewer.create cssWidth cssHeight) steps) ->
  exists z, zoomLevel s = Some z /\ 50 <= z <= 300.
Proof.
  intros Hv. unfold zoomLevel. rewrite Hv. eexists. split; [reflexivity|].
  destruct (ScaleFacts.reachable_scaleOk cssWidth cssHeight steps) as [Hlo Hhi].
  unfold Viewer.getScale.
  apply Math_round_bounds; change (inject_Z 50) with 50%Q; change (inject_Z 300) with 300%Q;
    lra.
Qed.

Lemma zoom_level_bounds_witness :
  exists z, zoomLevel (set_pdfViewer exampleViewer (initial 300 150)) = Some z
            /\ 50 <= z <= 300.
Proof.
  exact (zoom_level_bounds 300 150
           [(Some (1000, 800), Viewer.OpLoadPDF (Ok letter))]
           (set_pdfViewer exampleViewer (initial 300 150)) eq_refl).
Defined.

End ControlsSpec.

(* ------------------------------------------------------------------ *)
(** ** The size of a thumbnail                                         *)
(* ------------------------------------------------------------------ *)

Module ThumbnailSpec.
Import PDFJS Viewer Thumbnail.
Local Open Scope Q_scope.


Lemma floor_scaled (a b : Q) : Math_floor a * b <= a * b \/ b < 0.
Proof.
  destruct (Qlt_le_dec b 0) as [Hb|Hb]; [now right | left].
  unfold Math_floor. apply Qmult_le_compat_r; [apply Qfloor_le | exact Hb].
Qed.



End ThumbnailSpec.
